(** * Workflow orchestration engine: retry, step runner, session store, driver

    A shallow embedding of the TypeScript sources of the QA automation
    agent, named here by the module paths their imports use:

      - [utils/retry.ts]                 Backoff Executor
      - [agents/base.ts]                 Step Runner ([BaseAgent])
      - [types/qa.ts], [types/agent.ts]  shared types
      - [orchestrator/session-manager.ts]  Session Store
      - [orchestrator/main.ts]           Workflow Driver
      - [services/notion-mcp.ts], [services/slack-notifier.ts]  collaborators
      - [utils/validation.ts]            token checks
      - [agents/code-agent.ts], [agents/action-classifier.ts],
        [agents/qa-analyzer.ts]          guards, heuristics and defaults of
                                         the phase strategies

    Conventions.  A JS [number] holding an integer (milliseconds, attempt
    counters, [Date.now()]) is a [Z]; a [Date] is its [getTime()] value.
    A JS string is a [string]; the patterns the code matches are ASCII, so
    matching on bytes is exact.  An optional field is an [option].  A
    [Map<string, V>] is a [gmap string V].  A thrown value is the [Throw]
    constructor of [Exc].  [async] code is run to completion, threading
    the state it mutates; what the outside does (how each invocation of a
    strategy settles, whether a remote call fails, what [Math.random]
    returns) is a parameter.  Logging is left out.  Timers are explicit:
    a pending [setTimeout] is an entry of the store's [timers], and its
    firing is an operation of its own. *)

From Stdlib Require Import ZArith Ascii String List Bool Lia.
From Stdlib Require Import DecimalString.
From stdpp Require Import base option list gmap strings fin_maps.

Local Open Scope Z_scope.
Local Open Scope string_scope.

(** ** JavaScript values used by the sources *)

Module Js.

(** [`${n}`] for an integer-valued number. *)
Definition showZ (n : Z) : string := NilZero.string_of_int (Z.to_int n).

(** ASCII lower-casing, as used by the [i] flag on ASCII patterns. *)
Definition lowerChar (c : ascii) : ascii :=
  let n := nat_of_ascii c in
  if (andb (Nat.leb 65 n) (Nat.leb n 90)) then ascii_of_nat (n + 32) else c.

Fixpoint lower (s : string) : string :=
  match s with
  | EmptyString => EmptyString
  | String c s' => String (lowerChar c) (lower s')
  end.

(** [s.startsWith(p)]. *)
Fixpoint startsWith (p s : string) : bool :=
  match p, s with
  | EmptyString, _ => true
  | String _ _, EmptyString => false
  | String a p', String b s' => if Ascii.eqb a b then startsWith p' s' else false
  end.

(** [/p/.test(s)] for a pattern [p] without metacharacters: [p] occurs
    somewhere in [s]. *)
Fixpoint test (p s : string) : bool :=
  startsWith p s ||
  match s with
  | EmptyString => false
  | String _ s' => test p s'
  end.

(** [/p/i.test(s)] for a lower-case ASCII pattern [p]. *)
Definition testi (p s : string) : bool := test p (lower s).

(** An [Error] object: [name], [message] and the optional [code] that
    Node attaches to system errors. *)
Record Error := mkError {
  name : string;
  message : string;
  code : option string;
}.

(** [new Error(msg)]. *)
Definition newError (msg : string) : Error :=
  {| name := "Error"; message := msg; code := None |}.

(** [new TypeError(msg)], as the runtime raises on a dereference of
    [undefined]. *)
Definition TypeError (msg : string) : Error :=
  {| name := "TypeError"; message := msg; code := None |}.

(** What a [throw] or a rejected promise carries: an [Error] object, or
    [undefined] (as [throw lastError!] can). *)
Inductive Thrown :=
| Err (e : Error)
| Undefined.

(** Reading [error.message] in a [catch] block. *)
Definition undefinedMessage : Error :=
  TypeError "Cannot read properties of undefined (reading 'message')".

(** Reading [error.code] of a thrown [undefined]. *)
Definition undefinedCode : Error :=
  TypeError "Cannot read properties of undefined (reading 'code')".

(** [s || d] on strings: the empty string is falsy. *)
Definition strOr (s d : string) : string :=
  if String.eqb s "" then d else s.

(** [o || d] where [o] may be [undefined]. *)
Definition optOr (o : option string) (d : string) : string :=
  match o with
  | Some s => strOr s d
  | None => d
  end.

(** [n || d] on numbers: [0] and [undefined] are falsy. *)
Definition numOr (o : option Z) (d : Z) : Z :=
  match o with
  | Some n => if Z.eqb n 0 then d else n
  | None => d
  end.

End Js.

(** Outcome of a promise or of a block that may throw. *)
Inductive Exc (A : Type) : Type :=
| Ok (a : A)
| Throw (t : Js.Thrown).
Arguments Ok {A} a.
Arguments Throw {A} t.

(** ** Backoff Executor ([src/utils/retry.ts]) *)

Module Retry.

Record RetryOptions := mkRetryOptions {
  maxAttempts : Z;
  initialDelay : Z;
  maxDelay : Z;
  backoffMultiplier : Z;
  retryableErrors : option (list string);
  onRetry : bool; (* whether an [onRetry] hook is supplied *)
}.

(** [Partial<RetryOptions>] as callers pass it. *)
Record PartialRetryOptions := mkPartial {
  p_maxAttempts : option Z;
  p_initialDelay : option Z;
  p_maxDelay : option Z;
  p_backoffMultiplier : option Z;
  p_retryableErrors : option (list string);
  p_onRetry : bool;
}.

Definition DEFAULT_RETRY_OPTIONS : RetryOptions :=
  {| maxAttempts := 3;
     initialDelay := 1000;
     maxDelay := 30000;
     backoffMultiplier := 2;
     retryableErrors := None;
     onRetry := false |}.

(** [{ ...DEFAULT_RETRY_OPTIONS, ...options }]. *)
Definition merge (options : PartialRetryOptions) : RetryOptions :=
  {| maxAttempts := default (maxAttempts DEFAULT_RETRY_OPTIONS) (p_maxAttempts options);
     initialDelay := default (initialDelay DEFAULT_RETRY_OPTIONS) (p_initialDelay options);
     maxDelay := default (maxDelay DEFAULT_RETRY_OPTIONS) (p_maxDelay options);
     backoffMultiplier :=
       default (backoffMultiplier DEFAULT_RETRY_OPTIONS) (p_backoffMultiplier options);
     retryableErrors := p_retryableErrors options;
     onRetry := p_onRetry options |}.

(** [calculateDelay], computed on integers.  A JS number holds the
    integers up to [MAX_SAFE_INTEGER] exactly, so this is the code's
    result on the inputs of [exactDelay]; beyond them the code rounds,
    overflows to [Infinity] or yields [NaN] ([0 * Infinity]). *)
Definition calculateDelay (attempt : Z) (options : RetryOptions) : Z :=
  let delay := initialDelay options * backoffMultiplier options ^ (attempt - 1) in
  Z.min delay (maxDelay options).

(** [Number.MAX_SAFE_INTEGER]. *)
Definition MAX_SAFE_INTEGER : Z := 2 ^ 53 - 1.

Definition safeInteger (n : Z) : Prop := - MAX_SAFE_INTEGER <= n <= MAX_SAFE_INTEGER.

(** The inputs on which every value [calculateDelay] handles (the
    options, the power and the product) is a safe integer. *)
Definition exactDelay (attempt : Z) (options : RetryOptions) : Prop :=
  1 <= attempt /\
  safeInteger (initialDelay options) /\
  safeInteger (maxDelay options) /\
  safeInteger (backoffMultiplier options) /\
  safeInteger (backoffMultiplier options ^ (attempt - 1)) /\
  safeInteger (initialDelay options * backoffMultiplier options ^ (attempt - 1)).

(** The default patterns, in source order; [true] marks the [i] flag. *)
Definition retryablePatterns : list (string * bool) :=
  [ ("network", true); ("timeout", true); ("rate limit", true);
    ("ECONNRESET", false); ("ETIMEDOUT", false); ("ENOTFOUND", false);
    ("429", false); ("502", false); ("503", false); ("504", false) ].

Definition matches (msg : string) (pat : string * bool) : bool :=
  if snd pat then Js.testi (fst pat) msg else Js.test (fst pat) msg.

Definition isRetryableError (error : Js.Error) (options : RetryOptions) : bool :=
  match retryableErrors options with
  | Some (c :: cs) =>
      let errorCode := Js.optOr (Js.code error) (Js.name error) in
      existsb (String.eqb errorCode) (c :: cs)
  | _ =>
      let errorMessage := Js.message error in
      existsb (matches errorMessage) retryablePatterns
  end.

(** What one call of [retry] did: how it settled, how many times it
    invoked [fn], the [onRetry] calls it made and the delays it slept. *)
Record Run (T : Type) := mkRun {
  outcome : Exc T;
  invocations : nat;
  onRetryCalls : list (Js.Error * Z);
  sleeps : list Z;
}.
Arguments mkRun {T}.
Arguments outcome {T}.
Arguments invocations {T}.
Arguments onRetryCalls {T}.
Arguments sleeps {T}.

Section Loop.
Context {T : Type}.
(** [fn k] is how the [k]-th invocation (from 0) of the wrapped
    operation settles. *)
Variable fn : nat -> Exc T.
Variable opts : RetryOptions.

(** The first dereference of a caught [undefined]: on the last attempt
    the log call reads [lastError.message]; before that
    [isRetryableError] reads [error.code] when an explicit retryable set
    is given and [error.message] otherwise. *)
Definition undefinedRead (attempt : Z) : Js.Error :=
  if attempt >=? maxAttempts opts then Js.undefinedMessage
  else match retryableErrors opts with
       | Some (_ :: _) => Js.undefinedCode
       | _ => Js.undefinedMessage
       end.

(** The [for] loop from [attempt] on, [left] iterations remaining
    ([left = maxAttempts - attempt + 1]); [called] counts invocations
    so far.  When the loop falls through, [throw lastError!] throws
    the last error, or [undefined] when none was caught.  The [catch]
    block dereferences [lastError] on every path, so an operation
    that throws [undefined] makes it throw a [TypeError]
    ([undefinedRead]). *)
Fixpoint loop (left : nat) (attempt : Z) (called : nat)
         (lastError : option Js.Error) : Run T :=
  match left with
  | O =>
      mkRun (Throw (from_option Js.Err Js.Undefined lastError)) called [] []
  | S left' =>
      match fn called with
      | Ok v => mkRun (Ok v) (S called) [] []
      | Throw Js.Undefined => mkRun (Throw (Js.Err (undefinedRead attempt))) (S called) [] []
      | Throw (Js.Err e) =>
          if attempt >=? maxAttempts opts then
            mkRun (Throw (Js.Err e)) (S called) [] []
          else if negb (isRetryableError e opts) then
            mkRun (Throw (Js.Err e)) (S called) [] []
          else
            let delay := calculateDelay attempt opts in
            let r := loop left' (attempt + 1) (S called) (Some e) in
            mkRun (outcome r) (invocations r)
                  (if onRetry opts then (e, attempt) :: onRetryCalls r
                   else onRetryCalls r)
                  (delay :: sleeps r)
      end
  end.
End Loop.

Definition retry {T : Type} (fn : nat -> Exc T) (options : PartialRetryOptions) : Run T :=
  let opts := merge options in
  loop fn opts (Z.to_nat (maxAttempts opts)) 1 0%nat None.

(** An operation that fails permanently with retryable errors: every
    invocation throws an [Error] the policy classifies as retryable. *)
Definition alwaysRetryable {T : Type} (fn : nat -> Exc T) (opts : RetryOptions) : Prop :=
  forall k, exists e, fn k = Throw (Js.Err e) /\ isRetryableError e opts = true.

End Retry.

(** ** Step Runner ([src/agents/base.ts]) *)

Module BaseAgent.

Record AgentConfig := mkAgentConfig {
  agentType : string;
  timeout : option Z;
  retries : option Z;
  model : option string;
}.

(** The constructor's
    [{ timeout: 300000, retries: 3, model: '...', ...config }]. *)
Definition construct (config : AgentConfig) : AgentConfig :=
  {| agentType := agentType config;
     timeout := Some (default 300000 (timeout config));
     retries := Some (default 3 (retries config));
     model := Some (default "claude-sonnet-4-5-20250929" (model config)) |}.

(** [AgentResult<T>]. *)
Record ResultError := mkResultError {
  r_message : string;
  r_code : string;
  r_retryable : bool;
}.

Record Metadata := mkMetadata {
  executionTime : Z;
  retryCount : Z;
  m_agentType : string;
}.

Record AgentResult (T : Type) := mkAgentResult {
  success : bool;
  data : option T;
  error : option ResultError;
  metadata : Metadata;
}.
Arguments mkAgentResult {T}.
Arguments success {T}.
Arguments data {T}.
Arguments error {T}.
Arguments metadata {T}.

(** How one invocation of the abstract [run] behaves: it settles with
    [result] after [after] milliseconds, or never ([None]). *)
Record Settles (O : Type) := mkSettles {
  after : Z;
  result : Exc O;
}.
Arguments mkSettles {O}.
Arguments after {O}.
Arguments result {O}.

Definition Behaviour (O : Type) : Type := option (Settles O).

(** A promise settles once; settling it again changes nothing. *)
Inductive Promise (A : Type) : Type :=
| Pending
| Settled (o : Exc A).
Arguments Pending {A}.
Arguments Settled {A} o.

Definition settle {A} (p : Promise A) (o : Exc A) : Promise A :=
  match p with
  | Pending => Settled o
  | Settled _ => p
  end.

(** The two contenders of [Promise.race]. *)
Inductive RaceEvent (O : Type) : Type :=
| RunSettles (o : Exc O)
| TimerFires.
Arguments RunSettles {O} o.
Arguments TimerFires {O}.

Definition timeoutError (timeout : Z) : Js.Error :=
  Js.newError ("Agent timeout after " ++ Js.showZ timeout ++ "ms").

(** The delay [setTimeout] really uses: a delay below 1 ms or above
    2147483647 ms is set to 1 ms. *)
Definition timerDelay (timeout : Z) : Z :=
  if (1 <=? timeout)%Z && (timeout <=? 2147483647)%Z then timeout else 1.

(** The settle events of one attempt in the order they happen.  [run] is
    started before the timer is armed, so it wins a tie. *)
Definition raceEvents {O} (timeout : Z) (b : Behaviour O) : list (RaceEvent O) :=
  match b with
  | None => [TimerFires]
  | Some s =>
      if (after s <=? timerDelay timeout)%Z
      then [RunSettles (result s); TimerFires]
      else [TimerFires; RunSettles (result s)]
  end.

(** What an event does to the promise returned by [Promise.race]. *)
Definition raceStep {O} (timeout : Z) (p : Promise O) (ev : RaceEvent O) : Promise O :=
  match ev with
  | RunSettles o => settle p o
  | TimerFires => settle p (Throw (Js.Err (timeoutError timeout)))
  end.

Definition race {O} (timeout : Z) (evs : list (RaceEvent O)) : Promise O :=
  fold_left (raceStep timeout) evs Pending.

(** How long the awaiting caller waits. *)
Definition raceDuration {O} (timeout : Z) (b : Behaviour O) : Z :=
  match b with
  | None => timerDelay timeout
  | Some s => Z.min (Z.max 0 (after s)) (timerDelay timeout)
  end.

(** The operation does not resolve within the timeout: it never
    settles, or settles only after the timer has fired. *)
Definition resolvesLate {O} (timeout : Z) (b : Behaviour O) : Prop :=
  match b with
  | None => True
  | Some s => timerDelay timeout < after s
  end.

Section Agent.
Context {O : Type}.
Variable config : AgentConfig.
(** [run k]: behaviour of the [k]-th invocation of the subclass's
    [run(input)]. *)
Variable run : nat -> Behaviour O.

Definition effectiveTimeout : Z := Js.numOr (timeout config) 300000.

(** [executeWithTimeout]: the value [await] sees is the state of the
    race promise once every event of the attempt has happened. *)
Definition executeWithTimeout (k : nat) : Exc O :=
  match race effectiveTimeout (raceEvents effectiveTimeout (run k)) with
  | Settled o => o
  | Pending => Throw (Js.Err (timeoutError effectiveTimeout))
  end.

Definition retryablePatterns : list (string * bool) :=
  [ ("rate limit", true); ("timeout", true); ("network", true);
    ("ECONNRESET", false); ("ETIMEDOUT", false);
    ("429", false); ("502", false); ("503", false); ("504", false) ].

Definition isRetryableError (error : Js.Error) : bool :=
  let errorMessage := Js.message error in
  existsb (Retry.matches errorMessage) retryablePatterns.

Definition retryOptions : Retry.PartialRetryOptions :=
  {| Retry.p_maxAttempts := Some (Js.numOr (retries config) 3);
     Retry.p_initialDelay := None;
     Retry.p_maxDelay := None;
     Retry.p_backoffMultiplier := None;
     Retry.p_retryableErrors := None;
     Retry.p_onRetry := true |}.

Definition attempts : Retry.Run O := Retry.retry executeWithTimeout retryOptions.

(** [retryCount] is assigned by every [onRetry] call; the last one
    stays. *)
Definition lastRetry (calls : list (Js.Error * Z)) : Z :=
  fold_left (fun _ c => snd c) calls 0.

(** [Date.now() - startTime]: the waits of the attempts made plus the
    back-off sleeps. *)
Definition elapsed (r : Retry.Run O) : Z :=
  fold_right Z.add 0
    (map (fun k => raceDuration effectiveTimeout (run k))
         (seq 0 (Retry.invocations r)))
  + fold_right Z.add 0 (Retry.sleeps r).

Definition meta (r : Retry.Run O) : Metadata :=
  {| executionTime := elapsed r;
     retryCount := lastRetry (Retry.onRetryCalls r);
     m_agentType := agentType config |}.

(** The [try] block of [execute]. *)
Definition executeBody : Exc (AgentResult O) :=
  let r := attempts in
  match Retry.outcome r with
  | Ok v =>
      Ok {| success := true; data := Some v; error := None; metadata := meta r |}
  | Throw t => Throw t
  end.

(** The [catch] block of [execute]; it reads [error.message] for the
    log before it builds the result. *)
Definition executeCatch (t : Js.Thrown) : Exc (AgentResult O) :=
  let r := attempts in
  match t with
  | Js.Undefined => Throw (Js.Err Js.undefinedMessage)
  | Js.Err e =>
      Ok {| success := false;
            data := None;
            error := Some {| r_message := Js.message e;
                             r_code := Js.optOr (Js.code e) "AGENT_ERROR";
                             r_retryable := isRetryableError e |};
            metadata := meta r |}
  end.

Definition execute : Exc (AgentResult O) :=
  match executeBody with
  | Ok r => Ok r
  | Throw t => executeCatch t
  end.
End Agent.

End BaseAgent.

(** ** Shared types ([src/types/qa.ts], [src/types/agent.ts]) *)

Module Types.

Inductive QAStatus :=
| NOT_STARTED | IN_PROGRESS | DONE | NOT_ACTIONABLE | IN_REVIEW | CANCELLED.

Inductive SessionStatus := CREATED | RUNNING | COMPLETED | FAILED | TIMEOUT.

Inductive WorkflowPhase :=
| DETECTION | ANALYSIS | CLASSIFICATION | IMPLEMENTATION | PR_CREATION | COMPLETION.

#[global] Instance QAStatus_eq_dec : EqDecision QAStatus.
Proof. solve_decision. Defined.
#[global] Instance SessionStatus_eq_dec : EqDecision SessionStatus.
Proof. solve_decision. Defined.
#[global] Instance WorkflowPhase_eq_dec : EqDecision WorkflowPhase.
Proof. solve_decision. Defined.

Record NotionQAItem := mkQAItem {
  qa_id : string;
  qa_url : string;
  qa_title : string;
  qa_description : string;
  qa_status : QAStatus;
  qa_priority : option string;
  qa_images : option (list string);
  qa_reporter : string;
  qa_databaseId : string;
}.

(** The phase payloads.  The core only threads them through; it reads
    [shouldAct] and [reason] of a decision and [url] of a pull request. *)
Record QAAnalysis := mkAnalysis {
  an_summary : string;
  an_issueType : string;
  an_severity : string;
  an_affectedComponents : list string;
}.

Record ClassificationDecision := mkDecision {
  shouldAct : bool;
  reason : string;
  workType : option string;
}.

Record CodeChanges := mkCodeChanges {
  cc_files : list (string * string);
  cc_summary : string;
  cc_branch : option string;
}.

Record PullRequest := mkPullRequest {
  pr_url : string;
  pr_number : Z;
  pr_branch : string;
  pr_title : string;
  pr_labels : list string;
}.

(** [ProjectConfig]: only its identity matters to the core. *)
Record ProjectConfig := mkProjectConfig {
  pc_id : string;
  pc_name : string;
  pc_enabled : bool;
}.

Record SessionError := mkSessionError {
  se_message : string;
  se_code : string;
  se_stack : option string;
  se_phase : option WorkflowPhase;
  se_retryable : bool;
}.

Record AgentContext := mkContext {
  sessionId : string;
  qaItem : NotionQAItem;
  projectId : option string;
  projectConfig : option ProjectConfig;
  analysis : option QAAnalysis;
  decision : option ClassificationDecision;
  codeChanges : option CodeChanges;
  pullRequest : option PullRequest;
  createdAt : Z;
  updatedAt : Z;
}.

(** [Partial<AgentContext>]: [Some v] is a key that is present. *)
Record PartialContext := mkPartialContext {
  u_sessionId : option string;
  u_qaItem : option NotionQAItem;
  u_projectId : option string;
  u_projectConfig : option ProjectConfig;
  u_analysis : option QAAnalysis;
  u_decision : option ClassificationDecision;
  u_codeChanges : option CodeChanges;
  u_pullRequest : option PullRequest;
  u_createdAt : option Z;
  u_updatedAt : option Z;
}.

Definition noUpdates : PartialContext :=
  mkPartialContext None None None None None None None None None None.

(** [{ ...ctx, ...updates }]. *)
Definition spread (ctx : AgentContext) (u : PartialContext) : AgentContext :=
  {| sessionId := default (sessionId ctx) (u_sessionId u);
     qaItem := default (qaItem ctx) (u_qaItem u);
     projectId := from_option Some (projectId ctx) (u_projectId u);
     projectConfig := from_option Some (projectConfig ctx) (u_projectConfig u);
     analysis := from_option Some (analysis ctx) (u_analysis u);
     decision := from_option Some (decision ctx) (u_decision u);
     codeChanges := from_option Some (codeChanges ctx) (u_codeChanges u);
     pullRequest := from_option Some (pullRequest ctx) (u_pullRequest u);
     createdAt := default (createdAt ctx) (u_createdAt u);
     updatedAt := default (updatedAt ctx) (u_updatedAt u) |}.

Definition withUpdatedAt (now : Z) (ctx : AgentContext) : AgentContext :=
  spread ctx (mkPartialContext None None None None None None None None None (Some now)).

Record AgentSession := mkSession {
  id : string;
  qaItemId : string;
  s_projectId : option string;
  status : SessionStatus;
  context : AgentContext;
  startedAt : Z;
  completedAt : option Z;
  error : option SessionError;
  currentPhase : option WorkflowPhase;
  completedPhases : list WorkflowPhase;
}.

End Types.

(** ** Session Store ([src/orchestrator/session-manager.ts]) *)

Module SessionManager.
Import Types.

(** What the [EventEmitter] emitted, oldest first; the session is named
    by its id. *)
Inductive Event :=
| SessionCreated (sid : string)
| SessionUpdated (sid : string)
| SessionPhase (sid : string) (phase : WorkflowPhase)
| SessionContext (sid : string)
| SessionClosed (sid : string)
| SessionTimeout (sid : string).

(** A pending [setTimeout] of the runtime: the session id its callback
    closes over and the time it is due. *)
Record Timer := mkTimer {
  t_session : string;
  t_due : Z;
}.

Record t := mk {
  sessions : gmap string AgentSession;
  timeoutHandlers : gmap string nat;
  defaultTimeout : Z;
  timers : gmap nat Timer;   (* the runtime's pending timers, by handle *)
  nextHandle : nat;
  emitted : list Event;
}.

(** [new SessionManager(defaultTimeout = 3600000)]. *)
Definition new (timeout : option Z) : t :=
  {| sessions := ∅;
     timeoutHandlers := ∅;
     defaultTimeout := default 3600000 timeout;
     timers := ∅;
     nextHandle := 0%nat;
     emitted := [] |}.

Definition setSessions (m : gmap string AgentSession) (sm : t) : t :=
  mk m (timeoutHandlers sm) (defaultTimeout sm) (timers sm) (nextHandle sm) (emitted sm).

Definition emit (ev : Event) (sm : t) : t :=
  mk (sessions sm) (timeoutHandlers sm) (defaultTimeout sm) (timers sm) (nextHandle sm)
     (emitted sm ++ [ev])%list.

(** [`session-${Date.now()}-${random}`]; [suffix] is what
    [Math.random().toString(36).substring(2, 9)] produced. *)
Definition generateSessionId (now : Z) (suffix : string) : string :=
  "session-" ++ Js.showZ now ++ "-" ++ suffix.

(** [setTimeout(callback, this.defaultTimeout)]: the runtime sets a delay
    below 1 ms or above 2147483647 ms to 1 ms ([BaseAgent.timerDelay]). *)
Definition setupTimeout (now : Z) (sid : string) (sm : t) : t :=
  let h := nextHandle sm in
  mk (sessions sm)
     (<[sid := h]> (timeoutHandlers sm))
     (defaultTimeout sm)
     (<[h := mkTimer sid (now + BaseAgent.timerDelay (defaultTimeout sm))]> (timers sm))
     (S h)
     (emitted sm).

Definition clearTimeout (sid : string) (sm : t) : t :=
  match timeoutHandlers sm !! sid with
  | Some h =>
      mk (sessions sm) (delete sid (timeoutHandlers sm)) (defaultTimeout sm)
         (delete h (timers sm)) (nextHandle sm) (emitted sm)
  | None => sm
  end.

(** The session object [create] builds. *)
Definition newSession (now : Z) (sid : string) (item : NotionQAItem)
           (additionalContext : PartialContext) : AgentSession :=
  {| id := sid;
     qaItemId := qa_id item;
     s_projectId := u_projectId additionalContext;
     status := CREATED;
     context :=
       spread {| sessionId := sid; qaItem := item;
                 projectId := None; projectConfig := None;
                 analysis := None; decision := None;
                 codeChanges := None; pullRequest := None;
                 createdAt := now; updatedAt := now |}
              additionalContext;
     startedAt := now;
     completedAt := None;
     error := None;
     currentPhase := None;
     completedPhases := [] |}.

Definition create (now : Z) (suffix : string) (item : NotionQAItem)
           (additionalContext : PartialContext) : t -> AgentSession * t :=
  fun sm =>
    let sid := generateSessionId now suffix in
    let session := newSession now sid item additionalContext in
    let sm1 := setSessions (<[sid := session]> (sessions sm)) sm in
    let sm2 := setupTimeout now sid sm1 in
    (session, emit (SessionCreated sid) sm2).

Definition get (sid : string) (sm : t) : option AgentSession := sessions sm !! sid.

Definition isCompletedOrFailed (st : SessionStatus) : bool :=
  match st with
  | COMPLETED | FAILED => true
  | _ => false
  end.

(** The assignments [updateStatus] makes to the session object. *)
Definition withStatus (now : Z) (st : SessionStatus) (err : option SessionError)
           (session : AgentSession) : AgentSession :=
  {| id := id session;
     qaItemId := qaItemId session;
     s_projectId := s_projectId session;
     status := st;
     context := withUpdatedAt now (context session);
     startedAt := startedAt session;
     completedAt := if isCompletedOrFailed st then Some now else completedAt session;
     error := from_option Some (error session) err;
     currentPhase := currentPhase session;
     completedPhases := completedPhases session |}.

Definition updateStatus (now : Z) (sid : string) (st : SessionStatus)
           (err : option SessionError) (sm : t) : t :=
  match sessions sm !! sid with
  | None => sm
  | Some session =>
      let sm1 := setSessions (<[sid := withStatus now st err session]> (sessions sm)) sm in
      let sm2 := if isCompletedOrFailed st then clearTimeout sid sm1 else sm1 in
      emit (SessionUpdated sid) sm2
  end.

(** The assignments [updatePhase] makes to the session object. *)
Definition withPhase (now : Z) (phase : WorkflowPhase) (session : AgentSession)
  : AgentSession :=
  {| id := id session;
     qaItemId := qaItemId session;
     s_projectId := s_projectId session;
     status := status session;
     context := withUpdatedAt now (context session);
     startedAt := startedAt session;
     completedAt := completedAt session;
     error := error session;
     currentPhase := Some phase;
     completedPhases :=
       if bool_decide (phase ∈ completedPhases session)
       then completedPhases session
       else (completedPhases session ++ [phase])%list |}.

Definition updatePhase (now : Z) (sid : string) (phase : WorkflowPhase) (sm : t) : t :=
  match sessions sm !! sid with
  | None => sm
  | Some session =>
      emit (SessionPhase sid phase)
           (setSessions (<[sid := withPhase now phase session]> (sessions sm)) sm)
  end.

(** The assignment [updateContext] makes to the session object. *)
Definition withContext (now : Z) (updates : PartialContext) (session : AgentSession)
  : AgentSession :=
  {| id := id session;
     qaItemId := qaItemId session;
     s_projectId := s_projectId session;
     status := status session;
     context := withUpdatedAt now (spread (context session) updates);
     startedAt := startedAt session;
     completedAt := completedAt session;
     error := error session;
     currentPhase := currentPhase session;
     completedPhases := completedPhases session |}.

Definition updateContext (now : Z) (sid : string) (updates : PartialContext) (sm : t) : t :=
  match sessions sm !! sid with
  | None => sm
  | Some session =>
      emit (SessionContext sid)
           (setSessions (<[sid := withContext now updates session]> (sessions sm)) sm)
  end.

Definition close (now : Z) (sid : string) (st : option SessionStatus) (sm : t) : t :=
  match sessions sm !! sid with
  | None => sm
  | Some _ =>
      let finalStatus := default COMPLETED st in
      let sm1 := updateStatus now sid finalStatus None sm in
      let sm2 := clearTimeout sid sm1 in
      emit (SessionClosed sid) sm2
  end.

(** [Array.from(this.sessions.values())]; the order of the values is
    not the insertion order of the JS [Map]. *)
Definition values (sm : t) : list AgentSession := (map_to_list (sessions sm)).*2.

Definition getActiveSessions (sm : t) : list AgentSession :=
  filter (fun s => status s = RUNNING ∨ status s = CREATED) (values sm).

Definition getSessionsByProject (pid : string) (sm : t) : list AgentSession :=
  filter (fun s => s_projectId s = Some pid) (values sm).

Definition getSessionCount (sm : t) : nat := size (sessions sm).

Definition getActiveSessionCount (sm : t) : nat := length (getActiveSessions sm).

(** The condition under which [cleanup] deletes an entry. *)
Definition swept (cutoff : Z) (s : AgentSession) : bool :=
  match completedAt s with
  | Some c => (c <? cutoff)%Z && isCompletedOrFailed (status s)
  | None => false
  end.

Definition cleanup (now : Z) (olderThan : option Z) (sm : t) : t :=
  let cutoff := now - default 86400000 olderThan in
  setSessions (filter (fun kv => swept cutoff kv.2 = false) (sessions sm)) sm.

Definition SESSION_TIMEOUT : SessionError :=
  {| se_message := "Session timed out";
     se_code := "SESSION_TIMEOUT";
     se_stack := None;
     se_phase := None;
     se_retryable := false |}.

(** The callback [setupTimeout] hands to [setTimeout]. *)
Definition onTimeout (now : Z) (sid : string) (sm : t) : t :=
  match sessions sm !! sid with
  | Some session =>
      if bool_decide (status session = RUNNING) then
        emit (SessionTimeout sid) (updateStatus now sid TIMEOUT (Some SESSION_TIMEOUT) sm)
      else sm
  | None => sm
  end.

(** The runtime fires timer [h] at time [now]: only a pending timer that
    is due fires, and it fires once. *)
Definition fireTimer (now : Z) (h : nat) (sm : t) : t :=
  match timers sm !! h with
  | Some tm =>
      if (t_due tm <=? now)%Z then
        onTimeout now (t_session tm)
          (mk (sessions sm) (timeoutHandlers sm) (defaultTimeout sm)
              (delete h (timers sm)) (nextHandle sm) (emitted sm))
      else sm
  | None => sm
  end.

Record Stats := mkStats {
  total : nat;
  active : nat;
  completed : nat;
  failed : nat;
  timeout : nat;
}.

Definition getStats (sm : t) : Stats :=
  let all := values sm in
  {| total := length all;
     active := length (filter (fun s => status s = RUNNING) all);
     completed := length (filter (fun s => status s = COMPLETED) all);
     failed := length (filter (fun s => status s = FAILED) all);
     timeout := length (filter (fun s => status s = TIMEOUT) all) |}.

(** One call on the store, or one timer firing. *)
Inductive Op :=
| Create (suffix : string) (item : NotionQAItem) (additionalContext : PartialContext)
| UpdateStatus (sid : string) (st : SessionStatus) (err : option SessionError)
| UpdatePhase (sid : string) (phase : WorkflowPhase)
| UpdateContext (sid : string) (updates : PartialContext)
| Close (sid : string) (st : option SessionStatus)
| Cleanup (olderThan : option Z)
| TimerFires (h : nat).

Definition step (now : Z) (op : Op) (sm : t) : t :=
  match op with
  | Create suffix item ctx => (create now suffix item ctx sm).2
  | UpdateStatus sid st err => updateStatus now sid st err sm
  | UpdatePhase sid phase => updatePhase now sid phase sm
  | UpdateContext sid updates => updateContext now sid updates sm
  | Close sid st => close now sid st sm
  | Cleanup olderThan => cleanup now olderThan sm
  | TimerFires h => fireTimer now h sm
  end.

(** A history: each operation with the clock reading it ran at. *)
Definition run (history : list (Z * Op)) (sm : t) : t :=
  fold_left (fun acc e => step e.1 e.2 acc) history sm.

(** The status an operation asks the store to write, if any. *)
Definition requested (op : Op) : option (string * SessionStatus) :=
  match op with
  | UpdateStatus sid st _ => Some (sid, st)
  | Close sid st => Some (sid, default COMPLETED st)
  | _ => None
  end.

(** [op] does not move a COMPLETED or FAILED session to another kind of
    status. *)
Definition keepsCompletion (op : Op) (sm : t) : bool :=
  match requested op with
  | Some (sid, st) =>
      match sessions sm !! sid with
      | Some s => implb (isCompletedOrFailed (status s)) (isCompletedOrFailed st)
      | None => true
      end
  | None => true
  end.

Fixpoint keepCompletion (history : list (Z * Op)) (sm : t) : bool :=
  match history with
  | [] => true
  | e :: rest => keepsCompletion e.2 sm && keepCompletion rest (step e.1 e.2 sm)
  end.

(** COMPLETED or FAILED implies a completion stamp. *)
Definition stamped (s : AgentSession) : Prop :=
  isCompletedOrFailed (status s) = true -> is_Some (completedAt s).

(** A completion stamp implies COMPLETED or FAILED. *)
Definition stampedOnly (s : AgentSession) : Prop :=
  is_Some (completedAt s) -> isCompletedOrFailed (status s) = true.

(** The work item of the end-to-end scenarios. *)
Definition loginItem : NotionQAItem :=
  {| qa_id := "page-1";
     qa_url := "https://www.notion.so/page-1";
     qa_title := "login button unresponsive";
     qa_description := "login button unresponsive";
     qa_status := NOT_STARTED;
     qa_priority := None;
     qa_images := None;
     qa_reporter := "Unknown";
     qa_databaseId := "db-1" |}.

End SessionManager.

(** ** Workflow Driver ([src/orchestrator/main.ts]) with its collaborators *)

Module Orchestrator.
Import Types.

(** A [callTool] request of the Notion MCP client. *)
Inductive ToolCall :=
| UpdatePage (pageId : string) (st : QAStatus)
| AppendBlock (parentId : string) (comment : string)
| UpdateProperties (pageId : string) (prUrl : string)
| QueryDatabase (st : option QAStatus).

(** A [chat.postMessage] of the Slack notifier. *)
Inductive SlackMessage :=
| MsgStart (item : NotionQAItem)
| MsgSuccess (item : NotionQAItem) (pr : PullRequest)
| MsgError (item : NotionQAItem) (errorMessage errorCode : string)
| MsgNotActionable (item : NotionQAItem) (why : string).

Inductive OrchestratorEvent :=
| QaCompleted (item : NotionQAItem) (pr : PullRequest).

(** How the outside behaves: the remote services and the phase
    strategies ([run] of each agent subclass, per invocation). *)
Record Env := mkEnv {
  toolError : ToolCall -> option Js.Error;
  postError : SlackMessage -> option Js.Error;
  randomSuffix : nat -> string;
  analyzerRun : AgentContext -> nat -> BaseAgent.Behaviour QAAnalysis;
  classifierRun :
    QAAnalysis -> AgentContext -> nat -> BaseAgent.Behaviour ClassificationDecision;
  coderRun :
    QAAnalysis -> ClassificationDecision -> AgentContext -> nat ->
    BaseAgent.Behaviour CodeChanges;
  prManagerRun : CodeChanges -> AgentContext -> nat -> BaseAgent.Behaviour PullRequest;
  prManagerConfig : BaseAgent.AgentConfig -> BaseAgent.AgentConfig;
}.

(** The driver and everything it mutates or talks to. *)
Record World := mkWorld {
  clock : Z;
  sessionManager : SessionManager.t;
  projectConfigO : option ProjectConfig;  (* [config.projectConfig] *)
  isRunning : bool;
  notionConnected : bool;
  toolCalls : list ToolCall;        (* tool calls that went through *)
  slackEnabled : bool;
  posted : list SlackMessage;       (* messages that went out *)
  executed : list string;           (* [agentType] of every [execute()] *)
  draws : nat;                      (* [Math.random()] calls so far *)
  emitted : list OrchestratorEvent;
}.

(** Async code that may throw, run to completion over the world. *)
Definition M (A : Type) : Type := World -> Exc A * World.

Definition ret {A} (a : A) : M A := fun w => (Ok a, w).
Definition throw {A} (e : Js.Error) : M A := fun w => (Throw (Js.Err e), w).
Definition bind {A B} (c : M A) (k : A -> M B) : M B :=
  fun w =>
    match c w with
    | (Ok a, w') => k a w'
    | (Throw t, w') => (Throw t, w')
    end.
(** [try { c } catch (error) { handler }].  Every [catch] block of these
    sources starts by reading [error.message], so a thrown [undefined]
    makes the handler itself throw a [TypeError]. *)
Definition tryCatch {A} (c : M A) (handler : Js.Error -> M A) : M A :=
  fun w =>
    match c w with
    | (Ok a, w') => (Ok a, w')
    | (Throw (Js.Err e), w') => handler e w'
    | (Throw Js.Undefined, w') => (Throw (Js.Err Js.undefinedMessage), w')
    end.
Definition modify (f : World -> World) : M unit := fun w => (Ok tt, f w).
Definition reads {A} (f : World -> A) : M A := fun w => (Ok (f w), w).

#[local] Notation "'let*' x ':=' c 'in' k" := (bind c (fun x => k))
  (at level 10, x name, c at level 100, k at level 200).
#[local] Notation "'await' c 'in' k" := (bind c (fun _ => k))
  (at level 10, c at level 100, k at level 200).

(** Field updates of the world. *)
Definition setSessionManager (sm : SessionManager.t) (w : World) : World :=
  mkWorld (clock w) sm (projectConfigO w) (isRunning w)
          (notionConnected w) (toolCalls w) (slackEnabled w) (posted w)
          (executed w) (draws w) (emitted w).

Definition setToolCalls (l : list ToolCall) (w : World) : World :=
  mkWorld (clock w) (sessionManager w) (projectConfigO w) (isRunning w)
          (notionConnected w) l (slackEnabled w) (posted w)
          (executed w) (draws w) (emitted w).

Definition setPosted (l : list SlackMessage) (w : World) : World :=
  mkWorld (clock w) (sessionManager w) (projectConfigO w) (isRunning w)
          (notionConnected w) (toolCalls w) (slackEnabled w) l
          (executed w) (draws w) (emitted w).

Definition setExecuted (l : list string) (w : World) : World :=
  mkWorld (clock w) (sessionManager w) (projectConfigO w) (isRunning w)
          (notionConnected w) (toolCalls w) (slackEnabled w) (posted w)
          l (draws w) (emitted w).

Definition setClock (now : Z) (w : World) : World :=
  mkWorld now (sessionManager w) (projectConfigO w) (isRunning w)
          (notionConnected w) (toolCalls w) (slackEnabled w) (posted w)
          (executed w) (draws w) (emitted w).

Definition setDraws (n : nat) (w : World) : World :=
  mkWorld (clock w) (sessionManager w) (projectConfigO w) (isRunning w)
          (notionConnected w) (toolCalls w) (slackEnabled w) (posted w)
          (executed w) n (emitted w).

Definition setEmitted (l : list OrchestratorEvent) (w : World) : World :=
  mkWorld (clock w) (sessionManager w) (projectConfigO w) (isRunning w)
          (notionConnected w) (toolCalls w) (slackEnabled w) (posted w)
          (executed w) (draws w) l.

(** A call on the session manager at the current time. *)
Definition onSessions (f : Z -> SessionManager.t -> SessionManager.t) : M unit :=
  modify (fun w => setSessionManager (f (clock w) (sessionManager w)) w).


Section Driver.
Variable env : Env.

(** *** NotionMCPClient *)

Definition callTool (c : ToolCall) : M unit :=
  fun w =>
    match toolError env c with
    | Some e => (Throw (Js.Err e), w)
    | None => (Ok tt, setToolCalls (toolCalls w ++ [c])%list w)
    end.

Definition guarded (c : ToolCall) : M unit :=
  let* connected := reads notionConnected in
  if negb connected then throw (Js.newError "Not connected to Notion MCP")
  else tryCatch (callTool c) (fun e => throw e).

Definition updatePageStatus (pageId : string) (st : QAStatus) : M unit :=
  guarded (UpdatePage pageId st).
Definition addComment (pageId comment : string) : M unit :=
  guarded (AppendBlock pageId comment).
Definition updatePageProperties (pageId prUrl : string) : M unit :=
  guarded (UpdateProperties pageId prUrl).

(** *** SlackNotifier: every notification swallows its own failure. *)

Definition post (m : SlackMessage) : M unit :=
  fun w =>
    if negb (slackEnabled w) then (Ok tt, w)
    else match postError env m with
         | Some _ => (Ok tt, w)
         | None => (Ok tt, setPosted (posted w ++ [m])%list w)
         end.

Definition notifyStart (item : NotionQAItem) : M unit := post (MsgStart item).
Definition notifySuccess (item : NotionQAItem) (pr : PullRequest) : M unit :=
  post (MsgSuccess item pr).
Definition notifyError (item : NotionQAItem) (error : Js.Error) : M unit :=
  post (MsgError item (Js.message error) (default "UNKNOWN_ERROR" (Js.code error))).
Definition notifyNotActionable (item : NotionQAItem) (why : string) : M unit :=
  post (MsgNotActionable item why).

(** *** Agents: each subclass constructor, then [BaseAgent.execute]. *)

Definition subclassConfig (type : string) (dflt : Z) (config : BaseAgent.AgentConfig)
  : BaseAgent.AgentConfig :=
  BaseAgent.construct
    {| BaseAgent.agentType := type;
       BaseAgent.timeout := Some (Js.numOr (BaseAgent.timeout config) dflt);
       BaseAgent.retries := BaseAgent.retries config;
       BaseAgent.model := BaseAgent.model config |}.

Definition onlyType (type : string) : BaseAgent.AgentConfig :=
  BaseAgent.mkAgentConfig type None None None.

Definition qaAnalyzerConfig := subclassConfig "qa-analyzer" 300000 (onlyType "qa-analyzer").
Definition actionClassifierConfig :=
  subclassConfig "action-classifier" 60000 (onlyType "action-classifier").
Definition codeAgentConfig := subclassConfig "code-agent" 1800000 (onlyType "code-agent").

(** Modelled from the spec: [src/agents/pr-manager.ts] is not among the
    sources.  Per the Step Runner contract every concrete phase is a
    strategy under the same [execute] envelope, so the reporting
    agent is [BaseAgent.execute] over its own [run]; what its
    constructor does to the configuration is the parameter
    [prManagerConfig]. *)
Definition prManagerAgentConfig := prManagerConfig env (onlyType "pr-manager").

(** [await agent.execute(input)]: the call is recorded and the clock
    advances by the time the agent took.  What else the runtime runs
    while the driver waits is not part of the driver: a session timer
    that comes due meanwhile is an operation of the store of its own
    ([SessionManager.TimerFires]), and a statement that needs it not to
    happen says so ([Pipeline.noTimerComesDue]). *)
Definition executeAgent {O} (config : BaseAgent.AgentConfig)
           (run : nat -> BaseAgent.Behaviour O) : M (BaseAgent.AgentResult O) :=
  fun w =>
    let w1 := setExecuted (executed w ++ [BaseAgent.agentType config])%list w in
    match BaseAgent.execute config run with
    | Ok r =>
        (Ok r, setClock (clock w1 + BaseAgent.executionTime (BaseAgent.metadata r)) w1)
    | Throw t => (Throw t, w1)
    end.

(** [`${result.error?.message}`]. *)
Definition errorText {O} (r : BaseAgent.AgentResult O) : string :=
  from_option BaseAgent.r_message "undefined" (BaseAgent.error r).

(** [result.data!] of a successful result.  [execute] sets [data]
    whenever [success] is true, so the [None] branch (a dereference
    of [undefined] further on) is never taken. *)
Definition payload {O} (r : BaseAgent.AgentResult O) : M O :=
  match BaseAgent.data r with
  | Some v => ret v
  | None => throw (Js.TypeError "Cannot read properties of undefined")
  end.

(** [this.sessionManager.get(id)!.context]. *)
Definition contextOf (sid : string) : M AgentContext :=
  let* s := reads (fun w => SessionManager.get sid (sessionManager w)) in
  match s with
  | Some session => ret (context session)
  | None =>
      throw (Js.TypeError "Cannot read properties of undefined (reading 'context')")
  end.

Definition createSession (item : NotionQAItem) : M AgentSession :=
  fun w =>
    let additional :=
      mkPartialContext None None None (projectConfigO w) None None None None None None in
    let '(session, sm') :=
      SessionManager.create (clock w) (randomSuffix env (draws w)) item additional
                            (sessionManager w) in
    (Ok session, setDraws (S (draws w)) (setSessionManager sm' w)).

Definition nl : string := String (ascii_of_nat 10) EmptyString.

Definition notActionableComment (why : string) : string :=
  "🤖 Automation Analysis" ++ nl ++ nl ++
  "This QA is not actionable for automation." ++ nl ++ nl ++
  "Reason: " ++ why ++ nl ++ nl ++ "Please review and update if needed.".

Definition completedComment (pr : PullRequest) : string :=
  "✅ Automated Fix Completed" ++ nl ++ nl ++
  "Pull Request: " ++ pr_url pr ++ nl ++ nl ++ "Please review the changes.".

Definition failedComment (error : Js.Error) : string :=
  "❌ Automation Failed" ++ nl ++ nl ++
  "Error: " ++ Js.message error ++ nl ++ nl ++ "Please review manually.".

Definition handleNotActionable (item : NotionQAItem) (why : string) : M unit :=
  await updatePageStatus (qa_id item) NOT_ACTIONABLE in
  await addComment (qa_id item) (notActionableComment why) in
  notifyNotActionable item why.

Definition completeQA (item : NotionQAItem) (pr : PullRequest) : M unit :=
  await updatePageStatus (qa_id item) DONE in
  await addComment (qa_id item) (completedComment pr) in
  await tryCatch (updatePageProperties (qa_id item) (pr_url pr)) (fun _ => ret tt) in
  notifySuccess item pr.

Definition handleError (item : NotionQAItem) (error : Js.Error) : M unit :=
  await updatePageStatus (qa_id item) IN_REVIEW in
  await addComment (qa_id item) (failedComment error) in
  notifyError item error.

Definition PROCESSING_ERROR (error : Js.Error) : SessionError :=
  {| se_message := Js.message error;
     se_code := "PROCESSING_ERROR";
     se_stack := None;
     se_phase := None;
     se_retryable := false |}.

(** The [try] block of [processQA]. *)
Definition phases (item : NotionQAItem) (sid : string) : M unit :=
  await updatePageStatus (qa_id item) IN_PROGRESS in
  await notifyStart item in
  (* Phase 1: QA Analysis *)
  await onSessions (fun now => SessionManager.updatePhase now sid ANALYSIS) in
  let* ctx1 := contextOf sid in
  let* analysisResult := executeAgent qaAnalyzerConfig (analyzerRun env ctx1) in
  if negb (BaseAgent.success analysisResult) then
    throw (Js.newError ("QA Analysis failed: " ++ errorText analysisResult))
  else
  await onSessions (fun now => SessionManager.updateContext now sid
    (mkPartialContext None None None None (BaseAgent.data analysisResult)
                      None None None None None)) in
  (* Phase 2: Action Classification *)
  await onSessions (fun now => SessionManager.updatePhase now sid CLASSIFICATION) in
  let* ctx2 := contextOf sid in
  let* analysisData := payload analysisResult in
  let* classificationResult :=
    executeAgent actionClassifierConfig (classifierRun env analysisData ctx2) in
  if negb (BaseAgent.success classificationResult) then
    throw (Js.newError ("Classification failed: " ++ errorText classificationResult))
  else
  await onSessions (fun now => SessionManager.updateContext now sid
    (mkPartialContext None None None None None (BaseAgent.data classificationResult)
                      None None None None)) in
  let* decisionData := payload classificationResult in
  if negb (shouldAct decisionData) then
    await handleNotActionable item (reason decisionData) in
    onSessions (fun now => SessionManager.close now sid (Some COMPLETED))
  else
  (* Phase 3: Code Implementation *)
  await onSessions (fun now => SessionManager.updatePhase now sid IMPLEMENTATION) in
  let* ctx3 := contextOf sid in
  let* codeResult := executeAgent codeAgentConfig (coderRun env analysisData decisionData ctx3) in
  if negb (BaseAgent.success codeResult) then
    throw (Js.newError ("Code implementation failed: " ++ errorText codeResult))
  else
  await onSessions (fun now => SessionManager.updateContext now sid
    (mkPartialContext None None None None None None (BaseAgent.data codeResult)
                      None None None)) in
  (* Phase 4: PR Creation *)
  await onSessions (fun now => SessionManager.updatePhase now sid PR_CREATION) in
  let* ctx4 := contextOf sid in
  let* codeData := payload codeResult in
  let* prResult := executeAgent prManagerAgentConfig (prManagerRun env codeData ctx4) in
  if negb (BaseAgent.success prResult) then
    throw (Js.newError ("PR creation failed: " ++ errorText prResult))
  else
  await onSessions (fun now => SessionManager.updateContext now sid
    (mkPartialContext None None None None None None None
                      (BaseAgent.data prResult) None None)) in
  (* Phase 5: Completion *)
  await onSessions (fun now => SessionManager.updatePhase now sid COMPLETION) in
  let* prData := payload prResult in
  await completeQA item prData in
  await onSessions (fun now => SessionManager.close now sid (Some COMPLETED)) in
  modify (fun w => setEmitted (emitted w ++ [QaCompleted item prData])%list w).

Definition processQA (item : NotionQAItem) : M unit :=
  let* session := createSession item in
  await onSessions (fun now => SessionManager.updateStatus now (id session) RUNNING None) in
  tryCatch (phases item (id session))
    (fun error =>
       await onSessions (fun now =>
         SessionManager.updateStatus now (id session) FAILED
                                     (Some (PROCESSING_ERROR error))) in
       throw error).

Definition handleNewQA (item : NotionQAItem) : M unit :=
  if negb (bool_decide (qa_status item = NOT_STARTED)) then ret tt
  else tryCatch (processQA item) (fun error => handleError item error).

(** The [for ... of] loop of the polling callback. *)
Fixpoint handleAll (items : list NotionQAItem) : M unit :=
  match items with
  | [] => ret tt
  | item :: rest => await handleNewQA item in handleAll rest
  end.

(** [queryDatabase(status)]; [pages] is what the tool answers with. *)
Definition queryDatabase (st : option QAStatus) (pages : list NotionQAItem)
  : M (list NotionQAItem) :=
  await guarded (QueryDatabase st) in ret pages.

(** One tick of the polling timer. *)
Definition pollTick (pages : list NotionQAItem) : M unit :=
  let* running := reads isRunning in
  if negb running then ret tt
  else tryCatch (let* items := queryDatabase (Some NOT_STARTED) pages in handleAll items)
                (fun _ => ret tt).
End Driver.

(** What the Slack notifier gets out of [msgs]: nothing when disabled,
    otherwise the messages whose [postMessage] does not fail. *)
Definition delivered (env : Env) (enabled : bool) (msgs : list SlackMessage)
  : list SlackMessage :=
if enabled
then List.filter (fun m => match postError env m with None => true | Some _ => false end) msgs
else [].

(** The remote tracker accepts every call. *)
Definition trackerUp (env : Env) (w : World) : Prop :=
notionConnected w = true /\ forall c, toolError env c = None.

(** A Step Runner invocation that resolves to a success wrapping [v]. *)
Definition succeeds {O} (config : BaseAgent.AgentConfig)
           (run : nat -> BaseAgent.Behaviour O) (v : O) : Prop :=
  exists r, BaseAgent.execute config run = Ok r /\
            BaseAgent.success r = true /\ BaseAgent.data r = Some v.

(** A Step Runner invocation that resolves to a failure whose error
    message is [msg]. *)
Definition failsWith {O} (config : BaseAgent.AgentConfig)
           (run : nat -> BaseAgent.Behaviour O) (msg : string) : Prop :=
  exists r, BaseAgent.execute config run = Ok r /\
            BaseAgent.success r = false /\ errorText r = msg.

(** How each phase's strategy turns out, whatever it is handed. *)
Definition analysisOk (env : Env) : Prop :=
  forall ctx, exists a, succeeds qaAnalyzerConfig (analyzerRun env ctx) a.

Definition classificationOk (env : Env) (act : bool) : Prop :=
  forall a ctx, exists d,
    succeeds actionClassifierConfig (classifierRun env a ctx) d /\ shouldAct d = act.

Definition implementationOk (env : Env) : Prop :=
  forall a d ctx, exists c, succeeds codeAgentConfig (coderRun env a d ctx) c.

Definition analysisFails (env : Env) : Prop :=
  forall ctx, exists msg, failsWith qaAnalyzerConfig (analyzerRun env ctx) msg.

Definition classificationFails (env : Env) : Prop :=
  forall a ctx, exists msg, failsWith actionClassifierConfig (classifierRun env a ctx) msg.

Definition implementationFails (env : Env) : Prop :=
  forall a d ctx, exists msg, failsWith codeAgentConfig (coderRun env a d ctx) msg.

Definition reportingFails (env : Env) : Prop :=
  forall c ctx, exists msg,
    failsWith (prManagerAgentConfig env) (prManagerRun env c ctx) msg.

(** Phase [p] is the first whose Step Result has [success = false]: the
    phases before it succeed (classification saying "act"). *)
Definition firstFailure (env : Env) (p : WorkflowPhase) : Prop :=
  match p with
  | ANALYSIS => analysisFails env
  | CLASSIFICATION => analysisOk env /\ classificationFails env
  | IMPLEMENTATION =>
      analysisOk env /\ classificationOk env true /\ implementationFails env
  | PR_CREATION =>
      analysisOk env /\ classificationOk env true /\ implementationOk env /\
      reportingFails env
  | DETECTION | COMPLETION => False
  end.

(** The failing Step Result of phase [p] carried the message [msg]. *)
Definition stepFailedWith (env : Env) (p : WorkflowPhase) (msg : string) : Prop :=
  match p with
  | ANALYSIS => exists ctx, failsWith qaAnalyzerConfig (analyzerRun env ctx) msg
  | CLASSIFICATION =>
      exists a ctx, failsWith actionClassifierConfig (classifierRun env a ctx) msg
  | IMPLEMENTATION =>
      exists a d ctx, failsWith codeAgentConfig (coderRun env a d ctx) msg
  | PR_CREATION =>
      exists c ctx, failsWith (prManagerAgentConfig env) (prManagerRun env c ctx) msg
  | DETECTION | COMPLETION => False
  end.

(** The agents the driver has executed when phase [p] has run. *)
Definition agentsUpTo (env : Env) (p : WorkflowPhase) : list string :=
  match p with
  | DETECTION => []
  | ANALYSIS => ["qa-analyzer"]
  | CLASSIFICATION => ["qa-analyzer"; "action-classifier"]
  | IMPLEMENTATION => ["qa-analyzer"; "action-classifier"; "code-agent"]
  | PR_CREATION | COMPLETION =>
      ["qa-analyzer"; "action-classifier"; "code-agent";
       BaseAgent.agentType (prManagerAgentConfig env)]
  end.

(** The text the driver puts before a failed step's message. *)
Definition failurePrefix (p : WorkflowPhase) : string :=
  match p with
  | ANALYSIS => "QA Analysis failed: "
  | CLASSIFICATION => "Classification failed: "
  | IMPLEMENTATION => "Code implementation failed: "
  | PR_CREATION => "PR creation failed: "
  | DETECTION | COMPLETION => ""
  end.

(** The id [processQA] gives the session it creates in world [w]. *)
Definition nextSessionId (env : Env) (w : World) : string :=
  SessionManager.generateSessionId (clock w) (randomSuffix env (draws w)).

(** The world in which the [try] block of [processQA] starts: the session
    is created and marked RUNNING. *)
Definition started (env : Env) (item : NotionQAItem) (w : World) : World :=
  let w1 := (createSession env item w).2 in
  setSessionManager
    (SessionManager.updateStatus (clock w1) (nextSessionId env w) RUNNING None
                                 (sessionManager w1)) w1.

(** *** Sample collaborators for the end-to-end scenarios *)

Definition sampleAnalysis : QAAnalysis :=
  {| an_summary := "login button unresponsive";
     an_issueType := "bug";
     an_severity := "high";
     an_affectedComponents := ["LoginForm"] |}.

Definition needsProductDecision : ClassificationDecision :=
  {| shouldAct := false; reason := "needs product decision"; workType := None |}.

(** Scenario B: analysis succeeds, classification says "do not act"; the
    tracker and the chat channel work. *)
Definition scenarioB : Env :=
  {| toolError := fun _ => None;
     postError := fun _ => None;
     randomSuffix := fun _ => "k3x9q2a";
     analyzerRun := fun _ _ => Some (BaseAgent.mkSettles 1200 (Ok sampleAnalysis));
     classifierRun := fun _ _ _ => Some (BaseAgent.mkSettles 300 (Ok needsProductDecision));
     coderRun := fun _ _ _ _ => None;
     prManagerRun := fun _ _ _ => None;
     prManagerConfig := subclassConfig "pr-manager" 300000 |}.

(** Scenario C: the analysis strategy fails all its attempts. *)
Definition scenarioC : Env :=
  {| toolError := fun _ => None;
     postError := fun _ => None;
     randomSuffix := fun _ => "k3x9q2a";
     analyzerRun :=
       fun _ _ => Some (BaseAgent.mkSettles 50 (Throw (Js.Err (Js.newError "network down"))));
     classifierRun := fun _ _ _ => Some (BaseAgent.mkSettles 300 (Ok needsProductDecision));
     coderRun := fun _ _ _ _ => None;
     prManagerRun := fun _ _ _ => None;
     prManagerConfig := subclassConfig "pr-manager" 300000 |}.

(** A started orchestrator: connected tracker, Slack enabled, no session
    yet. *)
Definition freshWorld : World :=
  {| clock := 1000;
     sessionManager := SessionManager.new None;
     projectConfigO := None;
     isRunning := true;
     notionConnected := true;
     toolCalls := [];
     slackEnabled := true;
     posted := [];
     executed := [];
     draws := 0%nat;
     emitted := [] |}.

(** The status the tracker last accepted for a page. *)
Definition trackerStatus (pageId : string) (calls : list ToolCall) : option QAStatus :=
  fold_left (fun acc c =>
               match c with
               | UpdatePage p st => if String.eqb p pageId then Some st else acc
               | _ => acc
               end) calls None.

End Orchestrator.

(** ** Further code of the same sources *)

(** *** [retryWithCondition] and [makeRetryable] ([utils/retry.ts]) *)

Module RetryCondition.

Section Loop.
Context {T : Type}.
(** [fn k]: how the [k]-th invocation settles; [condition]: the caller's
    acceptance test on a result. *)
Variable fn : nat -> Exc T.
Variable condition : T -> bool.
Variable opts : Retry.RetryOptions.

(** The [for] loop of [retryWithCondition].  [await fn()] is not inside a
    [try]: a rejection leaves the function at once.  The [onRetry] hook is
    never called here. *)
Fixpoint loop (left : nat) (attempt : Z) (called : nat) : Retry.Run T :=
  match left with
  | O => Retry.mkRun (Throw (Js.Err (Js.newError "Retry condition not met"))) called [] []
  | S left' =>
      match fn called with
      | Throw t => Retry.mkRun (Throw t) (S called) [] []
      | Ok result =>
          if condition result then Retry.mkRun (Ok result) (S called) [] []
          else if attempt >=? Retry.maxAttempts opts then
            Retry.mkRun
              (Throw (Js.Err (Js.newError "Retry condition not met after max attempts")))
              (S called) [] []
          else
            let delay := Retry.calculateDelay attempt opts in
            let r := loop left' (attempt + 1) (S called) in
            Retry.mkRun (Retry.outcome r) (Retry.invocations r) []
                        (delay :: Retry.sleeps r)
      end
  end.
End Loop.

Definition retryWithCondition {T : Type} (fn : nat -> Exc T) (condition : T -> bool)
           (options : Retry.PartialRetryOptions) : Retry.Run T :=
  let opts := Retry.merge options in
  loop fn condition opts (Z.to_nat (Retry.maxAttempts opts)) 1 0%nat.

(** [makeRetryable(fn, options)]: the returned function runs [retry] on a
    call of [fn] with the arguments it is given; [fn args k] is how the
    [k]-th such call settles. *)
Definition makeRetryable {A T : Type} (fn : A -> nat -> Exc T)
           (options : Retry.PartialRetryOptions) : A -> Retry.Run T :=
  fun args => Retry.retry (fn args) options.

(** The first [j] invocations throw errors the policy retries. *)
Definition failsRetryablyBefore {T : Type} (fn : nat -> Exc T)
           (opts : Retry.RetryOptions) (j : nat) : Prop :=
  forall i, (i < j)%nat ->
    exists e, fn i = Throw (Js.Err e) /\ Retry.isRetryableError e opts = true.

(** An outcome [retry] does not retry: a value, or an [Error] the policy
    does not classify as retryable. *)
Definition final {T : Type} (opts : Retry.RetryOptions) (o : Exc T) : Prop :=
  match o with
  | Ok _ => True
  | Throw (Js.Err e) => Retry.isRetryableError e opts = false
  | Throw Js.Undefined => False
  end.

(** The first [j] invocations return values that fail the condition. *)
Definition rejectedBefore {T : Type} (fn : nat -> Exc T) (condition : T -> bool)
           (j : nat) : Prop :=
  forall i, (i < j)%nat -> exists v, fn i = Ok v /\ condition v = false.

(** An outcome that ends [retryWithCondition]: an accepted value or any
    rejection. *)
Definition ends {T : Type} (condition : T -> bool) (o : Exc T) : Prop :=
  match o with
  | Ok v => condition v = true
  | Throw _ => True
  end.

End RetryCondition.

(** *** Vocabulary for the Session Store's histories *)

Module SessionOps.
Import Types SessionManager.

(** The session an update operation is addressed to. *)
Definition target (op : Op) : option string :=
  match op with
  | UpdateStatus sid _ _ | UpdatePhase sid _ | UpdateContext sid _ | Close sid _ => Some sid
  | Create _ _ _ | Cleanup _ | TimerFires _ => None
  end.

Definition isCreate (op : Op) : bool :=
  match op with
  | Create _ _ _ => true
  | _ => false
  end.

(** [completedPhases] lists no phase twice and holds the current phase. *)
Definition phasesConsistent (s : AgentSession) : Prop :=
  NoDup (completedPhases s) /\
  forall p, currentPhase s = Some p -> p ∈ completedPhases s.

End SessionOps.

(** *** Vocabulary for the Workflow Driver's runs *)

Module Pipeline.
Import Types Orchestrator.

Definition isUpdateProperties (c : ToolCall) : bool :=
  match c with
  | UpdateProperties _ _ => true
  | _ => false
  end.

(** The tracker is connected and accepts every call, except perhaps the
    update of the "PR URL" property. *)
Definition trackerUpButProperties (env : Env) (w : World) : Prop :=
  notionConnected w = true /\
  forall c, isUpdateProperties c = false -> toolError env c = None.

Definition reportingOk (env : Env) : Prop :=
  forall c ctx, exists pr,
    succeeds (prManagerAgentConfig env) (prManagerRun env c ctx) pr.

(** The "PR URL" update as the tracker takes it: recorded when accepted,
    dropped when refused. *)
Definition prUrlUpdate (env : Env) (item : NotionQAItem) (pr : PullRequest)
  : list ToolCall :=
  match toolError env (UpdateProperties (qa_id item) (pr_url pr)) with
  | None => [UpdateProperties (qa_id item) (pr_url pr)]
  | Some _ => []
  end.

(** What a guarded tracker call fails with in world [w], if it fails:
    the client's own error when it is not connected, else the tool's. *)
Definition refusal (env : Env) (w : World) (c : ToolCall) : option Js.Error :=
  if notionConnected w then toolError env c
  else Some (Js.newError "Not connected to Notion MCP").

(** [qaItem.status === QAStatus.NOT_STARTED]. *)
Definition notStarted (item : NotionQAItem) : bool :=
  bool_decide (qa_status item = NOT_STARTED).


(** Two worlds that differ at most in what concerns Slack: whether the
    notifier is enabled and which messages went out. *)
Definition sameButSlack (w1 w2 : World) : Prop :=
  clock w1 = clock w2 /\
  sessionManager w1 = sessionManager w2 /\
  projectConfigO w1 = projectConfigO w2 /\
  isRunning w1 = isRunning w2 /\
  notionConnected w1 = notionConnected w2 /\
  toolCalls w1 = toolCalls w2 /\
  executed w1 = executed w2 /\
  draws w1 = draws w2 /\
  Orchestrator.emitted w1 = Orchestrator.emitted w2.


(** A computation that never throws [undefined]. *)
Definition throwsErrorsOnly {A} (c : M A) : Prop :=
  forall w, (c w).1 <> Throw Js.Undefined.

Definition samplePullRequest : PullRequest :=
  {| pr_url := "https://github.com/acme/shop/pull/42";
     pr_number := 42;
     pr_branch := "fix/qa-page-1";
     pr_title := "fix: login button unresponsive";
     pr_labels := ["qa-automation"] |}.

Definition sampleChanges : CodeChanges :=
  {| cc_files := [("src/LoginForm.tsx", "export const LoginForm = () => null;")];
     cc_summary := "re-enable the submit handler";
     cc_branch := Some "fix/qa-page-1" |}.

Definition fixIt : ClassificationDecision :=
  {| shouldAct := true; reason := "clear bug"; workType := Some "bug_fix" |}.

(** No session timer comes due while [handleNewQA] handles [item]: the
    handler returns before the timer of the session it creates and before
    every timer already pending in the store. *)
Definition noTimerComesDue (env : Env) (item : NotionQAItem) (w : World) : Prop :=
  let finish := clock (handleNewQA env item w).2 in
  finish < clock w
           + BaseAgent.timerDelay (SessionManager.defaultTimeout (sessionManager w)) /\
  forall h tm, SessionManager.timers (sessionManager w) !! h = Some tm ->
               finish < SessionManager.t_due tm.

(** Scenario B with a tracker whose status property has no "Not
    Actionable" option: that update is refused, every other call is
    accepted. *)
Definition scenarioBRefused : Env :=
  {| toolError := fun c =>
       match c with
       | UpdatePage _ NOT_ACTIONABLE =>
           Some (Js.newError "Not Actionable is not a valid select option")
       | _ => None
       end;
     postError := postError scenarioB;
     randomSuffix := randomSuffix scenarioB;
     analyzerRun := analyzerRun scenarioB;
     classifierRun := classifierRun scenarioB;
     coderRun := coderRun scenarioB;
     prManagerRun := prManagerRun scenarioB;
     prManagerConfig := prManagerConfig scenarioB |}.

(** Scenario A: every phase succeeds; the tracker has no "PR URL"
    property and refuses that update. *)
Definition scenarioA : Env :=
  {| toolError := fun c => if isUpdateProperties c
                           then Some (Js.newError "PR URL is not a property that exists")
                           else None;
     postError := fun _ => None;
     randomSuffix := fun _ => "k3x9q2a";
     analyzerRun := fun _ _ => Some (BaseAgent.mkSettles 1200 (Ok sampleAnalysis));
     classifierRun := fun _ _ _ => Some (BaseAgent.mkSettles 300 (Ok fixIt));
     coderRun := fun _ _ _ _ => Some (BaseAgent.mkSettles 90000 (Ok sampleChanges));
     prManagerRun := fun _ _ _ => Some (BaseAgent.mkSettles 2500 (Ok samplePullRequest));
     prManagerConfig := subclassConfig "pr-manager" 300000 |}.

End Pipeline.

(** *** [initialize], [start] and [stop] ([src/orchestrator/main.ts]) with
    [connect], [disconnect] and [subscribeToDatabase] of the tracker
    client *)

Module Lifecycle.
Import Types Orchestrator.

Inductive LifecycleEvent := Started | Stopped.

(** The orchestrator with what [start] and [stop] add to the driver's
    world: the [pollingInterval] field, the runtime's active intervals (by
    handle) and the events emitted on the orchestrator itself. *)
Record Agent := mkAgent {
  world : World;
  pollingInterval : option nat;
  intervals : list nat;
  nextInterval : nat;
  lifecycle : list LifecycleEvent;
}.

Definition L (A : Type) : Type := Agent -> Exc A * Agent.

Definition setIsRunning (b : bool) (w : World) : World :=
  mkWorld (clock w) (sessionManager w) (projectConfigO w) b
          (notionConnected w) (toolCalls w) (slackEnabled w) (posted w)
          (executed w) (draws w) (Orchestrator.emitted w).

Definition setNotionConnected (b : bool) (w : World) : World :=
  mkWorld (clock w) (sessionManager w) (projectConfigO w) (isRunning w)
          b (toolCalls w) (slackEnabled w) (posted w)
          (executed w) (draws w) (Orchestrator.emitted w).

Definition setWorld (w : World) (a : Agent) : Agent :=
  mkAgent w (pollingInterval a) (intervals a) (nextInterval a) (lifecycle a).

Definition emit (ev : LifecycleEvent) (a : Agent) : Agent :=
  mkAgent (world a) (pollingInterval a) (intervals a) (nextInterval a)
          (lifecycle a ++ [ev])%list.

(** [NotionMCPClient.connect]; [connectError] is how
    [client.connect(transport)] settles. *)
Definition connect (connectError : option Js.Error) : L unit :=
  fun a =>
    match connectError with
    | None => (Ok tt, setWorld (setNotionConnected true (world a)) a)
    | Some e => (Throw (Js.Err e), a)
    end.

(** [NotionMCPClient.disconnect]: a failing [client.close()] is logged and
    swallowed, and leaves [isConnected] as it was. *)
Definition disconnect (closeError : option Js.Error) : L unit :=
  fun a =>
    match closeError with
    | None => (Ok tt, setWorld (setNotionConnected false (world a)) a)
    | Some _ => (Ok tt, a)
    end.

Definition subscribeToDatabase : L unit :=
  fun a =>
    if negb (notionConnected (world a))
    then (Throw (Js.Err (Js.newError "Not connected to Notion MCP")), a)
    else (Ok tt, a).

(** [initialize]: its [catch] rethrows what [connect] threw. *)
Definition initialize (connectError : option Js.Error) : L unit :=
  fun a =>
    match connect connectError a with
    | (Ok _, a') => (Ok tt, a')
    | (Throw t, a') => (Throw t, a')
    end.

(** [setupPolling]: [this.pollingInterval = setInterval(...)]. *)
Definition setupPolling : L unit :=
  fun a =>
    let h := nextInterval a in
    (Ok tt, mkAgent (world a) (Some h) (intervals a ++ [h])%list (S h) (lifecycle a)).

Definition start : L unit :=
  fun a =>
    if isRunning (world a) then (Ok tt, a)
    else
      let a1 := setWorld (setIsRunning true (world a)) a in
      match subscribeToDatabase a1 with
      | (Ok _, a2) =>
          let a3 := (setupPolling a2).2 in
          (Ok tt, emit Started a3)
      | (Throw t, a2) => (Throw t, a2)
      end.

(** [clearInterval(this.pollingInterval)]; the field keeps the handle. *)
Definition clearPolling (a : Agent) : Agent :=
  match pollingInterval a with
  | Some h =>
      mkAgent (world a) (pollingInterval a)
              (List.filter (fun h' => negb (Nat.eqb h' h)) (intervals a))
              (nextInterval a) (lifecycle a)
  | None => a
  end.

Definition stop (closeError : option Js.Error) : L unit :=
  fun a =>
    let a1 := setWorld (setIsRunning false (world a)) a in
    let a2 := clearPolling a1 in
    let a3 := (disconnect closeError a2).2 in
    (Ok tt, emit Stopped a3).

(** The runtime runs the callback of interval [h], if it is still
    active. *)
Definition tick (env : Env) (pages : list NotionQAItem) (h : nat) : L unit :=
  fun a =>
    if existsb (Nat.eqb h) (intervals a)
    then let r := pollTick env pages (world a) in (r.1, setWorld r.2 a)
    else (Ok tt, a).

(** [getStats()] of the orchestrator. *)
Record Stats := mkStats {
  st_isRunning : bool;
  st_sessions : SessionManager.Stats;
  st_activeSessions : nat;
}.

Definition getStats (a : Agent) : Stats :=
  {| st_isRunning := isRunning (world a);
     st_sessions := SessionManager.getStats (sessionManager (world a));
     st_activeSessions := SessionManager.getActiveSessionCount (sessionManager (world a)) |}.

(** A constructed orchestrator: nothing connected, nothing running. *)
Definition constructed : Agent :=
  {| world := mkWorld 1000 (SessionManager.new None) None false false [] true [] [] 0 [];
     pollingInterval := None;
     intervals := [];
     nextInterval := 0;
     lifecycle := [] |}.

End Lifecycle.

(** *** The guards of [CodeAgent.run] ([src/agents/code-agent.ts]) *)

Module CodeAgent.
Import Types.

Record CodeAgentInput := mkInput {
  i_analysis : QAAnalysis;
  i_decision : ClassificationDecision;
}.

(** The constructor: [{ ...config, agentType: 'code-agent', timeout:
    config.timeout || 1800000 }] handed to [BaseAgent]. *)
Definition construct (config : BaseAgent.AgentConfig) : BaseAgent.AgentConfig :=
  Orchestrator.subclassConfig "code-agent" 1800000 config.

(** [run]: the two guards, then the implementation steps.  [implement] is
    everything after the guards (the model calls and the simulated test
    run), per invocation.  A guard throws before the first [await], so the
    promise is rejected at once. *)
Definition run (input : option CodeAgentInput) (context : AgentContext)
           (implement : QAAnalysis -> ClassificationDecision -> nat ->
                        BaseAgent.Behaviour CodeChanges)
  : nat -> BaseAgent.Behaviour CodeChanges :=
  fun k =>
    let analysis := match input with
                    | Some i => Some (i_analysis i)
                    | None => analysis context
                    end in
    let decision := match input with
                    | Some i => Some (i_decision i)
                    | None => decision context
                    end in
    match analysis, decision with
    | Some a, Some d =>
        if negb (shouldAct d) then
          Some (BaseAgent.mkSettles 0
                  (Throw (Js.Err (Js.newError "Code agent called for non-actionable QA item"))))
        else implement a d k
    | _, _ =>
        Some (BaseAgent.mkSettles 0
                (Throw (Js.Err
                          (Js.newError "Missing analysis or decision for code implementation"))))
    end.

(** What [run] works on. *)
Definition decisionOf (input : option CodeAgentInput) (context : AgentContext)
  : option ClassificationDecision :=
  match input with
  | Some i => Some (i_decision i)
  | None => decision context
  end.

Definition analysisOf (input : option CodeAgentInput) (context : AgentContext)
  : option QAAnalysis :=
  match input with
  | Some i => Some (i_analysis i)
  | None => analysis context
  end.

End CodeAgent.

(** *** Token checks ([src/utils/validation.ts]) *)

Module Validation.

(** Strings are sequences of one-byte characters here; the three patterns
    accept ASCII characters only, so a token with any other character is
    refused in either reading. *)
Definition between (lo hi : nat) (c : ascii) : bool :=
  ((lo <=? nat_of_ascii c) && (nat_of_ascii c <=? hi))%nat.

Definition isDigit (c : ascii) : bool := between 48 57 c.

(** [[a-zA-Z0-9]]. *)
Definition isAlnum (c : ascii) : bool :=
  between 97 122 c || between 65 90 c || isDigit c.

(** [[a-zA-Z0-9-_]]: the hyphen after the range [0-9] is a literal. *)
Definition isKeyChar (c : ascii) : bool :=
  isAlnum c || Ascii.eqb c "-" || Ascii.eqb c "_".

Definition chars (s : string) : list ascii := list_ascii_of_string s.

(** [prefix] at the start of [s]: the rest, if it is there. *)
Fixpoint stripPrefix (prefix s : string) : option string :=
  match prefix, s with
  | EmptyString, _ => Some s
  | String a p, String b r => if Ascii.eqb a b then stripPrefix p r else None
  | String _ _, EmptyString => None
  end.

(** [/^gh[pousr]_[a-zA-Z0-9]{36,}$/]. *)
Definition isValidGitHubToken (token : string) : bool :=
  match stripPrefix "gh" token with
  | Some (String kind (String "_" rest)) =>
      existsb (Ascii.eqb kind) ["p"; "o"; "u"; "s"; "r"]%char
      && (36 <=? String.length rest)%nat
      && forallb isAlnum (chars rest)
  | _ => false
  end.

(** [/^secret_[a-zA-Z0-9]{43}$/]. *)
Definition isValidNotionToken (token : string) : bool :=
  match stripPrefix "secret_" token with
  | Some rest => (String.length rest =? 43)%nat && forallb isAlnum (chars rest)
  | None => false
  end.

(** [/^sk-ant-api\d{2}-[a-zA-Z0-9-_]{95}$/]. *)
Definition isValidAnthropicKey (key : string) : bool :=
  match stripPrefix "sk-ant-api" key with
  | Some (String d1 (String d2 (String "-" rest))) =>
      isDigit d1 && isDigit d2
      && (String.length rest =? 95)%nat && forallb isKeyChar (chars rest)
  | _ => false
  end.

End Validation.

(** *** The analysis defaults and the classifier's heuristics
    ([src/agents/qa-analyzer.ts], [src/agents/action-classifier.ts]) *)

From Stdlib Require QArith.

Module Strategies.

(** A JS [number] that is a score, not a count: a rational.  ([NaN] is
    not among the values: [JSON.parse] never yields it.) *)
Definition Score : Type := QArith_base.Q.

Definition score (num : Z) (den : positive) : Score := QArith_base.Qmake num den.

(** [a < b] on scores. *)
Definition ltScore (a b : Score) : bool := negb (QArith_base.Qle_bool b a).

(** [s || d] on scores: [0] and [undefined] are falsy. *)
Definition scoreOr (o : option Score) (d : Score) : Score :=
  match o with
  | Some q => if QArith_base.Qeq_bool q (score 0 1) then d else q
  | None => d
  end.

(** [a || d] on arrays: every array is truthy, also the empty one. *)
Definition listOr {A} (o : option (list A)) (d : list A) : list A := default d o.

Record VisualEvidence := mkEvidence {
  ve_description : string;
  ve_extractedText : option string;
  ve_relevantDetails : list string;
}.

(** [QAAnalysis] of [types/qa.ts] with all its fields ([Types.QAAnalysis]
    keeps those the driver passes on).  [analyzedAt] is the string the
    [Date] is built from. *)
Record Analysis := mkAnalysis {
  summary : string;
  issueType : string;
  severity : string;
  stepsToReproduce : list string;
  expectedBehavior : string;
  actualBehavior : string;
  visualEvidence : list VisualEvidence;
  affectedComponents : list string;
  suspectedRootCause : option string;
  relatedIssues : option (list string);
  analyzedAt : option string;
  confidence : Score;
}.

(** What [parseJSON] returned for the synthesis: each field as the model
    wrote it, [None] when it is absent. *)
Record Synthesized := mkSynthesized {
  p_summary : option string;
  p_issueType : option string;
  p_severity : option string;
  p_stepsToReproduce : option (list string);
  p_expectedBehavior : option string;
  p_actualBehavior : option string;
  p_affectedComponents : option (list string);
  p_suspectedRootCause : option string;
  p_relatedIssues : option (list string);
  p_analyzedAt : option string;
  p_confidence : option Score;
}.

(** The object [synthesizeAnalysis] returns ("ensure all required fields
    are present"). *)
Definition synthesizeAnalysis (synthesized : Synthesized)
           (evidence : list VisualEvidence) : Analysis :=
  {| summary := Js.optOr (p_summary synthesized) "No summary available";
     issueType := Js.optOr (p_issueType synthesized) "question";
     severity := Js.optOr (p_severity synthesized) "medium";
     stepsToReproduce := listOr (p_stepsToReproduce synthesized) [];
     expectedBehavior := Js.optOr (p_expectedBehavior synthesized) "Not specified";
     actualBehavior := Js.optOr (p_actualBehavior synthesized) "Not specified";
     visualEvidence := evidence;
     affectedComponents := listOr (p_affectedComponents synthesized) [];
     suspectedRootCause := p_suspectedRootCause synthesized;
     relatedIssues := p_relatedIssues synthesized;
     analyzedAt := p_analyzedAt synthesized;
     confidence := scoreOr (p_confidence synthesized) (score 1 2) |}.

Definition isEmpty {A} (l : list A) : bool :=
  match l with
  | [] => true
  | _ :: _ => false
  end.

(** [evaluateWithHeuristics]: the four rules in order. *)
Definition evaluateWithHeuristics (analysis : Analysis) : bool * string :=
  if String.eqb (issueType analysis) "question" then
    (false, "This is a question, not an actionable issue")
  else if isEmpty (stepsToReproduce analysis) || isEmpty (affectedComponents analysis) then
    (false, "Insufficient information: missing steps to reproduce or affected components")
  else if ltScore (confidence analysis) (score 2 5) then
    (false, "Low confidence in analysis - need more information")
  else if String.eqb (issueType analysis) "documentation"
          && String.eqb (severity analysis) "low" then
    (false, "Low priority documentation request - consider manual review")
  else (true, "Passed heuristic checks").

(** [ClassificationDecision] of [types/agent.ts]; [classifiedAt] is the
    clock reading. *)
Record Decision := mkDecision {
  d_shouldAct : bool;
  d_confidence : Score;
  d_reason : string;
  d_workType : option string;
  d_estimatedComplexity : option string;
  d_requiredSkills : option (list string);
  d_blockers : option (list string);
  d_prerequisites : option (list string);
  d_classifiedAt : Z;
}.

(** [ActionClassifierAgent.run]; [analysis] is
    [input?.analysis || this.context.analysis], [classifyWithAI] the model
    call with its parsing, per invocation.  Everything before the model
    call is synchronous. *)
Definition run (now : Z) (analysis : option Analysis)
           (classifyWithAI : Analysis -> nat -> BaseAgent.Behaviour Decision)
  : nat -> BaseAgent.Behaviour Decision :=
  fun k =>
    match analysis with
    | None =>
        Some (BaseAgent.mkSettles 0
                (Throw (Js.Err (Js.newError "No QA analysis available for classification"))))
    | Some a =>
        let heuristicCheck := evaluateWithHeuristics a in
        if negb heuristicCheck.1 then
          Some (BaseAgent.mkSettles 0
                  (Ok {| d_shouldAct := false;
                         d_confidence := score 9 10;
                         d_reason := heuristicCheck.2;
                         d_workType := None;
                         d_estimatedComplexity := None;
                         d_requiredSkills := None;
                         d_blockers := None;
                         d_prerequisites := None;
                         d_classifiedAt := now |}))
        else classifyWithAI a k
    end.

End Strategies.

(** * Properties *)

(** ** Backoff Executor *)

Section RetryFacts.
Context {T : Type}.
Variable fn : nat -> Exc T.
Variable opts : Retry.RetryOptions.

Lemma loop_exhausts (left : nat) :
  Retry.alwaysRetryable fn opts ->
  forall (attempt : Z) (called : nat) (last : option Js.Error),
    (1 <= left)%nat ->
    attempt + Z.of_nat left = Retry.maxAttempts opts + 1 ->
    let r := Retry.loop fn opts left attempt called last in
    Retry.invocations r = (called + left)%nat /\
    Retry.outcome r = fn (called + left - 1)%nat /\
    length (Retry.sleeps r) = (left - 1)%nat.
Proof.
  intros Hall. induction left as [|left IH]; intros attempt called last Hpos Hsum.
  - lia.
  - destruct (Hall called) as (e & Hfn & Hre).
    cbn [Retry.loop]. rewrite Hfn.
    destruct (Z.geb_spec attempt (Retry.maxAttempts opts)) as [Hge|Hlt].
    + assert (left = 0%nat) by lia. subst left. cbn.
      replace (called + 1 - 1)%nat with called by lia.
      rewrite Hfn. repeat split; lia.
    + rewrite Hre. cbn [negb].
      assert (Hleft : (1 <= left)%nat) by lia.
      destruct (IH (attempt + 1) (S called) (Some e) Hleft ltac:(lia))
        as (Hinv & Hout & Hsl).
      cbn. rewrite Hinv, Hout, Hsl.
      replace (S called + left - 1)%nat with (called + S left - 1)%nat by lia.
      repeat split; lia.
Qed.
End RetryFacts.

(** C4. With [maxAttempts = n >= 1], an operation that throws a retryable
    error on every invocation is invoked exactly [n] times by [retry], and
    the error [retry] surfaces is the one thrown by the [n]-th invocation
    (it also sleeps [n - 1] times in between). *)
Theorem retry_exhausts_after_maxAttempts :
  forall (T : Type) (fn : nat -> Exc T) (options : Retry.PartialRetryOptions) (n : Z),
    Retry.maxAttempts (Retry.merge options) = n ->
    1 <= n ->
    Retry.alwaysRetryable fn (Retry.merge options) ->
    let r := Retry.retry fn options in
    Retry.invocations r = Z.to_nat n /\
    Retry.outcome r = fn (Z.to_nat n - 1)%nat /\
    (exists e, Retry.outcome r = Throw (Js.Err e)) /\
    length (Retry.sleeps r) = (Z.to_nat n - 1)%nat.
Proof.
  intros T fn options n Hn Hpos Hall r. subst r. unfold Retry.retry.
  rewrite Hn.
  destruct (loop_exhausts fn (Retry.merge options) (Z.to_nat n) Hall 1 0%nat None)
    as (Hinv & Hout & Hsl); [lia | lia |].
  cbn in Hinv, Hout. repeat split; try assumption.
  destruct (Hall (Z.to_nat n - 1)%nat) as (e & He & _).
  exists e. now rewrite Hout.
Qed.

(** An operation failing with "ECONNRESET" each time, under the default
    policy overridden to five attempts. *)
Lemma retry_exhausts_witness :
  Retry.invocations
    (Retry.retry (fun _ : nat => @Throw unit (Js.Err (Js.newError "read ECONNRESET")))
                 (Retry.mkPartial (Some 5) None None None None false)) = 5%nat /\
  Retry.outcome
    (Retry.retry (fun _ : nat => @Throw unit (Js.Err (Js.newError "read ECONNRESET")))
                 (Retry.mkPartial (Some 5) None None None None false))
  = Throw (Js.Err (Js.newError "read ECONNRESET")).
Proof.
  destruct (retry_exhausts_after_maxAttempts unit
              (fun _ : nat => Throw (Js.Err (Js.newError "read ECONNRESET")))
              (Retry.mkPartial (Some 5) None None None None false) 5)
    as (H1 & H2 & _).
  - reflexivity.
  - lia.
  - intros k. exists (Js.newError "read ECONNRESET"). split; reflexivity.
  - split; assumption.
Defined.

(** [retry] throws [undefined] only when it makes no attempt at all. *)
Lemma loop_undefined {T} (fn : nat -> Exc T) (opts : Retry.RetryOptions) (left : nat) :
  forall attempt called last,
    Retry.outcome (Retry.loop fn opts left attempt called last) = Throw Js.Undefined ->
    left = 0%nat /\ last = None.
Proof.
  induction left as [|left IH]; intros attempt called last H.
  - cbn in H. destruct last; [discriminate | auto].
  - exfalso. cbn [Retry.loop] in H.
    destruct (fn called) as [v|[e|]]; try discriminate.
    destruct (attempt >=? Retry.maxAttempts opts); [discriminate|].
    destruct (Retry.isRetryableError e opts); cbn in H; [|discriminate].
    apply IH in H. destruct H as [_ H]. discriminate.
Qed.

(** ** The two default classifications *)

(** The Backoff Executor's default classification is the Step Runner's,
    plus the DNS pattern. *)
Lemma default_classification_is_agent_or_ENOTFOUND (e : Js.Error) (opts : Retry.RetryOptions) :
  Retry.retryableErrors opts = None ->
  Retry.isRetryableError e opts
  = BaseAgent.isRetryableError e || Js.test "ENOTFOUND" (Js.message e).
Proof.
  intros Hnone. unfold Retry.isRetryableError, BaseAgent.isRetryableError.
  rewrite Hnone.
  unfold Retry.retryablePatterns, BaseAgent.retryablePatterns.
  cbn [existsb Retry.matches fst snd].
  generalize (Js.testi "network" (Js.message e)) (Js.testi "timeout" (Js.message e))
             (Js.testi "rate limit" (Js.message e)) (Js.test "ECONNRESET" (Js.message e))
             (Js.test "ETIMEDOUT" (Js.message e)) (Js.test "ENOTFOUND" (Js.message e))
             (Js.test "429" (Js.message e)) (Js.test "502" (Js.message e))
             (Js.test "503" (Js.message e)) (Js.test "504" (Js.message e)).
  intros b1 b2 b3 b4 b5 b6 b7 b8 b9 b10.
  destruct b1, b2, b3, b4, b5, b6, b7, b8, b9, b10; reflexivity.
Qed.

(** C6. The two default classifications do not agree: on a DNS failure
    ("ENOTFOUND") the Backoff Executor's default says retryable, with the
    very options [BaseAgent.execute] hands it, while
    [BaseAgent.isRetryableError] says not retryable. *)
Theorem classifications_disagree_on_ENOTFOUND :
  forall config : BaseAgent.AgentConfig,
    BaseAgent.isRetryableError (Js.newError "getaddrinfo ENOTFOUND api.notion.com") = false /\
    Retry.isRetryableError (Js.newError "getaddrinfo ENOTFOUND api.notion.com")
                           (Retry.merge (BaseAgent.retryOptions config)) = true /\
    Retry.isRetryableError (Js.newError "getaddrinfo ENOTFOUND api.notion.com")
                           Retry.DEFAULT_RETRY_OPTIONS = true.
Proof. intros config. repeat split; reflexivity. Qed.

(** ** Step Runner *)

Lemma timeout_message_matches (timeout : Z) :
  Js.testi "timeout" (Js.message (BaseAgent.timeoutError timeout)) = true.
Proof. reflexivity. Qed.

Lemma timeout_error_retryable_agent (timeout : Z) :
  BaseAgent.isRetryableError (BaseAgent.timeoutError timeout) = true.
Proof.
  unfold BaseAgent.isRetryableError, BaseAgent.retryablePatterns.
  cbn [existsb Retry.matches fst snd].
  rewrite timeout_message_matches. now rewrite orb_true_r.
Qed.

Lemma timeout_error_retryable_default (timeout : Z) (opts : Retry.RetryOptions) :
  Retry.retryableErrors opts = None ->
  Retry.isRetryableError (BaseAgent.timeoutError timeout) opts = true.
Proof.
  intros H. rewrite default_classification_is_agent_or_ENOTFOUND by assumption.
  now rewrite timeout_error_retryable_agent.
Qed.

Lemma timerDelay_positive (timeout : Z) : 1 <= BaseAgent.timerDelay timeout.
Proof.
  unfold BaseAgent.timerDelay.
  destruct (Z.leb_spec 1 timeout), (Z.leb_spec timeout 2147483647); cbn; lia.
Qed.

Section StepRunnerFacts.
Context {O : Type}.
Variable config : BaseAgent.AgentConfig.
Variable run : nat -> BaseAgent.Behaviour O.

Let T := BaseAgent.effectiveTimeout config.

(** Once the timer has settled the race, a later settlement of [run]
    leaves the promise as it is. *)
Lemma late_settlement_discarded (b : BaseAgent.Behaviour O) :
  BaseAgent.resolvesLate T b ->
  BaseAgent.race T (BaseAgent.raceEvents T b)
  = BaseAgent.race T [BaseAgent.TimerFires] /\
  BaseAgent.race T (BaseAgent.raceEvents T b)
  = BaseAgent.Settled (Throw (Js.Err (BaseAgent.timeoutError T))).
Proof.
  destruct b as [s|]; cbn; [|auto].
  intros Hlate. destruct (Z.leb_spec (BaseAgent.after s) (BaseAgent.timerDelay T)); [lia|].
  cbn. auto.
Qed.

Hypothesis late : forall k, BaseAgent.resolvesLate T (run k).

Lemma every_attempt_times_out (k : nat) :
  BaseAgent.executeWithTimeout config run k = Throw (Js.Err (BaseAgent.timeoutError T)).
Proof.
  unfold BaseAgent.executeWithTimeout. fold T.
  destruct (late_settlement_discarded (run k) (late k)) as [_ ->]. reflexivity.
Qed.

Lemma timeouts_always_retryable :
  Retry.alwaysRetryable (BaseAgent.executeWithTimeout config run)
                        (Retry.merge (BaseAgent.retryOptions config)).
Proof.
  intros k. exists (BaseAgent.timeoutError T). split.
  - apply every_attempt_times_out.
  - now apply timeout_error_retryable_default.
Qed.

Lemma late_duration (k : nat) :
  BaseAgent.raceDuration T (run k) = BaseAgent.timerDelay T.
Proof.
  specialize (late k). destruct (run k) as [s|]; cbn in *; [|reflexivity].
  pose proof (timerDelay_positive T). lia.
Qed.
End StepRunnerFacts.

(** Two operations that both miss the timeout on every invocation are
    indistinguishable to [retry]. *)
Lemma late_attempts_equal {O} (config : BaseAgent.AgentConfig)
      (run run' : nat -> BaseAgent.Behaviour O) :
  (forall k, BaseAgent.resolvesLate (BaseAgent.effectiveTimeout config) (run k)) ->
  (forall k, BaseAgent.resolvesLate (BaseAgent.effectiveTimeout config) (run' k)) ->
  forall left attempt called last,
    Retry.loop (BaseAgent.executeWithTimeout config run)
               (Retry.merge (BaseAgent.retryOptions config)) left attempt called last
    = Retry.loop (BaseAgent.executeWithTimeout config run')
                 (Retry.merge (BaseAgent.retryOptions config)) left attempt called last.
Proof.
  intros H H'. induction left as [|left IH]; intros attempt called last; [reflexivity|].
  cbn [Retry.loop].
  rewrite (every_attempt_times_out config run H), (every_attempt_times_out config run' H').
  now rewrite IH.
Qed.

Lemma late_elapsed_equal {O} (config : BaseAgent.AgentConfig)
      (run run' : nat -> BaseAgent.Behaviour O) (r : Retry.Run O) :
  (forall k, BaseAgent.resolvesLate (BaseAgent.effectiveTimeout config) (run k)) ->
  (forall k, BaseAgent.resolvesLate (BaseAgent.effectiveTimeout config) (run' k)) ->
  BaseAgent.elapsed config run r = BaseAgent.elapsed config run' r.
Proof.
  intros H H'. unfold BaseAgent.elapsed. f_equal. f_equal.
  apply map_ext. intros k.
  now rewrite (late_duration config run H), (late_duration config run' H').
Qed.

(** C5. When on every attempt the wrapped operation misses the configured
    timeout (it settles after the timer, or never), then: each attempt's
    race is won by the timer and yields the timeout error; a settlement of
    the operation arriving after the timer leaves the settled race
    untouched; [run] is started once per attempt of the retry budget; and
    [execute] resolves to a failure Step Result carrying the timeout
    message, the generic code and [retryable = true].  The late results are
    discarded: the Step Result is the same whatever (and whether) the
    operation resolves with afterwards.  (The retry budget
    [config.retries || 3] is assumed positive.) *)
Theorem late_operation_gives_timeout_result :
  forall (O : Type) (config : BaseAgent.AgentConfig) (run : nat -> BaseAgent.Behaviour O),
    (forall k, BaseAgent.resolvesLate (BaseAgent.effectiveTimeout config) (run k)) ->
    1 <= Js.numOr (BaseAgent.retries config) 3 ->
    (forall k,
        BaseAgent.executeWithTimeout config run k
        = Throw (Js.Err (BaseAgent.timeoutError (BaseAgent.effectiveTimeout config)))) /\
    (forall k,
        BaseAgent.race (BaseAgent.effectiveTimeout config)
                       (BaseAgent.raceEvents (BaseAgent.effectiveTimeout config) (run k))
        = BaseAgent.race (BaseAgent.effectiveTimeout config) [BaseAgent.TimerFires]) /\
    Retry.invocations (BaseAgent.attempts config run)
    = Z.to_nat (Js.numOr (BaseAgent.retries config) 3) /\
    (exists r,
        BaseAgent.execute config run = Ok r /\
        BaseAgent.success r = false /\
        BaseAgent.data r = None /\
        BaseAgent.error r
        = Some {| BaseAgent.r_message :=
                    "Agent timeout after "
                      ++ Js.showZ (BaseAgent.effectiveTimeout config) ++ "ms";
                  BaseAgent.r_code := "AGENT_ERROR";
                  BaseAgent.r_retryable := true |}) /\
    (forall run' : nat -> BaseAgent.Behaviour O,
        (forall k, BaseAgent.resolvesLate (BaseAgent.effectiveTimeout config) (run' k)) ->
        BaseAgent.execute config run' = BaseAgent.execute config run).
Proof.
  intros O config run Hlate Hbudget.
  pose proof (every_attempt_times_out config run Hlate) as Hout.
  pose proof (timeouts_always_retryable config run Hlate) as Hall.
  destruct (loop_exhausts _ _ (Z.to_nat (Js.numOr (BaseAgent.retries config) 3)) Hall
                          1 0%nat None) as (Hinv & Hres & _); [lia | cbn; lia |].
  cbn in Hinv, Hres. rewrite Hout in Hres.
  split; [exact Hout|]. split.
  { intros k. apply (late_settlement_discarded config (run k) (Hlate k)). }
  split; [exact Hinv|]. split.
  - unfold BaseAgent.execute, BaseAgent.executeBody, BaseAgent.attempts, Retry.retry.
    change (Retry.maxAttempts (Retry.merge (BaseAgent.retryOptions config)))
      with (Js.numOr (BaseAgent.retries config) 3).
    cbv zeta. rewrite Hres. cbn [BaseAgent.executeCatch].
    eexists. split; [reflexivity|].
    cbn [BaseAgent.success BaseAgent.data BaseAgent.error].
    rewrite timeout_error_retryable_agent. auto.
  - intros run' Hlate'.
    unfold BaseAgent.execute, BaseAgent.executeBody, BaseAgent.executeCatch,
      BaseAgent.meta, BaseAgent.attempts, Retry.retry.
    rewrite (late_attempts_equal config run' run Hlate' Hlate).
    now rewrite (late_elapsed_equal config run' run _ Hlate' Hlate).
Qed.

(** A classifier whose strategy answers after 90 s, against its 60 s
    timeout. *)
Lemma late_operation_witness :
  Retry.invocations
    (BaseAgent.attempts
       (BaseAgent.construct (BaseAgent.mkAgentConfig "action-classifier" (Some 60000) None None))
       (fun _ : nat => Some (BaseAgent.mkSettles 90000 (Ok true)))) = 3%nat.
Proof.
  destruct (late_operation_gives_timeout_result bool
              (BaseAgent.construct
                 (BaseAgent.mkAgentConfig "action-classifier" (Some 60000) None None))
              (fun _ : nat => Some (BaseAgent.mkSettles 90000 (Ok true))))
    as (_ & _ & H & _).
  - intros k. vm_compute. reflexivity.
  - vm_compute. discriminate.
  - exact H.
Defined.

(** A successful result carries its payload, a failed one its error. *)
Lemma execute_success_data {O} (config : BaseAgent.AgentConfig)
      (run : nat -> BaseAgent.Behaviour O) (r : BaseAgent.AgentResult O) :
  BaseAgent.execute config run = Ok r ->
  (BaseAgent.success r = true -> exists v, BaseAgent.data r = Some v) /\
  (BaseAgent.success r = false -> exists e, BaseAgent.error r = Some e).
Proof.
  unfold BaseAgent.execute, BaseAgent.executeBody.
  destruct (Retry.outcome (BaseAgent.attempts config run)) as [v|[e|]].
  - intros [= <-]. cbn. split; [eauto | discriminate].
  - cbn. intros [= <-]. cbn. split; [discriminate | eauto].
  - discriminate.
Qed.

(** The error code of a failure result: the error's own code when it has
    a non-empty one, the generic code otherwise. *)
Lemma result_code_rule (e : Js.Error) :
  (forall c, Js.code e = Some c -> c <> "" -> Js.optOr (Js.code e) "AGENT_ERROR" = c) /\
  (Js.code e = None -> Js.optOr (Js.code e) "AGENT_ERROR" = "AGENT_ERROR").
Proof.
  split.
  - intros c -> Hc. cbn. unfold Js.strOr.
    destruct (String.eqb_spec c ""); [contradiction | reflexivity].
  - intros ->. reflexivity.
Qed.

Section LastAttempt.
Context {T : Type}.
Variable fn : nat -> Exc T.
Variable opts : Retry.RetryOptions.

(** What [retry] settles with is what its last invocation of the
    operation did; the invocations before it threw retryable errors. *)
Lemma loop_last_invocation (left : nat) :
  forall (attempt : Z) (called : nat) (last : option Js.Error),
    (1 <= left)%nat ->
    attempt + Z.of_nat left = Retry.maxAttempts opts + 1 ->
    exists k,
      Retry.invocations (Retry.loop fn opts left attempt called last) = S k /\
      (called <= k < called + left)%nat /\
      (forall i, (called <= i < k)%nat ->
         exists e, fn i = Throw (Js.Err e) /\ Retry.isRetryableError e opts = true) /\
      Retry.outcome (Retry.loop fn opts left attempt called last)
      = match fn k with
        | Ok v => Ok v
        | Throw (Js.Err e) => Throw (Js.Err e)
        | Throw Js.Undefined =>
            Throw (Js.Err (Retry.undefinedRead opts (attempt + Z.of_nat (k - called))))
        end.
Proof.
  induction left as [|left IH]; intros attempt called last Hpos Hsum; [lia|].
  cbn [Retry.loop].
  assert (Hhere : forall o : Exc T,
             o = match fn called with
                 | Ok v => Ok v
                 | Throw (Js.Err e) => Throw (Js.Err e)
                 | Throw Js.Undefined =>
                     Throw (Js.Err (Retry.undefinedRead opts
                                      (attempt + Z.of_nat (called - called))))
                 end ->
             exists k,
               Retry.invocations (Retry.mkRun o (S called) [] []) = S k /\
               (called <= k < called + S left)%nat /\
               (forall i, (called <= i < k)%nat ->
                  exists e, fn i = Throw (Js.Err e) /\
                            Retry.isRetryableError e opts = true) /\
               Retry.outcome (Retry.mkRun o (S called) [] [])
               = match fn k with
                 | Ok v => Ok v
                 | Throw (Js.Err e) => Throw (Js.Err e)
                 | Throw Js.Undefined =>
                     Throw (Js.Err (Retry.undefinedRead opts
                                      (attempt + Z.of_nat (k - called))))
                 end).
  { intros o Ho. exists called. cbn. split; [reflexivity|]. split; [lia|].
    split; [intros i Hi; lia | exact Ho]. }
  destruct (fn called) as [v|[e|]] eqn:Hfn.
  - apply Hhere. reflexivity.
  - destruct (Z.geb_spec attempt (Retry.maxAttempts opts)) as [Hmax|Hmax];
      [apply Hhere; reflexivity|].
    destruct (Retry.isRetryableError e opts) eqn:Hre; cbn [negb];
      [|apply Hhere; reflexivity].
    assert (Hleft : (1 <= left)%nat) by lia.
    destruct (IH (attempt + 1) (S called) (Some e) Hleft ltac:(lia))
      as (k & Hinv & Hk & Hbefore & Hout).
    exists k. cbn [Retry.invocations Retry.outcome].
    split; [exact Hinv|]. split; [lia|]. split.
    + intros i Hi. destruct (Nat.eq_dec i called) as [->|Hne]; [eauto|].
      apply Hbefore. lia.
    + rewrite Hout. destruct (fn k) as [v|[e'|]]; try reflexivity.
      do 3 f_equal. lia.
  - apply Hhere. replace (called - called)%nat with 0%nat by lia.
    now rewrite Z.add_0_r.
Qed.
End LastAttempt.

(** What one attempt hands to [retry], read off the operation. *)
Lemma executeWithTimeout_spec {O} (config : BaseAgent.AgentConfig)
      (run : nat -> BaseAgent.Behaviour O) (k : nat) :
  BaseAgent.executeWithTimeout config run k
  = match run k with
    | Some s =>
        if (BaseAgent.after s <=? BaseAgent.timerDelay (BaseAgent.effectiveTimeout config))%Z
        then BaseAgent.result s
        else Throw (Js.Err (BaseAgent.timeoutError (BaseAgent.effectiveTimeout config)))
    | None => Throw (Js.Err (BaseAgent.timeoutError (BaseAgent.effectiveTimeout config)))
    end.
Proof.
  unfold BaseAgent.executeWithTimeout, BaseAgent.raceEvents.
  destruct (run k) as [s|]; [|reflexivity].
  destruct (BaseAgent.after s <=? BaseAgent.timerDelay (BaseAgent.effectiveTimeout config))%Z;
    reflexivity.
Qed.

(** C7 (amended).  For an agent whose retry budget [config.retries || 3]
    is at least 1, [execute] always resolves to a Step Result and never
    rejects, whatever the operation does.  The result reports the last
    invocation of the operation, the [k]-th with [k] below the budget:
    when that invocation returned [v] in time, the result has
    [success = true] and wraps [v]; otherwise it has [success = false]
    and the descriptor [{message, code, retryable}] of the error the
    attempt failed with: the operation's own error when it rejected in
    time, the timeout error when it did not settle in time, a [TypeError]
    when it rejected with [undefined].  [code] is the error's own code
    when it has a (non-empty) one and "AGENT_ERROR" otherwise, and
    [retryable] is [BaseAgent.isRetryableError]. *)
Theorem execute_always_resolves :
  forall (O : Type) (config : BaseAgent.AgentConfig) (run : nat -> BaseAgent.Behaviour O),
    1 <= Js.numOr (BaseAgent.retries config) 3 ->
    exists (r : BaseAgent.AgentResult O) (k : nat),
      BaseAgent.execute config run = Ok r /\
      Retry.invocations (BaseAgent.attempts config run) = S k /\
      (k < Z.to_nat (Js.numOr (BaseAgent.retries config) 3))%nat /\
      ((exists v s,
           run k = Some s /\
           BaseAgent.after s <= BaseAgent.timerDelay (BaseAgent.effectiveTimeout config) /\
           BaseAgent.result s = Ok v /\
           Retry.outcome (BaseAgent.attempts config run) = Ok v /\
           BaseAgent.success r = true /\ BaseAgent.data r = Some v /\
           BaseAgent.error r = None) \/
       (exists e rcode,
           ((exists s,
                run k = Some s /\
                BaseAgent.after s
                <= BaseAgent.timerDelay (BaseAgent.effectiveTimeout config) /\
                (BaseAgent.result s = Throw (Js.Err e) \/
                 BaseAgent.result s = Throw Js.Undefined /\ e = Js.undefinedMessage)) \/
            (BaseAgent.resolvesLate (BaseAgent.effectiveTimeout config) (run k) /\
             e = BaseAgent.timeoutError (BaseAgent.effectiveTimeout config))) /\
           Retry.outcome (BaseAgent.attempts config run) = Throw (Js.Err e) /\
           BaseAgent.success r = false /\ BaseAgent.data r = None /\
           BaseAgent.error r
           = Some {| BaseAgent.r_message := Js.message e;
                     BaseAgent.r_code := rcode;
                     BaseAgent.r_retryable := BaseAgent.isRetryableError e |} /\
           (forall c, Js.code e = Some c -> c <> "" -> rcode = c) /\
           (Js.code e = None -> rcode = "AGENT_ERROR"))).
Proof.
  intros O config run Hbudget.
  set (opts := Retry.merge (BaseAgent.retryOptions config)).
  destruct (loop_last_invocation (BaseAgent.executeWithTimeout config run) opts
              (Z.to_nat (Js.numOr (BaseAgent.retries config) 3)) 1 0%nat None)
    as (k & Hinv & Hk & _ & Hout); [lia | |].
  { change (Retry.maxAttempts opts) with (Js.numOr (BaseAgent.retries config) 3). lia. }
  change (Retry.loop (BaseAgent.executeWithTimeout config run) opts
            (Z.to_nat (Js.numOr (BaseAgent.retries config) 3)) 1 0 None)
    with (BaseAgent.attempts config run) in Hinv, Hout.
  assert (Hund : forall a, Retry.undefinedRead opts a = Js.undefinedMessage).
  { intros a. unfold Retry.undefinedRead.
    destruct (a >=? Retry.maxAttempts opts); reflexivity. }
  rewrite Hund in Hout.
  rewrite executeWithTimeout_spec in Hout.
  pose proof (timerDelay_positive (BaseAgent.effectiveTimeout config)) as Hpos.
  assert (Hlate : forall e,
             Retry.outcome (BaseAgent.attempts config run) = Throw (Js.Err e) ->
             exists r,
               BaseAgent.execute config run = Ok r /\
               BaseAgent.success r = false /\ BaseAgent.data r = None /\
               BaseAgent.error r
               = Some {| BaseAgent.r_message := Js.message e;
                         BaseAgent.r_code := Js.optOr (Js.code e) "AGENT_ERROR";
                         BaseAgent.r_retryable := BaseAgent.isRetryableError e |}).
  { intros e He. unfold BaseAgent.execute, BaseAgent.executeBody. rewrite He.
    cbn [BaseAgent.executeCatch]. eexists. split; [reflexivity|]. cbn. auto. }
  assert (Hfail : forall e,
             ((exists s,
                  run k = Some s /\
                  BaseAgent.after s
                  <= BaseAgent.timerDelay (BaseAgent.effectiveTimeout config) /\
                  (BaseAgent.result s = Throw (Js.Err e) \/
                   BaseAgent.result s = Throw Js.Undefined /\ e = Js.undefinedMessage)) \/
              (BaseAgent.resolvesLate (BaseAgent.effectiveTimeout config) (run k) /\
               e = BaseAgent.timeoutError (BaseAgent.effectiveTimeout config))) ->
             Retry.outcome (BaseAgent.attempts config run) = Throw (Js.Err e) ->
             exists (r : BaseAgent.AgentResult O) (k' : nat),
               BaseAgent.execute config run = Ok r /\
               Retry.invocations (BaseAgent.attempts config run) = S k' /\
               (k' < Z.to_nat (Js.numOr (BaseAgent.retries config) 3))%nat /\
               ((exists v s,
                    run k' = Some s /\
                    BaseAgent.after s
                    <= BaseAgent.timerDelay (BaseAgent.effectiveTimeout config) /\
                    BaseAgent.result s = Ok v /\
                    Retry.outcome (BaseAgent.attempts config run) = Ok v /\
                    BaseAgent.success r = true /\ BaseAgent.data r = Some v /\
                    BaseAgent.error r = None) \/
                (exists e rcode,
                    ((exists s,
                         run k' = Some s /\
                         BaseAgent.after s
                         <= BaseAgent.timerDelay (BaseAgent.effectiveTimeout config) /\
                         (BaseAgent.result s = Throw (Js.Err e) \/
                          BaseAgent.result s = Throw Js.Undefined /\
                          e = Js.undefinedMessage)) \/
                     (BaseAgent.resolvesLate (BaseAgent.effectiveTimeout config) (run k') /\
                      e = BaseAgent.timeoutError (BaseAgent.effectiveTimeout config))) /\
                    Retry.outcome (BaseAgent.attempts config run) = Throw (Js.Err e) /\
                    BaseAgent.success r = false /\ BaseAgent.data r = None /\
                    BaseAgent.error r
                    = Some {| BaseAgent.r_message := Js.message e;
                              BaseAgent.r_code := rcode;
                              BaseAgent.r_retryable := BaseAgent.isRetryableError e |} /\
                    (forall c, Js.code e = Some c -> c <> "" -> rcode = c) /\
                    (Js.code e = None -> rcode = "AGENT_ERROR")))).
  { intros e Hwhy He. destruct (Hlate e He) as (r & Hr & Hs & Hd & Herr).
    exists r, k. split; [exact Hr|]. split; [exact Hinv|]. split; [lia|]. right.
    exists e, (Js.optOr (Js.code e) "AGENT_ERROR").
    destruct (result_code_rule e) as [Hsome Hnone]. auto 10. }
  destruct (run k) as [s|] eqn:Hrun.
  - destruct (Z.leb_spec (BaseAgent.after s)
                         (BaseAgent.timerDelay (BaseAgent.effectiveTimeout config)))
      as [Hin|Hover].
    + destruct (BaseAgent.result s) as [v|[e|]] eqn:Hres.
      * exists {| BaseAgent.success := true; BaseAgent.data := Some v;
                  BaseAgent.error := None;
                  BaseAgent.metadata :=
                    BaseAgent.meta config run (BaseAgent.attempts config run) |}, k.
        split; [unfold BaseAgent.execute, BaseAgent.executeBody; now rewrite Hout|].
        split; [exact Hinv|]. split; [lia|]. left. exists v, s. cbn. auto 10.
      * apply (Hfail e); [|exact Hout]. left. exists s. auto.
      * apply (Hfail Js.undefinedMessage); [|exact Hout]. left. exists s. auto.
    + apply (Hfail (BaseAgent.timeoutError (BaseAgent.effectiveTimeout config)));
        [|exact Hout]. right. split; [|reflexivity]. cbn. lia.
  - apply (Hfail (BaseAgent.timeoutError (BaseAgent.effectiveTimeout config)));
      [|exact Hout]. right. split; [exact I | reflexivity].
Qed.

(** The analyzer of scenario C: three attempts, then a failure result. *)
Lemma execute_always_resolves_witness :
  exists r,
    BaseAgent.execute
      (BaseAgent.construct (BaseAgent.mkAgentConfig "qa-analyzer" (Some 300000) None None))
      (fun _ : nat =>
         Some (BaseAgent.mkSettles 50 (@Throw bool (Js.Err (Js.newError "network down")))))
    = Ok r /\
    Retry.invocations
      (BaseAgent.attempts
         (BaseAgent.construct (BaseAgent.mkAgentConfig "qa-analyzer" (Some 300000) None None))
         (fun _ : nat =>
            Some (BaseAgent.mkSettles 50 (@Throw bool (Js.Err (Js.newError "network down"))))))
    = 3%nat.
Proof.
  destruct (execute_always_resolves bool
              (BaseAgent.construct
                 (BaseAgent.mkAgentConfig "qa-analyzer" (Some 300000) None None))
              (fun _ : nat =>
                 Some (BaseAgent.mkSettles 50 (Throw (Js.Err (Js.newError "network down"))))))
    as (r & k & Hr & Hinv & _).
  - vm_compute. discriminate.
  - exists r. split; [exact Hr|]. vm_compute. reflexivity.
Defined.

(** C7 as stated ("for every input") fails outside that domain: an agent
    configured with a negative [retries] makes [retry] run no attempt and
    throw [undefined], and the [catch] block of [execute], reading
    [error.message], throws a [TypeError]: [execute] rejects, even for an
    operation that would succeed at once. *)
Lemma execute_rejects_with_negative_retries :
  BaseAgent.execute
    (BaseAgent.construct (BaseAgent.mkAgentConfig "qa-analyzer" None (Some (-1)) None))
    (fun _ : nat => Some (BaseAgent.mkSettles 0 (Ok true)))
  = Throw (Js.Err (Js.TypeError "Cannot read properties of undefined (reading 'message')")).
Proof. reflexivity. Qed.

(** ** Session Store *)

Section StoreFacts.
Import Types SessionManager.
Implicit Types (sm : SessionManager.t) (s : AgentSession) (sid : string) (now : Z).

Lemma insert_as_alter (f : AgentSession -> AgentSession)
      (m : gmap string AgentSession) sid s :
  m !! sid = Some s -> <[sid := f s]> m = alter f sid m.
Proof.
  intros H. apply map_eq. intros k.
  destruct (decide (sid = k)) as [->|Hne].
  - now rewrite lookup_insert_eq, lookup_alter_eq, H.
  - now rewrite lookup_insert_ne, lookup_alter_ne.
Qed.

Lemma alter_absent (f : AgentSession -> AgentSession)
      (m : gmap string AgentSession) sid :
  m !! sid = None -> alter f sid m = m.
Proof.
  intros H. apply map_eq. intros k.
  destruct (decide (sid = k)) as [->|Hne].
  - now rewrite lookup_alter_eq, H.
  - now rewrite lookup_alter_ne.
Qed.

Lemma sessions_clearTimeout sid sm : sessions (clearTimeout sid sm) = sessions sm.
Proof. unfold clearTimeout. now destruct (timeoutHandlers sm !! sid). Qed.

Lemma emitted_clearTimeout sid sm :
  SessionManager.emitted (clearTimeout sid sm) = SessionManager.emitted sm.
Proof. unfold clearTimeout. now destruct (timeoutHandlers sm !! sid). Qed.

(** How each operation rewrites the session map. *)

Lemma updateStatus_sessions now sid st err sm :
  sessions (updateStatus now sid st err sm)
  = alter (withStatus now st err) sid (sessions sm).
Proof.
  unfold updateStatus. destruct (sessions sm !! sid) as [s|] eqn:Hs.
  - cbn. destruct (isCompletedOrFailed st); rewrite ?sessions_clearTimeout; cbn;
      now apply insert_as_alter.
  - now rewrite alter_absent.
Qed.

Lemma updatePhase_sessions now sid phase sm :
  sessions (updatePhase now sid phase sm) = alter (withPhase now phase) sid (sessions sm).
Proof.
  unfold updatePhase. destruct (sessions sm !! sid) as [s|] eqn:Hs.
  - cbn. now apply insert_as_alter.
  - now rewrite alter_absent.
Qed.

Lemma updateContext_sessions now sid updates sm :
  sessions (updateContext now sid updates sm)
  = alter (withContext now updates) sid (sessions sm).
Proof.
  unfold updateContext. destruct (sessions sm !! sid) as [s|] eqn:Hs.
  - cbn. now apply insert_as_alter.
  - now rewrite alter_absent.
Qed.

Lemma close_sessions now sid st sm :
  sessions (close now sid st sm)
  = alter (withStatus now (default COMPLETED st) None) sid (sessions sm).
Proof.
  unfold close. destruct (sessions sm !! sid) as [s|] eqn:Hs.
  - cbn. rewrite sessions_clearTimeout. apply updateStatus_sessions.
  - now rewrite alter_absent.
Qed.

Lemma create_sessions now suffix item extra sm :
  sessions (create now suffix item extra sm).2
  = <[generateSessionId now suffix
      := newSession now (generateSessionId now suffix) item extra]> (sessions sm).
Proof. reflexivity. Qed.

Lemma onTimeout_sessions now sid sm :
  sessions (onTimeout now sid sm)
  = match sessions sm !! sid with
    | Some s =>
        if bool_decide (status s = RUNNING)
        then alter (withStatus now TIMEOUT (Some SESSION_TIMEOUT)) sid (sessions sm)
        else sessions sm
    | None => sessions sm
    end.
Proof.
  unfold onTimeout. destruct (sessions sm !! sid) as [s|]; [|reflexivity].
  destruct (bool_decide (status s = RUNNING)); [|reflexivity].
  cbn. apply updateStatus_sessions.
Qed.

Lemma fireTimer_sessions now h sm :
  sessions (fireTimer now h sm) = sessions sm \/
  exists tm s,
    timers sm !! h = Some tm /\ t_due tm <= now /\
    sessions sm !! t_session tm = Some s /\ status s = RUNNING /\
    sessions (fireTimer now h sm)
    = alter (withStatus now TIMEOUT (Some SESSION_TIMEOUT)) (t_session tm) (sessions sm).
Proof.
  unfold fireTimer. destruct (timers sm !! h) as [tm|] eqn:Htm; [|auto].
  destruct (Z.leb_spec (t_due tm) now); [|auto].
  rewrite onTimeout_sessions. cbn.
  destruct (sessions sm !! t_session tm) as [s|] eqn:Hs; [|auto].
  destruct (bool_decide_reflect (status s = RUNNING)); [|auto].
  right. exists tm, s. auto.
Qed.

(** A property of sessions that every rewrite preserves holds of the
    altered map. *)
Lemma Forall_alter (P : AgentSession -> Prop) (f : AgentSession -> AgentSession)
      (m : gmap string AgentSession) sid :
  map_Forall (fun _ => P) m ->
  (forall s, m !! sid = Some s -> P s -> P (f s)) ->
  map_Forall (fun _ => P) (alter f sid m).
Proof.
  intros Hm Hf k s'. rewrite lookup_alter_Some.
  intros [(-> & s & Hs & ->) | (_ & Hs)].
  - apply Hf; [assumption | now apply (Hm k)].
  - now apply (Hm k).
Qed.

Lemma withStatus_stamped now st err s : stamped (withStatus now st err s).
Proof. unfold stamped. cbn. intros ->. eauto. Qed.

Lemma step_stamped now op sm :
  map_Forall (fun _ => stamped) (sessions sm) ->
  map_Forall (fun _ => stamped) (sessions (step now op sm)).
Proof.
  intros Hinv. destruct op; cbn [step].
  - rewrite create_sessions. apply map_Forall_insert_2; [|assumption].
    unfold stamped. cbn. discriminate.
  - rewrite updateStatus_sessions. apply Forall_alter; [assumption|].
    intros. apply withStatus_stamped.
  - rewrite updatePhase_sessions. apply Forall_alter; auto.
  - rewrite updateContext_sessions. apply Forall_alter; auto.
  - rewrite close_sessions. apply Forall_alter; [assumption|].
    intros. apply withStatus_stamped.
  - intros k s Hk. apply map_lookup_filter_Some in Hk as [Hk _]. now apply (Hinv k).
  - destruct (fireTimer_sessions now h sm) as [-> | (tm & s & _ & _ & _ & _ & ->)];
      [assumption|].
    apply Forall_alter; [assumption|]. intros. apply withStatus_stamped.
Qed.

Lemma run_stamped history : forall sm,
  map_Forall (fun _ => stamped) (sessions sm) ->
  map_Forall (fun _ => stamped) (sessions (run history sm)).
Proof.
  induction history as [|[now op] rest IH]; intros sm Hinv; [assumption|].
  cbn. apply IH. now apply step_stamped.
Qed.

Lemma withStatus_stampedOnly now st err s :
  stampedOnly s ->
  implb (isCompletedOrFailed (status s)) (isCompletedOrFailed st) = true ->
  stampedOnly (withStatus now st err s).
Proof.
  unfold stampedOnly. cbn. intros Hs Himp.
  destruct (isCompletedOrFailed st); [auto|].
  intros Hc. rewrite (Hs Hc) in Himp. discriminate.
Qed.

Lemma step_stampedOnly now op sm :
  keepsCompletion op sm = true ->
  map_Forall (fun _ => stampedOnly) (sessions sm) ->
  map_Forall (fun _ => stampedOnly) (sessions (step now op sm)).
Proof.
  intros Hok Hinv. destruct op; cbn [step]; unfold keepsCompletion in Hok; cbn in Hok.
  - rewrite create_sessions. apply map_Forall_insert_2; [|assumption].
    unfold stampedOnly. cbn. intros [? [=]].
  - rewrite updateStatus_sessions. apply Forall_alter; [assumption|].
    intros s Hs Hgood. rewrite Hs in Hok. now apply withStatus_stampedOnly.
  - rewrite updatePhase_sessions. apply Forall_alter; auto.
  - rewrite updateContext_sessions. apply Forall_alter; auto.
  - rewrite close_sessions. apply Forall_alter; [assumption|].
    intros s Hs Hgood. rewrite Hs in Hok. now apply withStatus_stampedOnly.
  - intros k s Hk. apply map_lookup_filter_Some in Hk as [Hk _]. now apply (Hinv k).
  - destruct (fireTimer_sessions now h sm) as [-> | (tm & s & _ & _ & Hs & Hrun & ->)];
      [assumption|].
    apply Forall_alter; [assumption|]. intros s' Hs' Hgood.
    apply withStatus_stampedOnly; [assumption|].
    rewrite Hs in Hs'. injection Hs' as <-. now rewrite Hrun.
Qed.

Lemma run_stampedOnly history : forall sm,
  keepCompletion history sm = true ->
  map_Forall (fun _ => stampedOnly) (sessions sm) ->
  map_Forall (fun _ => stampedOnly) (sessions (run history sm)).
Proof.
  induction history as [|[now op] rest IH]; intros sm Hok Hinv; [assumption|].
  cbn in Hok. apply andb_prop in Hok as [Hop Hrest].
  cbn. apply IH; [assumption|]. now apply step_stampedOnly.
Qed.

Lemma isCompletedOrFailed_spec st :
  isCompletedOrFailed st = true <-> st = COMPLETED \/ st = FAILED.
Proof. destruct st; cbn; split; intros H; try discriminate; auto; destruct H; discriminate. Qed.
End StoreFacts.

(** C1 (amended).  After any sequence of store operations from the empty
    store, a session whose status is COMPLETED or FAILED has [completedAt]
    set; and as long as no [updateStatus]/[close] call moved a COMPLETED
    or FAILED session to another status, [completedAt] is set if and only
    if the status is COMPLETED or FAILED.  (TIMEOUT does not stamp
    [completedAt].) *)
Theorem completedAt_iff_completed_or_failed :
  forall (timeout : option Z) (history : list (Z * SessionManager.Op))
         (sid : string) (s : Types.AgentSession),
    SessionManager.sessions (SessionManager.run history (SessionManager.new timeout)) !! sid
    = Some s ->
    (Types.status s = Types.COMPLETED \/ Types.status s = Types.FAILED ->
     is_Some (Types.completedAt s)) /\
    (SessionManager.keepCompletion history (SessionManager.new timeout) = true ->
     (is_Some (Types.completedAt s) <->
      Types.status s = Types.COMPLETED \/ Types.status s = Types.FAILED)).
Proof.
  intros timeout history sid s Hs.
  assert (H1 : SessionManager.stamped s).
  { apply (run_stamped history (SessionManager.new timeout)) in Hs; [assumption|].
    apply map_Forall_empty. }
  split.
  - intros Hst. apply H1. now apply isCompletedOrFailed_spec.
  - intros Hok. rewrite <- isCompletedOrFailed_spec. split; [|exact H1].
    apply (run_stampedOnly history (SessionManager.new timeout)) in Hs;
      [assumption | assumption | apply map_Forall_empty].
Qed.

(** A session created, marked RUNNING and closed. *)
Lemma completedAt_iff_witness :
  exists s,
    SessionManager.sessions
      (SessionManager.run
         [ (1000, SessionManager.Create "k3x9q2a" SessionManager.loginItem Types.noUpdates);
           (1001, SessionManager.UpdateStatus "session-1000-k3x9q2a" Types.RUNNING None);
           (5000, SessionManager.Close "session-1000-k3x9q2a" None) ]
         (SessionManager.new None)) !! "session-1000-k3x9q2a" = Some s /\
    Types.status s = Types.COMPLETED /\
    (is_Some (Types.completedAt s) <->
     Types.status s = Types.COMPLETED \/ Types.status s = Types.FAILED).
Proof.
  destruct (SessionManager.sessions
      (SessionManager.run
         [ (1000, SessionManager.Create "k3x9q2a" SessionManager.loginItem Types.noUpdates);
           (1001, SessionManager.UpdateStatus "session-1000-k3x9q2a" Types.RUNNING None);
           (5000, SessionManager.Close "session-1000-k3x9q2a" None) ]
         (SessionManager.new None)) !! "session-1000-k3x9q2a") as [s|] eqn:E;
    [|vm_compute in E; discriminate].
  exists s. split; [reflexivity|]. split.
  - vm_compute in E. injection E as <-. reflexivity.
  - apply (completedAt_iff_completed_or_failed None _ _ s E). vm_compute. reflexivity.
Defined.

(** C1 as stated fails: a session whose timer fires while it is RUNNING
    becomes TIMEOUT and has no [completedAt]. *)
Lemma timed_out_session_is_not_stamped :
  ~ (forall (history : list (Z * SessionManager.Op)) (sid : string) (s : Types.AgentSession),
        SessionManager.sessions (SessionManager.run history (SessionManager.new None)) !! sid
        = Some s ->
        (is_Some (Types.completedAt s) <->
         Types.status s = Types.COMPLETED \/ Types.status s = Types.FAILED \/
         Types.status s = Types.TIMEOUT)).
Proof.
  intros claim.
  destruct (SessionManager.sessions
      (SessionManager.run
         [ (1000, SessionManager.Create "k3x9q2a" SessionManager.loginItem Types.noUpdates);
           (1001, SessionManager.UpdateStatus "session-1000-k3x9q2a" Types.RUNNING None);
           (3601000, SessionManager.TimerFires 0) ]
         (SessionManager.new None)) !! "session-1000-k3x9q2a") as [s|] eqn:E;
    [|vm_compute in E; discriminate].
  pose proof (claim _ _ _ E) as [_ Hback].
  vm_compute in E. injection E as <-.
  destruct Hback as [c Hc]; [auto | discriminate].
Qed.

(** A COMPLETED session moved back to RUNNING keeps its [completedAt]:
    the other direction of C1 needs the restriction on the history. *)
Lemma reopened_session_stays_stamped :
  exists s,
    SessionManager.sessions
      (SessionManager.run
         [ (1000, SessionManager.Create "k3x9q2a" SessionManager.loginItem Types.noUpdates);
           (2000, SessionManager.Close "session-1000-k3x9q2a" None);
           (3000, SessionManager.UpdateStatus "session-1000-k3x9q2a" Types.RUNNING None) ]
         (SessionManager.new None)) !! "session-1000-k3x9q2a" = Some s /\
    Types.status s = Types.RUNNING /\ Types.completedAt s = Some 2000.
Proof. vm_compute. eexists. repeat split. Qed.

Section TimerFacts.
Import Types SessionManager.

Lemma updateStatus_emitted now sid st err sm s :
  sessions sm !! sid = Some s ->
  SessionManager.emitted (updateStatus now sid st err sm)
  = (SessionManager.emitted sm ++ [SessionUpdated sid])%list.
Proof.
  intros Hs. unfold updateStatus. rewrite Hs. cbn.
  destruct (isCompletedOrFailed st); [|reflexivity].
  now rewrite emitted_clearTimeout.
Qed.

Lemma fireTimer_unfold now h sm tm :
  timers sm !! h = Some tm -> t_due tm <= now ->
  fireTimer now h sm
  = onTimeout now (t_session tm)
      (mk (sessions sm) (timeoutHandlers sm) (defaultTimeout sm)
          (delete h (timers sm)) (nextHandle sm) (SessionManager.emitted sm)).
Proof.
  intros Htm Hdue. unfold fireTimer. rewrite Htm.
  destruct (Z.leb_spec (t_due tm) now); [reflexivity | lia].
Qed.
End TimerFacts.

(** C2 (amended).  When a session's pending timer fires (it is due) and
    the session is RUNNING, the store moves it to TIMEOUT, records the
    fixed error descriptor (message "Session timed out", code
    SESSION_TIMEOUT, not retryable), leaves [completedAt] as it was, and
    emits the update event followed by the timeout event.  When the
    session is in any other status, CREATED included, the firing changes
    no session and emits nothing. *)
Theorem timer_times_out_running_sessions_only :
  forall (sm : SessionManager.t) (h : nat) (tm : SessionManager.Timer) (now : Z)
         (s : Types.AgentSession),
    SessionManager.timers sm !! h = Some tm ->
    SessionManager.t_due tm <= now ->
    SessionManager.sessions sm !! SessionManager.t_session tm = Some s ->
    (Types.status s = Types.RUNNING ->
     (exists s',
         SessionManager.sessions (SessionManager.fireTimer now h sm)
           !! SessionManager.t_session tm = Some s' /\
         s' = SessionManager.withStatus now Types.TIMEOUT
                                        (Some SessionManager.SESSION_TIMEOUT) s /\
         Types.status s' = Types.TIMEOUT /\
         Types.error s' = Some SessionManager.SESSION_TIMEOUT /\
         Types.completedAt s' = Types.completedAt s) /\
     SessionManager.emitted (SessionManager.fireTimer now h sm)
     = (SessionManager.emitted sm
          ++ [SessionManager.SessionUpdated (SessionManager.t_session tm);
              SessionManager.SessionTimeout (SessionManager.t_session tm)])%list) /\
    (Types.status s <> Types.RUNNING ->
     SessionManager.sessions (SessionManager.fireTimer now h sm) = SessionManager.sessions sm /\
     SessionManager.emitted (SessionManager.fireTimer now h sm) = SessionManager.emitted sm).
Proof.
  intros sm h tm now s Htm Hdue Hs.
  rewrite (fireTimer_unfold now h sm tm Htm Hdue).
  unfold SessionManager.onTimeout. cbn [SessionManager.sessions]. rewrite Hs.
  split.
  - intros Hrun. rewrite bool_decide_eq_true_2 by assumption. split.
    + exists (SessionManager.withStatus now Types.TIMEOUT
                                        (Some SessionManager.SESSION_TIMEOUT) s).
      split; [|repeat split].
      cbn [SessionManager.emit SessionManager.sessions].
      rewrite updateStatus_sessions. cbn [SessionManager.sessions].
      now rewrite lookup_alter_eq, Hs.
    + cbn [SessionManager.emit SessionManager.emitted].
      rewrite (updateStatus_emitted _ _ _ _ _ s) by exact Hs.
      cbn. now rewrite <- app_assoc.
  - intros Hother. rewrite bool_decide_eq_false_2 by assumption. split; reflexivity.
Qed.

(** The timer of a RUNNING session, one hour after its creation. *)
Lemma timer_times_out_witness :
  exists s',
    SessionManager.sessions
      (SessionManager.fireTimer 3601000 0
         (SessionManager.run
            [ (1000, SessionManager.Create "k3x9q2a" SessionManager.loginItem
                                           Types.noUpdates);
              (1001, SessionManager.UpdateStatus "session-1000-k3x9q2a" Types.RUNNING None) ]
            (SessionManager.new None))) !! "session-1000-k3x9q2a" = Some s' /\
    Types.status s' = Types.TIMEOUT /\
    Types.error s' = Some SessionManager.SESSION_TIMEOUT.
Proof.
  destruct (SessionManager.sessions
      (SessionManager.run
         [ (1000, SessionManager.Create "k3x9q2a" SessionManager.loginItem Types.noUpdates);
           (1001, SessionManager.UpdateStatus "session-1000-k3x9q2a" Types.RUNNING None) ]
         (SessionManager.new None)) !! "session-1000-k3x9q2a") as [s|] eqn:E;
    [|vm_compute in E; discriminate].
  destruct (timer_times_out_running_sessions_only
              (SessionManager.run
                 [ (1000, SessionManager.Create "k3x9q2a" SessionManager.loginItem
                                                Types.noUpdates);
                   (1001, SessionManager.UpdateStatus "session-1000-k3x9q2a"
                                                      Types.RUNNING None) ]
                 (SessionManager.new None))
              0%nat (SessionManager.mkTimer "session-1000-k3x9q2a" 3601000) 3601000 s)
    as [Hrun _].
  - vm_compute. reflexivity.
  - cbn. lia.
  - exact E.
  - destruct Hrun as [(s' & Hs' & _ & Hst & Herr & _) _].
    + vm_compute in E. injection E as <-. reflexivity.
    + exists s'. auto.
Defined.

(** C2 as stated fails in its second part: a timer that fires while the
    session is still CREATED does not move it to TIMEOUT; the session stays
    CREATED and no timeout event is emitted. *)
Lemma created_session_is_not_timed_out :
  SessionManager.timers
    (SessionManager.create 1000 "k3x9q2a" SessionManager.loginItem Types.noUpdates
                           (SessionManager.new None)).2 !! 0%nat
  = Some (SessionManager.mkTimer "session-1000-k3x9q2a" 3601000) /\
  Types.status <$>
    SessionManager.sessions
      (SessionManager.fireTimer 3601000 0
         (SessionManager.create 1000 "k3x9q2a" SessionManager.loginItem Types.noUpdates
                                (SessionManager.new None)).2) !! "session-1000-k3x9q2a"
  = Some Types.CREATED /\
  SessionManager.emitted
    (SessionManager.fireTimer 3601000 0
       (SessionManager.create 1000 "k3x9q2a" SessionManager.loginItem Types.noUpdates
                              (SessionManager.new None)).2)
  = [SessionManager.SessionCreated "session-1000-k3x9q2a"].
Proof. vm_compute. repeat split. Qed.

Section CloseFacts.
Import Types SessionManager.

Lemma clearTimeout_disarms sid sm : timeoutHandlers (clearTimeout sid sm) !! sid = None.
Proof.
  unfold clearTimeout. destruct (timeoutHandlers sm !! sid) eqn:E; cbn.
  - apply lookup_delete_eq.
  - exact E.
Qed.

(** Closing a stored session disarms its timer and emits the close event
    last. *)
Lemma close_disarms now sid st sm :
  is_Some (sessions sm !! sid) ->
  timeoutHandlers (close now sid st sm) !! sid = None /\
  last (SessionManager.emitted (close now sid st sm)) = Some (SessionClosed sid).
Proof.
  intros [s Hs]. unfold close. rewrite Hs. cbn. split.
  - apply clearTimeout_disarms.
  - apply last_snoc.
Qed.
End CloseFacts.

Section CleanupFacts.
Import Types SessionManager.

Lemma swept_spec cutoff s :
  swept cutoff s = true <->
  (status s = COMPLETED \/ status s = FAILED) /\
  exists c, completedAt s = Some c /\ c < cutoff.
Proof.
  unfold swept. destruct (completedAt s) as [c|].
  - rewrite andb_true_iff, Z.ltb_lt, isCompletedOrFailed_spec. split.
    + intros [Hc Hst]. eauto.
    + intros (Hst & c' & [= <-] & Hc). auto.
  - split; [discriminate|]. intros (_ & c & [=] & _).
Qed.

Lemma cleanup_lookup now olderThan sm sid s :
  sessions sm !! sid = Some s ->
  sessions (cleanup now olderThan sm) !! sid
  = if swept (now - default 86400000 olderThan) s then None else Some s.
Proof.
  intros Hs. unfold cleanup. cbn [sessions setSessions].
  destruct (swept _ s) eqn:Hsw.
  - apply map_lookup_filter_None. right. intros s' Hs'. cbn.
    rewrite Hs in Hs'. injection Hs' as <-. now rewrite Hsw.
  - apply map_lookup_filter_Some. auto.
Qed.

(** Every operation but [cleanup] keeps the sessions that are there. *)
Lemma step_keeps_sessions now op sm sid :
  (forall olderThan, op <> Cleanup olderThan) ->
  is_Some (sessions sm !! sid) ->
  is_Some (sessions (step now op sm) !! sid).
Proof.
  intros Hop [s Hs].
  assert (Halter : forall f sid',
             is_Some (alter f sid' (sessions sm) !! sid)).
  { intros f sid'. destruct (decide (sid' = sid)) as [->|Hne].
    - rewrite lookup_alter_eq, Hs. cbn. eauto.
    - rewrite lookup_alter_ne by assumption. eauto. }
  destruct op; cbn [step].
  - rewrite create_sessions. rewrite lookup_insert. case_decide; eauto.
  - rewrite updateStatus_sessions. apply Halter.
  - rewrite updatePhase_sessions. apply Halter.
  - rewrite updateContext_sessions. apply Halter.
  - rewrite close_sessions. apply Halter.
  - now destruct (Hop olderThan).
  - destruct (fireTimer_sessions now h sm) as [-> | (tm & s' & _ & _ & _ & _ & ->)];
      [eauto | apply Halter].
Qed.
End CleanupFacts.

(** C8. [cleanup(maxAge)] removes a stored session if and only if its
    status is COMPLETED or FAILED and its [completedAt] lies more than
    [maxAge] before now; a session that is TIMEOUT, CREATED or RUNNING
    stays, whatever its age; and every other store operation (and a timer
    firing) keeps the session in the store. *)
Theorem cleanup_removes_only_old_completed_or_failed :
  forall (sm : SessionManager.t) (now maxAge : Z) (sid : string) (s : Types.AgentSession),
    SessionManager.sessions sm !! sid = Some s ->
    (SessionManager.sessions (SessionManager.cleanup now (Some maxAge) sm) !! sid = None <->
     (Types.status s = Types.COMPLETED \/ Types.status s = Types.FAILED) /\
     exists c, Types.completedAt s = Some c /\ now - c > maxAge) /\
    (SessionManager.sessions (SessionManager.cleanup now (Some maxAge) sm) !! sid = None \/
     SessionManager.sessions (SessionManager.cleanup now (Some maxAge) sm) !! sid = Some s) /\
    (Types.status s = Types.TIMEOUT \/ Types.status s = Types.CREATED \/
     Types.status s = Types.RUNNING ->
     SessionManager.sessions (SessionManager.cleanup now (Some maxAge) sm) !! sid = Some s) /\
    (forall (t : Z) (op : SessionManager.Op),
        (forall olderThan, op <> SessionManager.Cleanup olderThan) ->
        is_Some (SessionManager.sessions (SessionManager.step t op sm) !! sid)).
Proof.
  intros sm now maxAge sid s Hs.
  rewrite (cleanup_lookup now (Some maxAge) sm sid s Hs).
  change (default 86400000 (Some maxAge)) with maxAge.
  pose proof (swept_spec (now - maxAge) s) as Hspec.
  destruct (SessionManager.swept (now - maxAge) s) eqn:Hsw.
  - destruct Hspec as [Hspec _]. destruct (Hspec eq_refl) as (Hst & c & Hc & Hlt).
    split; [|split; [|split]].
    + split; [|reflexivity]. intros _. split; [assumption|].
      exists c. split; [assumption | lia].
    + now left.
    + intros [H|[H|H]]; destruct Hst as [H'|H']; congruence.
    + intros t op Hop. apply step_keeps_sessions; [assumption | eauto].
  - destruct Hspec as [_ Hspec].
    split; [|split; [|split]].
    + split; [discriminate|]. intros (Hst & c & Hc & Hlt).
      assert (Htrue : true = true) by reflexivity. rewrite <- Hspec in Htrue at 1.
      * discriminate.
      * split; [assumption|]. exists c. split; [assumption | lia].
    + now right.
    + reflexivity.
    + intros t op Hop. apply step_keeps_sessions; [assumption | eauto].
Qed.

(** A session closed at time 2000 is swept by [cleanup(1000)] at 5000. *)
Lemma cleanup_witness :
  SessionManager.sessions
    (SessionManager.cleanup 5000 (Some 1000)
       (SessionManager.run
          [ (1000, SessionManager.Create "k3x9q2a" SessionManager.loginItem Types.noUpdates);
            (2000, SessionManager.Close "session-1000-k3x9q2a" None) ]
          (SessionManager.new None))) !! "session-1000-k3x9q2a" = None.
Proof.
  destruct (SessionManager.sessions
       (SessionManager.run
          [ (1000, SessionManager.Create "k3x9q2a" SessionManager.loginItem Types.noUpdates);
            (2000, SessionManager.Close "session-1000-k3x9q2a" None) ]
          (SessionManager.new None)) !! "session-1000-k3x9q2a") as [s|] eqn:E;
    [|vm_compute in E; discriminate].
  apply (cleanup_removes_only_old_completed_or_failed _ 5000 1000 _ s E).
  vm_compute in E. injection E as <-. split; [now left|].
  exists 2000. split; [reflexivity | lia].
Defined.

Section StatsFacts.
Import Types SessionManager.

Lemma count_running_or_created (l : list AgentSession) :
  length (filter (fun s => status s = RUNNING \/ status s = CREATED) l)
  = (length (filter (fun s => status s = RUNNING) l)
     + length (filter (fun s => status s = CREATED) l))%nat.
Proof.
  induction l as [|s l IH]; [reflexivity|].
  rewrite !filter_cons.
  destruct (status s) eqn:Hst;
    repeat case_decide; cbn [length]; try lia;
    repeat match goal with
           | H : _ \/ _ |- _ => destruct H
           | H : ~ (_ \/ _) |- _ => exfalso; apply H; auto
           end; congruence.
Qed.
End StatsFacts.

(** C10. [getStats().active] counts the RUNNING sessions only, while
    [getActiveSessionCount()] counts the RUNNING and the CREATED ones: the
    second is the first plus the number of CREATED sessions, so as soon as
    one session is CREATED, [getStats().active] is strictly smaller. *)
Theorem stats_active_excludes_created :
  forall (sm : SessionManager.t) (sid : string) (s : Types.AgentSession),
    SessionManager.sessions sm !! sid = Some s ->
    Types.status s = Types.CREATED ->
    SessionManager.getActiveSessionCount sm
    = (SessionManager.active (SessionManager.getStats sm)
       + length (filter (fun s => Types.status s = Types.CREATED)
                        (SessionManager.values sm)))%nat /\
    SessionManager.active (SessionManager.getStats sm)
    = length (filter (fun s => Types.status s = Types.RUNNING) (SessionManager.values sm)) /\
    (SessionManager.active (SessionManager.getStats sm)
     < SessionManager.getActiveSessionCount sm)%nat.
Proof.
  intros sm sid s Hs Hst.
  unfold SessionManager.getActiveSessionCount, SessionManager.getActiveSessions,
    SessionManager.getStats. cbn [SessionManager.active].
  rewrite count_running_or_created.
  split; [reflexivity|]. split; [reflexivity|].
  assert (Hin : s ∈ filter (fun s => Types.status s = Types.CREATED)
                           (SessionManager.values sm)).
  { apply list_elem_of_filter. split; [assumption|].
    unfold SessionManager.values. apply list_elem_of_fmap.
    exists (sid, s). split; [reflexivity|]. now apply elem_of_map_to_list. }
  revert Hin.
  generalize (filter (fun s => Types.status s = Types.CREATED) (SessionManager.values sm)).
  intros [|x l] Hin.
  - now apply not_elem_of_nil in Hin.
  - cbn [length]. lia.
Qed.

(** One freshly created session next to a running one. *)
Lemma stats_active_witness :
  Nat.lt
    (SessionManager.active
       (SessionManager.getStats
          (SessionManager.run
             [ (1000, SessionManager.Create "k3x9q2a" SessionManager.loginItem
                                            Types.noUpdates);
               (1001, SessionManager.UpdateStatus "session-1000-k3x9q2a" Types.RUNNING None);
               (1002, SessionManager.Create "p0o9i8u" SessionManager.loginItem
                                            Types.noUpdates) ]
             (SessionManager.new None))))
    (SessionManager.getActiveSessionCount
       (SessionManager.run
          [ (1000, SessionManager.Create "k3x9q2a" SessionManager.loginItem Types.noUpdates);
            (1001, SessionManager.UpdateStatus "session-1000-k3x9q2a" Types.RUNNING None);
            (1002, SessionManager.Create "p0o9i8u" SessionManager.loginItem Types.noUpdates) ]
          (SessionManager.new None))).
Proof.
  destruct (SessionManager.sessions
       (SessionManager.run
           [ (1000, SessionManager.Create "k3x9q2a" SessionManager.loginItem Types.noUpdates);
             (1001, SessionManager.UpdateStatus "session-1000-k3x9q2a" Types.RUNNING None);
             (1002, SessionManager.Create "p0o9i8u" SessionManager.loginItem Types.noUpdates) ]
           (SessionManager.new None)) !! "session-1002-p0o9i8u") as [s|] eqn:E;
    [|vm_compute in E; discriminate].
  apply (stats_active_excludes_created _ "session-1002-p0o9i8u" s E).
  vm_compute in E. injection E as <-. reflexivity.
Defined.

(** ** Workflow Driver *)

Section DriverFacts.
Import Types Orchestrator.
Variable env : Env.

(** What each step of the driver does to the world. *)

Lemma run_guarded c w :
  notionConnected w = true -> toolError env c = None ->
  guarded env c w = (Ok tt, setToolCalls (toolCalls w ++ [c])%list w).
Proof.
  intros Hconn Htool. unfold guarded, bind, reads, tryCatch, callTool.
  rewrite Hconn. cbn. now rewrite Htool.
Qed.

Lemma run_post m w :
  post env m w
  = (Ok tt, setPosted (posted w ++ delivered env (slackEnabled w) [m])%list w).
Proof.
  destruct w as [? ? ? ? ? ? en ? ? ? ?]. unfold post, delivered, setPosted. cbn.
  destruct en; cbn; [|now rewrite app_nil_r].
  destruct (postError env m); cbn; [now rewrite app_nil_r | reflexivity].
Qed.

Lemma run_executeAgent {O} cfg (run : nat -> BaseAgent.Behaviour O) w r :
  BaseAgent.execute cfg run = Ok r ->
  executeAgent cfg run w
  = (Ok r,
     setClock (clock w + BaseAgent.executionTime (BaseAgent.metadata r))
              (setExecuted (executed w ++ [BaseAgent.agentType cfg])%list w)).
Proof. intros H. unfold executeAgent. now rewrite H. Qed.

Lemma run_contextOf sid w s :
  SessionManager.sessions (sessionManager w) !! sid = Some s ->
  contextOf sid w = (Ok (context s), w).
Proof. intros H. unfold contextOf, bind, reads, SessionManager.get. cbn. now rewrite H. Qed.

Lemma bind_ok {A B} (c : M A) (k : A -> M B) w a w' :
  c w = (Ok a, w') -> bind c k w = k a w'.
Proof. intros H. unfold bind. now rewrite H. Qed.

Local Arguments SessionManager.create : simpl never.
Local Arguments SessionManager.updateStatus : simpl never.
Local Arguments SessionManager.updatePhase : simpl never.
Local Arguments SessionManager.updateContext : simpl never.
Local Arguments SessionManager.close : simpl never.
Local Arguments SessionManager.generateSessionId : simpl never.
Local Arguments BaseAgent.execute : simpl never.
Local Arguments notActionableComment : simpl never.
Local Arguments failedComment : simpl never.
Local Arguments String.append : simpl never.
Local Arguments delivered : simpl never.

(** Symbolic execution of the pipeline: one tactic per kind of step.  The
    world is kept as an explicit record so that its fields stay small. *)

Ltac sessions_lookup H :=
  cbn [sessionManager setSessionManager setToolCalls setPosted setExecuted setClock
       setDraws setEmitted];
  repeat first [ rewrite close_sessions | rewrite updateStatus_sessions
               | rewrite updatePhase_sessions | rewrite updateContext_sessions ];
  rewrite ?lookup_alter_eq;
  rewrite H; cbn [fmap option_fmap option_map].


Ltac proj_simpl :=
  cbn [clock sessionManager projectConfigO isRunning notionConnected toolCalls
       slackEnabled posted executed draws emitted
       setSessionManager setToolCalls setPosted setExecuted setClock setDraws setEmitted].

Ltac proj_simpl_in H :=
  cbn [clock sessionManager projectConfigO isRunning notionConnected toolCalls
       slackEnabled posted executed draws emitted
       setSessionManager setToolCalls setPosted setExecuted setClock setDraws setEmitted]
    in H.

Ltac tracker_step Hconn Htool :=
  erewrite bind_ok by (apply run_guarded; [exact Hconn | apply Htool]); proj_simpl.
Ltac slack_step := erewrite bind_ok by apply run_post; proj_simpl.
Ltac store_step := erewrite bind_ok by reflexivity; proj_simpl.
Ltac context_step Hs0 :=
  erewrite bind_ok by (apply run_contextOf; sessions_lookup Hs0; reflexivity); proj_simpl.
Ltac payload_step Hd :=
  erewrite bind_ok by (unfold payload; rewrite Hd; reflexivity).
Ltac agent_ok Hr Hs :=
  erewrite bind_ok by (apply run_executeAgent; exact Hr); proj_simpl;
  rewrite Hs; cbn [negb].

(** The [try] block up to the first failed step: it throws the prefixed
    error, after the "in progress" update, the start notification and the
    agents up to the failing one. *)
Lemma phases_fail item sid w s0 p :
  notionConnected w = true -> (forall c, toolError env c = None) ->
  SessionManager.sessions (sessionManager w) !! sid = Some s0 ->
  firstFailure env p ->
  exists msg w1,
    phases env item sid w = (Throw (Js.Err (Js.newError (failurePrefix p ++ msg))), w1) /\
    stepFailedWith env p msg /\
    toolCalls w1 = (toolCalls w ++ [UpdatePage (qa_id item) IN_PROGRESS])%list /\
    posted w1 = (posted w ++ delivered env (slackEnabled w) [MsgStart item])%list /\
    executed w1 = (executed w ++ agentsUpTo env p)%list /\
    notionConnected w1 = true /\
    slackEnabled w1 = slackEnabled w /\
    is_Some (SessionManager.sessions (sessionManager w1) !! sid).
Proof.
  intros Hconn Htool Hs0 Hfail.
  destruct w as [clk sm pc running conn calls en posted0 exec dr em].
  proj_simpl_in Hconn. proj_simpl_in Hs0. proj_simpl. subst conn.
  unfold phases, updatePageStatus, notifyStart.
  tracker_step (eq_refl true) Htool. slack_step. store_step. context_step Hs0.
  destruct p; cbn [firstFailure] in Hfail; try contradiction.
  - (* analysis *)
    match goal with
    | |- context [analyzerRun env ?ctx] => destruct (Hfail ctx) as (msg & r & Hr & Hs & Hm)
    end.
    agent_ok Hr Hs. rewrite Hm.
    eexists msg, _. split; [reflexivity|].
    split; [cbn; eexists; eexists; eauto|].
    proj_simpl. rewrite <- ?app_assoc.
    do 5 (split; [reflexivity|]).
    sessions_lookup Hs0. eauto.
  - (* classification *)
    destruct Hfail as (Hana & Hcls).
    match goal with
    | |- context [analyzerRun env ?ctx] => destruct (Hana ctx) as (a & ra & Hra & Hsa & Hda)
    end.
    agent_ok Hra Hsa. store_step. store_step. context_step Hs0. payload_step Hda.
    match goal with
    | |- context [classifierRun env ?a ?ctx] =>
        destruct (Hcls a ctx) as (msg & r & Hr & Hs & Hm)
    end.
    agent_ok Hr Hs. rewrite Hm.
    eexists msg, _. split; [reflexivity|].
    split; [cbn; do 2 eexists; eexists; eauto|].
    proj_simpl. rewrite <- ?app_assoc.
    do 5 (split; [reflexivity|]).
    sessions_lookup Hs0. eauto.
  - (* implementation *)
    destruct Hfail as (Hana & Hcls & Himp).
    match goal with
    | |- context [analyzerRun env ?ctx] => destruct (Hana ctx) as (a & ra & Hra & Hsa & Hda)
    end.
    agent_ok Hra Hsa. store_step. store_step. context_step Hs0. payload_step Hda.
    match goal with
    | |- context [classifierRun env ?a ?ctx] =>
        destruct (Hcls a ctx) as (d & (rc & Hrc & Hsc & Hdc) & Hact)
    end.
    agent_ok Hrc Hsc. store_step. payload_step Hdc. rewrite Hact. cbn [negb].
    store_step. context_step Hs0.
    match goal with
    | |- context [coderRun env ?a ?d ?ctx] =>
        destruct (Himp a d ctx) as (msg & r & Hr & Hs & Hm)
    end.
    agent_ok Hr Hs. rewrite Hm.
    eexists msg, _. split; [reflexivity|].
    split; [cbn; do 3 eexists; eexists; eauto|].
    proj_simpl. rewrite <- ?app_assoc.
    do 5 (split; [reflexivity|]).
    sessions_lookup Hs0. eauto.
  - (* reporting *)
    destruct Hfail as (Hana & Hcls & Himp & Hrep).
    match goal with
    | |- context [analyzerRun env ?ctx] => destruct (Hana ctx) as (a & ra & Hra & Hsa & Hda)
    end.
    agent_ok Hra Hsa. store_step. store_step. context_step Hs0. payload_step Hda.
    match goal with
    | |- context [classifierRun env ?a ?ctx] =>
        destruct (Hcls a ctx) as (d & (rc & Hrc & Hsc & Hdc) & Hact)
    end.
    agent_ok Hrc Hsc. store_step. payload_step Hdc. rewrite Hact. cbn [negb].
    store_step. context_step Hs0.
    match goal with
    | |- context [coderRun env ?a ?d ?ctx] =>
        destruct (Himp a d ctx) as (c & ri & Hri & Hsi & Hdi)
    end.
    agent_ok Hri Hsi. store_step. store_step. context_step Hs0. payload_step Hdi.
    match goal with
    | |- context [prManagerRun env ?c ?ctx] =>
        destruct (Hrep c ctx) as (msg & r & Hr & Hs & Hm)
    end.
    agent_ok Hr Hs. rewrite Hm.
    eexists msg, _. split; [reflexivity|].
    split; [cbn; do 2 eexists; eexists; eauto|].
    proj_simpl. rewrite <- ?app_assoc.
    do 5 (split; [reflexivity|]).
    sessions_lookup Hs0. eauto.
Qed.

(** The [try] block on the not-actionable path. *)
Lemma phases_not_actionable item sid w s0 :
  notionConnected w = true -> (forall c, toolError env c = None) ->
  SessionManager.sessions (sessionManager w) !! sid = Some s0 ->
  analysisOk env -> classificationOk env false ->
  exists d w1 s1,
    phases env item sid w = (Ok tt, w1) /\
    shouldAct d = false /\
    toolCalls w1
    = (toolCalls w ++ [UpdatePage (qa_id item) IN_PROGRESS;
                       UpdatePage (qa_id item) NOT_ACTIONABLE;
                       AppendBlock (qa_id item) (notActionableComment (reason d))])%list /\
    posted w1
    = (posted w ++ delivered env (slackEnabled w)
                     [MsgStart item; MsgNotActionable item (reason d)])%list /\
    executed w1 = (executed w ++ ["qa-analyzer"; "action-classifier"])%list /\
    SessionManager.sessions (sessionManager w1) !! sid = Some s1 /\
    status s1 = COMPLETED /\
    is_Some (completedAt s1) /\
    decision (context s1) = Some d /\
    SessionManager.timeoutHandlers (sessionManager w1) !! sid = None /\
    last (SessionManager.emitted (sessionManager w1))
    = Some (SessionManager.SessionClosed sid).
Proof.
  intros Hconn Htool Hs0 Hana Hcls.
  destruct w as [clk sm pc running conn calls en posted0 exec dr em].
  proj_simpl_in Hconn. proj_simpl_in Hs0. proj_simpl. subst conn.
  unfold phases, updatePageStatus, notifyStart.
  tracker_step (eq_refl true) Htool. slack_step. store_step. context_step Hs0.
  match goal with
  | |- context [analyzerRun env ?ctx] => destruct (Hana ctx) as (a & ra & Hra & Hsa & Hda)
  end.
  agent_ok Hra Hsa. store_step. store_step. context_step Hs0. payload_step Hda.
  match goal with
  | |- context [classifierRun env ?a ?ctx] =>
      destruct (Hcls a ctx) as (d & (rc & Hrc & Hsc & Hdc) & Hact)
  end.
  agent_ok Hrc Hsc. store_step. payload_step Hdc. rewrite Hact. cbn [negb].
  unfold handleNotActionable, updatePageStatus, addComment, notifyNotActionable.
  erewrite bind_ok.
  2:{ tracker_step (eq_refl true) Htool. tracker_step (eq_refl true) Htool. apply run_post. }
  unfold onSessions, modify.
  eexists d, _, _. split; [reflexivity|]. split; [assumption|].
  proj_simpl. rewrite <- ?app_assoc.
  split; [reflexivity|].
  split.
  { unfold delivered. destruct en; [|now rewrite !app_nil_r].
    cbn [List.filter].
    destruct (postError env (MsgStart item)), (postError env (MsgNotActionable item _));
      reflexivity. }
  split; [reflexivity|].
  split; [sessions_lookup Hs0; reflexivity|].
  rewrite ?Hdc. split; [reflexivity|]. split; [cbn; eauto|]. split; [reflexivity|].
  apply close_disarms. sessions_lookup Hs0. eauto.
Qed.

(** [processQA] is its [try]/[catch] run from the [started] world. *)
Lemma processQA_started item w :
  processQA env item w
  = tryCatch (phases env item (nextSessionId env w))
      (fun error =>
         bind (onSessions (fun now =>
                 SessionManager.updateStatus now (nextSessionId env w) FAILED
                                             (Some (PROCESSING_ERROR error))))
              (fun _ => throw error))
      (started env item w).
Proof. reflexivity. Qed.

Lemma createSession_world item w :
  (createSession env item w).2
  = setDraws (S (draws w))
      (setSessionManager
         (SessionManager.create (clock w) (randomSuffix env (draws w)) item
            (mkPartialContext None None None (projectConfigO w) None None None None None None)
            (sessionManager w)).2 w).
Proof. reflexivity. Qed.

Lemma started_facts item w :
  notionConnected (started env item w) = notionConnected w /\
  slackEnabled (started env item w) = slackEnabled w /\
  toolCalls (started env item w) = toolCalls w /\
  posted (started env item w) = posted w /\
  executed (started env item w) = executed w /\
  is_Some (SessionManager.sessions (sessionManager (started env item w))
             !! nextSessionId env w).
Proof.
  do 5 (split; [reflexivity|]).
  unfold started. rewrite createSession_world. proj_simpl.
  rewrite updateStatus_sessions, lookup_alter_eq, create_sessions.
  unfold nextSessionId. rewrite lookup_insert_eq. cbn. eauto.
Qed.

(** The last status update decides what the tracker shows. *)
Lemma trackerStatus_last pageId st calls tail :
  (forall c, In c tail -> match c with UpdatePage _ _ => False | _ => True end) ->
  trackerStatus pageId (calls ++ UpdatePage pageId st :: tail) = Some st.
Proof.
  intros Htail. unfold trackerStatus. rewrite fold_left_app. cbn [fold_left].
  rewrite String.eqb_refl.
  induction tail as [|c tail IH]; [reflexivity|].
  cbn [fold_left]. pose proof (Htail c (or_introl eq_refl)) as Hc.
  destruct c; try contradiction; apply IH; intros c' Hc'; apply Htail; now right.
Qed.

Lemma delivered_all msgs :
  (forall m, postError env m = None) -> delivered env true msgs = msgs.
Proof.
  intros Hpost. unfold delivered. induction msgs as [|m msgs IH]; [reflexivity|].
  cbn [List.filter]. now rewrite Hpost, IH.
Qed.

Lemma delivered_two en m1 m2 :
  (delivered env en [m1] ++ delivered env en [m2])%list = delivered env en [m1; m2].
Proof.
  unfold delivered. destruct en; [|reflexivity]. cbn [List.filter].
  destruct (postError env m1), (postError env m2); reflexivity.
Qed.
End DriverFacts.

(** C3 (amended).  For a work item in "not started" status, with the
    tracker accepting the driver's calls: if phase [p] is the first whose
    Step Result has [success = false], the driver executes no agent after
    that phase's; it marks the session FAILED with the descriptor whose
    message is the phase's prefix followed by the step's error message,
    whose code is PROCESSING_ERROR and which is not retryable; the item is
    moved to "in review" with an explanatory comment and the notifier is
    handed the failure notification (it goes out when Slack is enabled and
    [postMessage] does not fail); and the handler returns normally, so the
    polling loop goes on with the remaining items. *)
Theorem failed_step_fails_session_and_intake_continues :
  forall (env : Orchestrator.Env) (w : Orchestrator.World) (item : Types.NotionQAItem)
         (p : Types.WorkflowPhase),
    Types.qa_status item = Types.NOT_STARTED ->
    Orchestrator.trackerUp env w ->
    Orchestrator.firstFailure env p ->
    exists (msg : string) (w' : Orchestrator.World) (s : Types.AgentSession),
      Orchestrator.handleNewQA env item w = (Ok tt, w') /\
      Orchestrator.stepFailedWith env p msg /\
      Orchestrator.executed w'
      = (Orchestrator.executed w ++ Orchestrator.agentsUpTo env p)%list /\
      SessionManager.sessions (Orchestrator.sessionManager w')
        !! Orchestrator.nextSessionId env w = Some s /\
      Types.status s = Types.FAILED /\
      Types.error s
      = Some {| Types.se_message := Orchestrator.failurePrefix p ++ msg;
                Types.se_code := "PROCESSING_ERROR";
                Types.se_stack := None;
                Types.se_phase := None;
                Types.se_retryable := false |} /\
      Orchestrator.toolCalls w'
      = (Orchestrator.toolCalls w
           ++ [ Orchestrator.UpdatePage (Types.qa_id item) Types.IN_PROGRESS;
                Orchestrator.UpdatePage (Types.qa_id item) Types.IN_REVIEW;
                Orchestrator.AppendBlock (Types.qa_id item)
                  (Orchestrator.failedComment
                     (Js.newError (Orchestrator.failurePrefix p ++ msg))) ])%list /\
      Orchestrator.trackerStatus (Types.qa_id item) (Orchestrator.toolCalls w')
      = Some Types.IN_REVIEW /\
      Orchestrator.posted w'
      = (Orchestrator.posted w
           ++ Orchestrator.delivered env (Orchestrator.slackEnabled w)
                [ Orchestrator.MsgStart item;
                  Orchestrator.MsgError item (Orchestrator.failurePrefix p ++ msg)
                                        "UNKNOWN_ERROR" ])%list /\
      (Orchestrator.slackEnabled w = true ->
       (forall m, Orchestrator.postError env m = None) ->
       Orchestrator.posted w'
       = (Orchestrator.posted w
            ++ [ Orchestrator.MsgStart item;
                 Orchestrator.MsgError item (Orchestrator.failurePrefix p ++ msg)
                                       "UNKNOWN_ERROR" ])%list) /\
      (forall rest,
          Orchestrator.handleAll env (item :: rest) w = Orchestrator.handleAll env rest w').
Proof.
  intros env w item p Hst [Hconn Htool] Hfail.
  destruct (started_facts env item w) as (Hc & Hen & Htc & Hpo & Hex & [s0 Hs0]).
  destruct (phases_fail env item (Orchestrator.nextSessionId env w)
              (Orchestrator.started env item w) s0 p)
    as (msg & w1 & Hph & Hstep & Htc1 & Hpo1 & Hex1 & Hc1 & Hen1 & [s1 Hs1]);
    [congruence | assumption | assumption | assumption |].
  assert (Hrun : exists w' s,
             Orchestrator.handleNewQA env item w = (Ok tt, w') /\
             Orchestrator.executed w' = Orchestrator.executed w1 /\
             SessionManager.sessions (Orchestrator.sessionManager w')
               !! Orchestrator.nextSessionId env w = Some s /\
             Types.status s = Types.FAILED /\
             Types.error s
             = Some (Orchestrator.PROCESSING_ERROR
                       (Js.newError (Orchestrator.failurePrefix p ++ msg))) /\
             Orchestrator.toolCalls w'
             = (Orchestrator.toolCalls w1
                  ++ [ Orchestrator.UpdatePage (Types.qa_id item) Types.IN_REVIEW;
                       Orchestrator.AppendBlock (Types.qa_id item)
                         (Orchestrator.failedComment
                            (Js.newError (Orchestrator.failurePrefix p ++ msg))) ])%list /\
             Orchestrator.posted w'
             = (Orchestrator.posted w1
                  ++ Orchestrator.delivered env (Orchestrator.slackEnabled w1)
                       [ Orchestrator.MsgError item (Orchestrator.failurePrefix p ++ msg)
                                               "UNKNOWN_ERROR" ])%list).
  { unfold Orchestrator.handleNewQA. rewrite Hst.
    rewrite bool_decide_eq_true_2 by reflexivity. cbn [negb].
    unfold Orchestrator.tryCatch at 1. rewrite processQA_started.
    unfold Orchestrator.tryCatch at 1. rewrite Hph.
    erewrite bind_ok by reflexivity. unfold Orchestrator.throw.
    unfold Orchestrator.handleError, Orchestrator.updatePageStatus,
      Orchestrator.addComment, Orchestrator.notifyError.
    erewrite bind_ok by (apply run_guarded; [exact Hc1 | apply Htool]).
    erewrite bind_ok by (apply run_guarded; [exact Hc1 | apply Htool]).
    rewrite run_post.
    eexists _, _. split; [reflexivity|].
    cbn [Orchestrator.executed Orchestrator.sessionManager Orchestrator.toolCalls
         Orchestrator.posted Orchestrator.slackEnabled Orchestrator.clock
         Orchestrator.setSessionManager Orchestrator.setToolCalls Orchestrator.setPosted].
    split; [reflexivity|].
    rewrite updateStatus_sessions, lookup_alter_eq, Hs1. cbn [fmap option_fmap option_map].
    split; [reflexivity|]. split; [reflexivity|]. split; [reflexivity|].
    rewrite <- app_assoc. split; reflexivity. }
  destruct Hrun as (w' & s & Hrun & Hex' & Hs' & Hst' & Herr' & Htc' & Hpo').
  exists msg, w', s.
  split; [exact Hrun|]. split; [exact Hstep|].
  split; [now rewrite Hex', Hex1, Hex|].
  split; [exact Hs'|]. split; [exact Hst'|]. split; [exact Herr'|].
  assert (Hcalls :
            Orchestrator.toolCalls w'
            = (Orchestrator.toolCalls w
                 ++ [ Orchestrator.UpdatePage (Types.qa_id item) Types.IN_PROGRESS;
                      Orchestrator.UpdatePage (Types.qa_id item) Types.IN_REVIEW;
                      Orchestrator.AppendBlock (Types.qa_id item)
                        (Orchestrator.failedComment
                           (Js.newError (Orchestrator.failurePrefix p ++ msg))) ])%list).
  { rewrite Htc', Htc1, Htc, <- app_assoc. reflexivity. }
  split; [exact Hcalls|]. split.
  { rewrite Hcalls.
    replace (Orchestrator.toolCalls w
               ++ [ Orchestrator.UpdatePage (Types.qa_id item) Types.IN_PROGRESS;
                    Orchestrator.UpdatePage (Types.qa_id item) Types.IN_REVIEW;
                    Orchestrator.AppendBlock (Types.qa_id item)
                      (Orchestrator.failedComment
                         (Js.newError (Orchestrator.failurePrefix p ++ msg))) ])%list
      with ((Orchestrator.toolCalls w
               ++ [Orchestrator.UpdatePage (Types.qa_id item) Types.IN_PROGRESS])
              ++ Orchestrator.UpdatePage (Types.qa_id item) Types.IN_REVIEW
              :: [Orchestrator.AppendBlock (Types.qa_id item)
                    (Orchestrator.failedComment
                       (Js.newError (Orchestrator.failurePrefix p ++ msg)))])%list
      by (rewrite <- app_assoc; reflexivity).
    apply trackerStatus_last. intros c [<-|[]]. exact I. }
  assert (Hposted :
            Orchestrator.posted w'
            = (Orchestrator.posted w
                 ++ Orchestrator.delivered env (Orchestrator.slackEnabled w)
                      [ Orchestrator.MsgStart item;
                        Orchestrator.MsgError item (Orchestrator.failurePrefix p ++ msg)
                                              "UNKNOWN_ERROR" ])%list).
  { rewrite Hpo', Hpo1, Hpo, Hen1, Hen, <- app_assoc. now rewrite delivered_two. }
  split; [exact Hposted|]. split.
  { intros Hon Hpost. rewrite Hposted, Hon. now rewrite delivered_all. }
  intros rest. cbn [Orchestrator.handleAll].
  now rewrite (bind_ok _ _ _ _ _ Hrun).
Qed.

(** Scenario C on a fresh orchestrator: the analysis fails, and the
    handler returns normally after running the analyzer only. *)
Lemma failed_step_witness :
  exists w',
    Orchestrator.handleNewQA Orchestrator.scenarioC SessionManager.loginItem
                             Orchestrator.freshWorld = (Ok tt, w') /\
    Orchestrator.executed w' = ["qa-analyzer"] /\
    Orchestrator.trackerStatus "page-1" (Orchestrator.toolCalls w') = Some Types.IN_REVIEW.
Proof.
  destruct (failed_step_fails_session_and_intake_continues
              Orchestrator.scenarioC Orchestrator.freshWorld SessionManager.loginItem
              Types.ANALYSIS)
    as (msg & w' & s & Hrun & _ & Hex & _ & _ & _ & _ & Htr & _ & _ & _).
  - reflexivity.
  - split; [reflexivity | intros c; reflexivity].
  - intros ctx. exists "network down". eexists. split; [vm_compute; reflexivity|].
    split; reflexivity.
  - exists w'. split; [exact Hrun|]. split; [exact Hex | exact Htr].
Defined.

(** C3 as stated fails in one part: the error descriptor the session is
    marked FAILED with is not the step's.  In scenario C the step's
    descriptor is ("network down", AGENT_ERROR, retryable), the session's
    is ("QA Analysis failed: network down", PROCESSING_ERROR, not
    retryable). *)
Lemma session_error_is_not_the_step_error :
  exists r s,
    BaseAgent.execute Orchestrator.qaAnalyzerConfig
      (Orchestrator.analyzerRun Orchestrator.scenarioC
         (Types.context
            (SessionManager.newSession 1000 "session-1000-k3x9q2a" SessionManager.loginItem
                                       Types.noUpdates))) = Ok r /\
    BaseAgent.error r
    = Some {| BaseAgent.r_message := "network down";
              BaseAgent.r_code := "AGENT_ERROR";
              BaseAgent.r_retryable := true |} /\
    SessionManager.sessions
      (Orchestrator.sessionManager
         (Orchestrator.handleNewQA Orchestrator.scenarioC SessionManager.loginItem
                                   Orchestrator.freshWorld).2)
      !! "session-1000-k3x9q2a" = Some s /\
    Types.status s = Types.FAILED /\
    Types.error s
    = Some {| Types.se_message := "QA Analysis failed: network down";
              Types.se_code := "PROCESSING_ERROR";
              Types.se_stack := None;
              Types.se_phase := None;
              Types.se_retryable := false |}.
Proof. vm_compute. eexists _, _. repeat split. Qed.

(** C9 (amended).  For a work item in "not started" status whose analysis
    succeeds and whose classification returns [shouldAct = false], with
    the tracker accepting its calls: the handler returns normally; the only agents
    executed are the analyzer and the classifier; the session is COMPLETED
    with [completedAt] set and the decision in its context, its timer is
    disarmed and the close event is the store's last; the tracker
    received "in progress", then "not actionable" and the explanatory
    comment, so the item's status is "not actionable"; and the notifier
    was handed the start and the not-actionable notifications (they went
    out when Slack is enabled and [postMessage] did not fail). *)
Theorem not_actionable_item_completes_session :
  forall (env : Orchestrator.Env) (w : Orchestrator.World) (item : Types.NotionQAItem),
    Types.qa_status item = Types.NOT_STARTED ->
    Orchestrator.trackerUp env w ->
    Orchestrator.analysisOk env ->
    Orchestrator.classificationOk env false ->
    exists (d : Types.ClassificationDecision) (w' : Orchestrator.World)
           (s : Types.AgentSession),
      Orchestrator.handleNewQA env item w = (Ok tt, w') /\
      Types.shouldAct d = false /\
      Orchestrator.executed w'
      = (Orchestrator.executed w ++ ["qa-analyzer"; "action-classifier"])%list /\
      SessionManager.sessions (Orchestrator.sessionManager w')
        !! Orchestrator.nextSessionId env w = Some s /\
      Types.status s = Types.COMPLETED /\
      is_Some (Types.completedAt s) /\
      Types.decision (Types.context s) = Some d /\
      SessionManager.timeoutHandlers (Orchestrator.sessionManager w')
        !! Orchestrator.nextSessionId env w = None /\
      last (SessionManager.emitted (Orchestrator.sessionManager w'))
      = Some (SessionManager.SessionClosed (Orchestrator.nextSessionId env w)) /\
      Orchestrator.toolCalls w'
      = (Orchestrator.toolCalls w
           ++ [ Orchestrator.UpdatePage (Types.qa_id item) Types.IN_PROGRESS;
                Orchestrator.UpdatePage (Types.qa_id item) Types.NOT_ACTIONABLE;
                Orchestrator.AppendBlock (Types.qa_id item)
                  (Orchestrator.notActionableComment (Types.reason d)) ])%list /\
      Orchestrator.trackerStatus (Types.qa_id item) (Orchestrator.toolCalls w')
      = Some Types.NOT_ACTIONABLE /\
      Orchestrator.posted w'
      = (Orchestrator.posted w
           ++ Orchestrator.delivered env (Orchestrator.slackEnabled w)
                [ Orchestrator.MsgStart item;
                  Orchestrator.MsgNotActionable item (Types.reason d) ])%list /\
      (Orchestrator.slackEnabled w = true ->
       (forall m, Orchestrator.postError env m = None) ->
       Orchestrator.posted w'
       = (Orchestrator.posted w
            ++ [ Orchestrator.MsgStart item;
                 Orchestrator.MsgNotActionable item (Types.reason d) ])%list).
Proof.
  intros env w item Hst [Hconn Htool] Hana Hcls.
  destruct (started_facts env item w) as (Hc & Hen & Htc & Hpo & Hex & [s0 Hs0]).
  destruct (phases_not_actionable env item (Orchestrator.nextSessionId env w)
              (Orchestrator.started env item w) s0)
    as (d & w1 & s1 & Hph & Hact & Htc1 & Hpo1 & Hex1 & Hs1 & Hst1 & Hca1 & Hd1
        & Harm1 & Hev1);
    [congruence | assumption | assumption | assumption | assumption |].
  exists d, w1, s1.
  split.
  { unfold Orchestrator.handleNewQA. rewrite Hst.
    rewrite bool_decide_eq_true_2 by reflexivity. cbn [negb].
    unfold Orchestrator.tryCatch at 1. rewrite processQA_started.
    unfold Orchestrator.tryCatch at 1. now rewrite Hph. }
  split; [exact Hact|]. split; [now rewrite Hex1, Hex|].
  split; [exact Hs1|]. split; [exact Hst1|]. split; [exact Hca1|]. split; [exact Hd1|].
  split; [exact Harm1|]. split; [exact Hev1|].
  assert (Hcalls :
            Orchestrator.toolCalls w1
            = (Orchestrator.toolCalls w
                 ++ [ Orchestrator.UpdatePage (Types.qa_id item) Types.IN_PROGRESS;
                      Orchestrator.UpdatePage (Types.qa_id item) Types.NOT_ACTIONABLE;
                      Orchestrator.AppendBlock (Types.qa_id item)
                        (Orchestrator.notActionableComment (Types.reason d)) ])%list).
  { now rewrite Htc1, Htc. }
  split; [exact Hcalls|]. split.
  { rewrite Hcalls.
    replace (Orchestrator.toolCalls w
               ++ [ Orchestrator.UpdatePage (Types.qa_id item) Types.IN_PROGRESS;
                    Orchestrator.UpdatePage (Types.qa_id item) Types.NOT_ACTIONABLE;
                    Orchestrator.AppendBlock (Types.qa_id item)
                      (Orchestrator.notActionableComment (Types.reason d)) ])%list
      with ((Orchestrator.toolCalls w
               ++ [Orchestrator.UpdatePage (Types.qa_id item) Types.IN_PROGRESS])
              ++ Orchestrator.UpdatePage (Types.qa_id item) Types.NOT_ACTIONABLE
              :: [Orchestrator.AppendBlock (Types.qa_id item)
                    (Orchestrator.notActionableComment (Types.reason d))])%list
      by (rewrite <- app_assoc; reflexivity).
    apply trackerStatus_last. intros c [<-|[]]. exact I. }
  assert (Hposted :
            Orchestrator.posted w1
            = (Orchestrator.posted w
                 ++ Orchestrator.delivered env (Orchestrator.slackEnabled w)
                      [ Orchestrator.MsgStart item;
                        Orchestrator.MsgNotActionable item (Types.reason d) ])%list).
  { now rewrite Hpo1, Hpo, Hen. }
  split; [exact Hposted|].
  intros Hon Hpost. rewrite Hposted, Hon. now rewrite delivered_all.
Qed.

(** Scenario B on a fresh orchestrator. *)
Lemma not_actionable_witness :
  exists w',
    Orchestrator.handleNewQA Orchestrator.scenarioB SessionManager.loginItem
                             Orchestrator.freshWorld = (Ok tt, w') /\
    Orchestrator.executed w' = ["qa-analyzer"; "action-classifier"] /\
    Orchestrator.trackerStatus "page-1" (Orchestrator.toolCalls w')
    = Some Types.NOT_ACTIONABLE.
Proof.
  destruct (not_actionable_item_completes_session
              Orchestrator.scenarioB Orchestrator.freshWorld SessionManager.loginItem)
    as (d & w' & s & Hrun & _ & Hex & _ & _ & _ & _ & _ & _ & _ & Htr & _ & _).
  - reflexivity.
  - split; [reflexivity | intros c; reflexivity].
  - intros ctx. exists Orchestrator.sampleAnalysis. eexists.
    split; [vm_compute; reflexivity|]. split; reflexivity.
  - intros a ctx. exists Orchestrator.needsProductDecision. split; [|reflexivity].
    eexists. split; [vm_compute; reflexivity|]. split; reflexivity.
  - exists w'. split; [exact Hrun|]. split; [exact Hex | exact Htr].
Defined.

(** C9 as stated, without the clause on the tracker, fails.  Analysis
    succeeds and classification returns [shouldAct = false], but the
    tracker refuses the "not actionable" status update: the error leaves
    [handleNotActionable] inside the [try] of [processQA], so the session
    ends FAILED, not COMPLETED; the item is moved to "in review", not to
    "not actionable"; and the notification sent is the failure one. *)
Lemma refused_not_actionable_update_fails_session :
  Orchestrator.analysisOk Pipeline.scenarioBRefused /\
  Orchestrator.classificationOk Pipeline.scenarioBRefused false /\
  Types.qa_status SessionManager.loginItem = Types.NOT_STARTED /\
  exists w' s,
    Orchestrator.handleNewQA Pipeline.scenarioBRefused SessionManager.loginItem
                             Orchestrator.freshWorld = (Ok tt, w') /\
    Orchestrator.executed w' = ["qa-analyzer"; "action-classifier"] /\
    SessionManager.sessions (Orchestrator.sessionManager w') !! "session-1000-k3x9q2a"
    = Some s /\
    Types.status s = Types.FAILED /\
    Orchestrator.trackerStatus "page-1" (Orchestrator.toolCalls w') = Some Types.IN_REVIEW /\
    Orchestrator.posted w'
    = [ Orchestrator.MsgStart SessionManager.loginItem;
        Orchestrator.MsgError SessionManager.loginItem
          "Not Actionable is not a valid select option" "UNKNOWN_ERROR" ].
Proof.
  split.
  { intros ctx. exists Orchestrator.sampleAnalysis. eexists.
    split; [vm_compute; reflexivity|]. split; reflexivity. }
  split.
  { intros a ctx. exists Orchestrator.needsProductDecision. split; [|reflexivity].
    eexists. split; [vm_compute; reflexivity|]. split; reflexivity. }
  split; [reflexivity|].
  vm_compute. eexists _, _. repeat split.
Qed.

(** Scenario B, evaluated: both notifications went out, and the session
    is COMPLETED. *)
Lemma scenarioB_evaluated :
  Orchestrator.posted
    (Orchestrator.handleNewQA Orchestrator.scenarioB SessionManager.loginItem
                              Orchestrator.freshWorld).2
  = [ Orchestrator.MsgStart SessionManager.loginItem;
      Orchestrator.MsgNotActionable SessionManager.loginItem "needs product decision" ] /\
  Types.status <$>
    SessionManager.sessions
      (Orchestrator.sessionManager
         (Orchestrator.handleNewQA Orchestrator.scenarioB SessionManager.loginItem
                                   Orchestrator.freshWorld).2) !! "session-1000-k3x9q2a"
  = Some Types.COMPLETED.
Proof. vm_compute. split; reflexivity. Qed.

(** * Further properties *)

(** ** Backoff Executor: shape of a run *)

Section RetryShape.
Context {T : Type}.
Variable fn : nat -> Exc T.
Variable opts : Retry.RetryOptions.

(** The shape of every run of the loop: one sleep between consecutive
    invocations, each the back-off delay of its attempt; the hook, when
    there is one, is called with the attempt numbers in order. *)
Lemma loop_shape (left : nat) :
  forall (attempt : Z) (called : nat) (last : option Js.Error),
    attempt + Z.of_nat left = Retry.maxAttempts opts + 1 ->
    let r := Retry.loop fn opts left attempt called last in
    Retry.sleeps r
    = map (fun i => Retry.calculateDelay (attempt + Z.of_nat i) opts)
          (seq 0 (length (Retry.sleeps r))) /\
    map snd (Retry.onRetryCalls r)
    = (if Retry.onRetry opts
       then map (fun i => attempt + Z.of_nat i) (seq 0 (length (Retry.sleeps r)))
       else []) /\
    (Retry.invocations r
     = if left is O then called else called + length (Retry.sleeps r) + 1)%nat /\
    (length (Retry.sleeps r) <= left - 1)%nat.
Proof.
  induction left as [|left IH]; intros attempt called last Hsum r; subst r.
  - cbn. destruct (Retry.onRetry opts); auto.
  - cbn [Retry.loop].
    assert (Hstop : forall o : Exc T,
               let r := Retry.mkRun o (S called) [] [] in
               Retry.sleeps r
               = map (fun i => Retry.calculateDelay (attempt + Z.of_nat i) opts)
                     (seq 0 (length (Retry.sleeps r))) /\
               map snd (Retry.onRetryCalls r)
               = (if Retry.onRetry opts
                  then map (fun i => attempt + Z.of_nat i)
                           (seq 0 (length (Retry.sleeps r)))
                  else []) /\
               (Retry.invocations r = called + length (Retry.sleeps r) + 1)%nat /\
               (length (Retry.sleeps r) <= S left - 1)%nat).
    { intros o. cbn. destruct (Retry.onRetry opts); repeat split; lia. }
    destruct (fn called) as [v|[e|]]; try apply Hstop.
    destruct (Z.geb_spec attempt (Retry.maxAttempts opts)); [apply Hstop|].
    destruct (Retry.isRetryableError e opts); cbn [negb]; [|apply Hstop].
    destruct (IH (attempt + 1) (S called) (Some e)) as (Hs & Hc & Hi & Hl); [lia|].
    cbn [Retry.sleeps Retry.onRetryCalls Retry.invocations Retry.outcome length].
    split; [|split; [|split]].
    + cbn [seq map]. f_equal; [f_equal; lia|].
      rewrite Hs at 1. rewrite <- seq_shift, map_map.
      apply map_ext. intros i. f_equal. lia.
    + destruct (Retry.onRetry opts); [|exact Hc].
      cbn [map snd seq]. f_equal; [lia|].
      rewrite Hc. rewrite <- seq_shift, map_map.
      apply map_ext. intros i. lia.
    + rewrite Hi. destruct left; lia.
    + destruct left; cbn in *; lia.
Qed.

(** Retried failures are skipped: after [j] of them the loop is where it
    would be had it started [j] attempts later. *)
Lemma loop_skips (j : nat) :
  forall (left : nat) (attempt : Z) (called : nat) (last : option Js.Error),
    (forall i, (i < j)%nat ->
       exists e, fn (called + i)%nat = Throw (Js.Err e) /\
                 Retry.isRetryableError e opts = true) ->
    (j < left)%nat ->
    attempt + Z.of_nat left = Retry.maxAttempts opts + 1 ->
    exists last',
      Retry.outcome (Retry.loop fn opts left attempt called last)
      = Retry.outcome (Retry.loop fn opts (left - j) (attempt + Z.of_nat j)
                                  (called + j) last') /\
      Retry.invocations (Retry.loop fn opts left attempt called last)
      = Retry.invocations (Retry.loop fn opts (left - j) (attempt + Z.of_nat j)
                                      (called + j) last').
Proof.
  induction j as [|j IH]; intros left attempt called last Hfail Hlt Hsum.
  - exists last. rewrite Nat.sub_0_r, Nat.add_0_r, Z.add_0_r. auto.
  - destruct left as [|left]; [lia|].
    destruct (Hfail 0%nat ltac:(lia)) as (e & He & Hre). rewrite Nat.add_0_r in He.
    cbn [Retry.loop]. rewrite He.
    destruct (Z.geb_spec attempt (Retry.maxAttempts opts)); [lia|].
    rewrite Hre. cbn [negb Retry.outcome Retry.invocations].
    destruct (IH left (attempt + 1) (S called) (Some e)) as (last' & Ho & Hi).
    + intros i Hi. replace (S called + i)%nat with (called + S i)%nat by lia.
      apply Hfail. lia.
    + lia.
    + lia.
    + exists last'. rewrite Ho, Hi.
      replace (attempt + 1 + Z.of_nat j) with (attempt + Z.of_nat (S j)) by lia.
      replace (S called + j)%nat with (called + S j)%nat by lia.
      replace (S left - S j)%nat with (left - j)%nat by lia. auto.
Qed.
End RetryShape.

(** X1. [retry] stops at the first invocation that returns a value or
    throws an error the policy does not retry: when the [j] invocations
    before it threw retryable errors and [j] is below [maxAttempts], the
    operation is invoked exactly [j + 1] times and [retry] settles as that
    invocation did.  With [j = 0]: a non-retryable error gets exactly one
    attempt and is surfaced unchanged. *)
Theorem retry_settles_with_first_final_outcome :
  forall (T : Type) (fn : nat -> Exc T) (options : Retry.PartialRetryOptions) (j : nat),
    RetryCondition.failsRetryablyBefore fn (Retry.merge options) j ->
    RetryCondition.final (Retry.merge options) (fn j) ->
    (j < Z.to_nat (Retry.maxAttempts (Retry.merge options)))%nat ->
    Retry.outcome (Retry.retry fn options) = fn j /\
    Retry.invocations (Retry.retry fn options) = S j.
Proof.
  intros T fn options j Hbefore Hfinal Hlt. unfold Retry.retry. cbv zeta.
  set (opts := Retry.merge options) in *.
  destruct (loop_skips fn opts j (Z.to_nat (Retry.maxAttempts opts)) 1 0%nat None)
    as (last' & -> & ->); [exact Hbefore | exact Hlt | lia |].
  destruct (Z.to_nat (Retry.maxAttempts opts) - j)%nat as [|left] eqn:Hleft; [lia|].
  cbn [Retry.loop Nat.add]. unfold RetryCondition.final in Hfinal.
  destruct (fn j) as [v|[e|]]; [auto | | contradiction].
  destruct (1 + Z.of_nat j >=? Retry.maxAttempts opts); [auto|].
  rewrite Hfinal. auto.
Qed.

(** Two connection resets, then a rejected API key, under five attempts. *)
Lemma retry_settles_witness :
  Retry.invocations
    (Retry.retry
       (fun k : nat =>
          if (k <? 2)%nat then @Throw unit (Js.Err (Js.newError "read ECONNRESET"))
          else Throw (Js.Err (Js.newError "Invalid API key")))
       (Retry.mkPartial (Some 5) None None None None false)) = 3%nat.
Proof.
  apply (retry_settles_with_first_final_outcome unit
           (fun k : nat =>
              if (k <? 2)%nat then Throw (Js.Err (Js.newError "read ECONNRESET"))
              else Throw (Js.Err (Js.newError "Invalid API key")))
           (Retry.mkPartial (Some 5) None None None None false) 2).
  - intros i Hi. exists (Js.newError "read ECONNRESET").
    destruct i as [|[|i]]; [split; reflexivity | split; reflexivity | lia].
  - reflexivity.
  - vm_compute. lia.
Defined.

(** X2. Whatever the operation does, [retry] sleeps exactly once between
    two consecutive invocations, the [k]-th sleep lasting
    [min(initialDelay * backoffMultiplier^(k-1), maxDelay)]; and an
    [onRetry] hook is called once before each sleep, with the attempt
    numbers 1, 2, ... in order. *)
Theorem retry_sleeps_follow_backoff :
  forall (T : Type) (fn : nat -> Exc T) (options : Retry.PartialRetryOptions),
    Retry.sleeps (Retry.retry fn options)
    = map (fun k => Retry.calculateDelay (Z.of_nat k) (Retry.merge options))
          (seq 1 (Retry.invocations (Retry.retry fn options) - 1)) /\
    map snd (Retry.onRetryCalls (Retry.retry fn options))
    = (if Retry.onRetry (Retry.merge options)
       then map Z.of_nat (seq 1 (Retry.invocations (Retry.retry fn options) - 1))
       else []).
Proof.
  intros T fn options. unfold Retry.retry. cbv zeta.
  set (opts := Retry.merge options).
  destruct (Z.to_nat (Retry.maxAttempts opts)) as [|n] eqn:Hn.
  - split; [reflexivity|]. destruct (Retry.onRetry opts); reflexivity.
  - destruct (loop_shape fn opts (S n) 1 0%nat None) as (Hs & Hc & Hi & _); [lia|].
    rewrite Hi.
    replace (0 + length (Retry.sleeps (Retry.loop fn opts (S n) 1 0 None)) + 1 - 1)%nat
      with (length (Retry.sleeps (Retry.loop fn opts (S n) 1 0 None))) by lia.
    split.
    + rewrite Hs at 1. rewrite <- seq_shift, map_map.
      apply map_ext. intros i. f_equal. lia.
    + rewrite Hc. destruct (Retry.onRetry opts); [|reflexivity].
      rewrite <- seq_shift, map_map. apply map_ext. intros i. lia.
Qed.

(** X3. [retry] never invokes the operation more than [maxAttempts]
    times, invokes it at least once when [maxAttempts >= 1], and makes one
    sleep fewer than invocations. *)
Theorem retry_attempts_bounded :
  forall (T : Type) (fn : nat -> Exc T) (options : Retry.PartialRetryOptions),
    (Retry.invocations (Retry.retry fn options)
     <= Z.to_nat (Retry.maxAttempts (Retry.merge options)))%nat /\
    (1 <= Retry.maxAttempts (Retry.merge options) ->
     (1 <= Retry.invocations (Retry.retry fn options))%nat) /\
    length (Retry.sleeps (Retry.retry fn options))
    = (Retry.invocations (Retry.retry fn options) - 1)%nat.
Proof.
  intros T fn options. unfold Retry.retry. cbv zeta.
  set (opts := Retry.merge options).
  destruct (Z.to_nat (Retry.maxAttempts opts)) as [|n] eqn:Hn.
  - cbn [Retry.loop Retry.invocations Retry.sleeps length].
    repeat split; intros; lia.
  - destruct (loop_shape fn opts (S n) 1 0%nat None) as (_ & _ & Hi & Hl); [lia|].
    rewrite Hi. repeat split; intros; lia.
Qed.

Lemma retry_attempts_witness :
  (1 <= Retry.invocations
          (Retry.retry (fun _ : nat => @Throw bool (Js.Err (Js.newError "socket timeout")))
                       (Retry.mkPartial None None None None None false)))%nat.
Proof.
  destruct (retry_attempts_bounded bool
              (fun _ : nat => Throw (Js.Err (Js.newError "socket timeout")))
              (Retry.mkPartial None None None None None false)) as (_ & Hone & _).
  apply Hone. vm_compute. discriminate.
Defined.

(** X4. With [maxAttempts <= 0] the loop body never runs: [retry] does not
    invoke the operation at all and throws [undefined] (the [lastError]
    that was never assigned). *)
Theorem retry_without_attempts_throws_undefined :
  forall (T : Type) (fn : nat -> Exc T) (options : Retry.PartialRetryOptions),
    Retry.maxAttempts (Retry.merge options) <= 0 ->
    Retry.invocations (Retry.retry fn options) = 0%nat /\
    Retry.outcome (Retry.retry fn options) = Throw Js.Undefined.
Proof.
  intros T fn options Hmax. unfold Retry.retry. cbv zeta.
  replace (Z.to_nat (Retry.maxAttempts (Retry.merge options))) with 0%nat by lia.
  split; reflexivity.
Qed.

Lemma retry_without_attempts_witness :
  Retry.outcome
    (Retry.retry (fun _ : nat => Ok true) (Retry.mkPartial (Some 0) None None None None false))
  = Throw Js.Undefined.
Proof.
  apply (retry_without_attempts_throws_undefined bool (fun _ : nat => Ok true)
           (Retry.mkPartial (Some 0) None None None None false)).
  vm_compute. discriminate.
Defined.

(** X5. On integer options and attempts whose power and product stay
    within the integers a JS number holds exactly ([exactDelay]), the
    back-off delay never exceeds [maxDelay]; and for a policy with
    [initialDelay >= 0] and [backoffMultiplier >= 1] the delay is at
    least [min(initialDelay, maxDelay)] and does not shrink from one
    attempt to the next. *)
Theorem calculateDelay_capped_and_monotone :
  forall (opts : Retry.RetryOptions) (attempt : Z),
    Retry.exactDelay attempt opts ->
    Retry.calculateDelay attempt opts <= Retry.maxDelay opts /\
    (0 <= Retry.initialDelay opts -> 1 <= Retry.backoffMultiplier opts ->
     Z.min (Retry.initialDelay opts) (Retry.maxDelay opts)
     <= Retry.calculateDelay attempt opts /\
     (Retry.exactDelay (attempt + 1) opts ->
      Retry.calculateDelay attempt opts <= Retry.calculateDelay (attempt + 1) opts)).
Proof.
  intros opts attempt [Hattempt _]. unfold Retry.calculateDelay. cbv zeta.
  split; [lia|]. intros Hinit Hmult.
  assert (Hone : 1 <= Retry.backoffMultiplier opts ^ (attempt - 1)).
  { replace 1 with (1 ^ (attempt - 1)) at 1 by (apply Z.pow_1_l; lia).
    apply Z.pow_le_mono_l. lia. }
  assert (Hgrow : Retry.backoffMultiplier opts ^ (attempt - 1)
                  <= Retry.backoffMultiplier opts ^ (attempt + 1 - 1)).
  { apply Z.pow_le_mono_r; lia. }
  assert (Hmul : Retry.initialDelay opts * Retry.backoffMultiplier opts ^ (attempt - 1)
                 <= Retry.initialDelay opts
                    * Retry.backoffMultiplier opts ^ (attempt + 1 - 1)).
  { apply Z.mul_le_mono_nonneg_l; assumption. }
  assert (Hlow : Retry.initialDelay opts
                 <= Retry.initialDelay opts * Retry.backoffMultiplier opts ^ (attempt - 1)).
  { rewrite <- (Z.mul_1_r (Retry.initialDelay opts)) at 1.
    apply Z.mul_le_mono_nonneg_l; assumption. }
  split; [lia|]. intros _. lia.
Qed.

(** The default policy at its fifth attempt: 16 s, below the 30 s cap,
    and no more than the sixth attempt's. *)
Lemma calculateDelay_witness :
  Retry.calculateDelay 5 Retry.DEFAULT_RETRY_OPTIONS
  <= Retry.maxDelay Retry.DEFAULT_RETRY_OPTIONS /\
  Retry.calculateDelay 5 Retry.DEFAULT_RETRY_OPTIONS
  <= Retry.calculateDelay 6 Retry.DEFAULT_RETRY_OPTIONS.
Proof.
  destruct (calculateDelay_capped_and_monotone Retry.DEFAULT_RETRY_OPTIONS 5)
    as [Hcap Hrest].
  - unfold Retry.exactDelay, Retry.safeInteger. vm_compute. intuition discriminate.
  - destruct Hrest as [_ Hmono]; [vm_compute; discriminate | vm_compute; discriminate |].
    split; [exact Hcap|]. apply Hmono.
    unfold Retry.exactDelay, Retry.safeInteger. vm_compute. intuition discriminate.
Defined.

(** X6. With an explicit, non-empty [retryableErrors] list the message
    patterns play no part: an error is retryable exactly when its code
    (or, without a truthy code, its name) is in the list.  An empty list
    counts as no list: the default message patterns apply. *)
Theorem explicit_retryable_set_decides_by_code :
  forall (e : Js.Error) (opts : Retry.RetryOptions) (l : list string),
    Retry.retryableErrors opts = Some l ->
    (l <> [] ->
     (Retry.isRetryableError e opts = true <->
      In (Js.optOr (Js.code e) (Js.name e)) l)) /\
    (l = [] ->
     Retry.isRetryableError e opts
     = existsb (Retry.matches (Js.message e)) Retry.retryablePatterns).
Proof.
  intros e opts l Hl. unfold Retry.isRetryableError. rewrite Hl. split.
  - intros Hne. destruct l as [|c cs]; [contradiction|].
    rewrite existsb_exists. split.
    + intros (x & Hin & Heq). apply String.eqb_eq in Heq. now subst x.
    + intros Hin. exists (Js.optOr (Js.code e) (Js.name e)).
      split; [assumption | apply String.eqb_refl].
  - intros ->. reflexivity.
Qed.

(** A rate-limit message is not retried when the list names only
    ECONNRESET. *)
Lemma explicit_retryable_set_witness :
  Retry.isRetryableError (Js.newError "rate limit exceeded")
    (Retry.merge (Retry.mkPartial None None None None (Some ["ECONNRESET"]) false))
  <> true.
Proof.
  destruct (explicit_retryable_set_decides_by_code
              (Js.newError "rate limit exceeded")
              (Retry.merge (Retry.mkPartial None None None None (Some ["ECONNRESET"]) false))
              ["ECONNRESET"]) as [Hiff _].
  - reflexivity.
  - intros H. apply Hiff in H; [|discriminate].
    cbn in H. destruct H as [H|[]]. discriminate.
Defined.

(** ** [retryWithCondition] *)

Section ConditionFacts.
Context {T : Type}.
Variable fn : nat -> Exc T.
Variable condition : T -> bool.
Variable opts : Retry.RetryOptions.

Lemma condition_loop_skips (j : nat) :
  forall (left : nat) (attempt : Z) (called : nat),
    (forall i, (i < j)%nat ->
       exists v, fn (called + i)%nat = Ok v /\ condition v = false) ->
    (j < left)%nat ->
    attempt + Z.of_nat left = Retry.maxAttempts opts + 1 ->
    Retry.outcome (RetryCondition.loop fn condition opts left attempt called)
    = Retry.outcome (RetryCondition.loop fn condition opts (left - j)
                                         (attempt + Z.of_nat j) (called + j)) /\
    Retry.invocations (RetryCondition.loop fn condition opts left attempt called)
    = Retry.invocations (RetryCondition.loop fn condition opts (left - j)
                                             (attempt + Z.of_nat j) (called + j)) /\
    Retry.onRetryCalls (RetryCondition.loop fn condition opts left attempt called) = [].
Proof.
  induction j as [|j IH]; intros left attempt called Hrej Hlt Hsum.
  - rewrite Nat.sub_0_r, Nat.add_0_r, Z.add_0_r. split; [reflexivity|].
    split; [reflexivity|].
    destruct left as [|left]; [lia|]. cbn [RetryCondition.loop].
    destruct (fn called) as [v|t]; [|reflexivity].
    destruct (condition v); [reflexivity|].
    destruct (attempt >=? Retry.maxAttempts opts); reflexivity.
  - destruct left as [|left]; [lia|].
    destruct (Hrej 0%nat ltac:(lia)) as (v & Hv & Hcond). rewrite Nat.add_0_r in Hv.
    cbn [RetryCondition.loop]. rewrite Hv, Hcond.
    destruct (Z.geb_spec attempt (Retry.maxAttempts opts)); [lia|].
    cbn [Retry.outcome Retry.invocations Retry.onRetryCalls].
    destruct (IH left (attempt + 1) (S called)) as (Ho & Hi & _).
    + intros i Hi. replace (S called + i)%nat with (called + S i)%nat by lia.
      apply Hrej. lia.
    + lia.
    + lia.
    + rewrite Ho, Hi.
      replace (attempt + 1 + Z.of_nat j) with (attempt + Z.of_nat (S j)) by lia.
      replace (S called + j)%nat with (called + S j)%nat by lia.
      replace (S left - S j)%nat with (left - j)%nat by lia. auto.
Qed.

Lemma condition_loop_exhausts (left : nat) :
  (forall k, exists v, fn k = Ok v /\ condition v = false) ->
  forall (attempt : Z) (called : nat),
    (1 <= left)%nat ->
    attempt + Z.of_nat left = Retry.maxAttempts opts + 1 ->
    let r := RetryCondition.loop fn condition opts left attempt called in
    Retry.invocations r = (called + left)%nat /\
    Retry.outcome r
    = Throw (Js.Err (Js.newError "Retry condition not met after max attempts")) /\
    length (Retry.sleeps r) = (left - 1)%nat.
Proof.
  intros Hall. induction left as [|left IH]; intros attempt called Hpos Hsum; [lia|].
  destruct (Hall called) as (v & Hv & Hcond).
  cbn [RetryCondition.loop]. rewrite Hv, Hcond.
  destruct (Z.geb_spec attempt (Retry.maxAttempts opts)).
  - assert (left = 0%nat) by lia. subst left. cbn. repeat split; lia.
  - destruct (IH (attempt + 1) (S called)) as (Hi & Ho & Hs); [lia | lia |].
    cbn. rewrite Hi, Ho, Hs. repeat split; lia.
Qed.
End ConditionFacts.

(** X7. [retryWithCondition] stops at the first invocation whose result
    satisfies the condition, or that throws: when the [j] results before
    it failed the condition and [j] is below [maxAttempts], the operation
    is invoked exactly [j + 1] times and the call settles as that
    invocation did.  A thrown error is thus never retried, and the
    [onRetry] hook is never called. *)
Theorem retryWithCondition_settles_at_first_end :
  forall (T : Type) (fn : nat -> Exc T) (condition : T -> bool)
         (options : Retry.PartialRetryOptions) (j : nat),
    RetryCondition.rejectedBefore fn condition j ->
    RetryCondition.ends condition (fn j) ->
    (j < Z.to_nat (Retry.maxAttempts (Retry.merge options)))%nat ->
    Retry.outcome (RetryCondition.retryWithCondition fn condition options) = fn j /\
    Retry.invocations (RetryCondition.retryWithCondition fn condition options) = S j /\
    Retry.onRetryCalls (RetryCondition.retryWithCondition fn condition options) = [].
Proof.
  intros T fn condition options j Hbefore Hend Hlt.
  unfold RetryCondition.retryWithCondition. cbv zeta.
  set (opts := Retry.merge options) in *.
  destruct (condition_loop_skips fn condition opts j
              (Z.to_nat (Retry.maxAttempts opts)) 1 0%nat)
    as (-> & -> & ->); [exact Hbefore | exact Hlt | lia |].
  destruct (Z.to_nat (Retry.maxAttempts opts) - j)%nat as [|left] eqn:Hleft; [lia|].
  cbn [RetryCondition.loop Nat.add]. unfold RetryCondition.ends in Hend.
  destruct (fn j) as [v|t]; [|auto].
  rewrite Hend. auto.
Qed.

(** Polling a job that reports "done" on the third look. *)
Lemma retryWithCondition_settles_witness :
  Retry.outcome
    (RetryCondition.retryWithCondition
       (fun k : nat => Ok (2 <=? k)%nat) (fun done : bool => done)
       (Retry.mkPartial (Some 5) None None None None false)) = Ok true.
Proof.
  apply (retryWithCondition_settles_at_first_end bool
           (fun k : nat => Ok (2 <=? k)%nat) (fun done : bool => done)
           (Retry.mkPartial (Some 5) None None None None false) 2).
  - intros i Hi. exists false.
    destruct i as [|[|i]]; [split; reflexivity | split; reflexivity | lia].
  - reflexivity.
  - vm_compute. lia.
Defined.

(** X8. When no result ever satisfies the condition, [retryWithCondition]
    with [maxAttempts = n >= 1] invokes the operation exactly [n] times,
    sleeps [n - 1] times, and throws the fixed error "Retry condition not
    met after max attempts" (the last result is not returned). *)
Theorem retryWithCondition_exhausts :
  forall (T : Type) (fn : nat -> Exc T) (condition : T -> bool)
         (options : Retry.PartialRetryOptions) (n : Z),
    Retry.maxAttempts (Retry.merge options) = n ->
    1 <= n ->
    (forall k, exists v, fn k = Ok v /\ condition v = false) ->
    Retry.invocations (RetryCondition.retryWithCondition fn condition options)
    = Z.to_nat n /\
    Retry.outcome (RetryCondition.retryWithCondition fn condition options)
    = Throw (Js.Err (Js.newError "Retry condition not met after max attempts")) /\
    length (Retry.sleeps (RetryCondition.retryWithCondition fn condition options))
    = (Z.to_nat n - 1)%nat.
Proof.
  intros T fn condition options n Hn Hpos Hall.
  unfold RetryCondition.retryWithCondition. cbv zeta. rewrite Hn.
  destruct (condition_loop_exhausts fn condition (Retry.merge options) (Z.to_nat n) Hall
              1 0%nat) as (Hi & Ho & Hs); [lia | lia |].
  cbn in Hi. auto.
Qed.

Lemma retryWithCondition_exhausts_witness :
  Retry.invocations
    (RetryCondition.retryWithCondition
       (fun _ : nat => Ok false) (fun done : bool => done)
       (Retry.mkPartial None None None None None false)) = 3%nat.
Proof.
  apply (retryWithCondition_exhausts bool (fun _ : nat => Ok false) (fun done : bool => done)
           (Retry.mkPartial None None None None None false) 3).
  - reflexivity.
  - lia.
  - intros k. exists false. split; reflexivity.
Defined.

(** ** Step Runner: the race, the metadata, the latency *)

(** X9. When the wrapped operation settles no later than the timer, the
    race is won by the operation: the attempt yields the operation's own
    outcome (value or error), the timer firing afterwards changes nothing,
    and the caller waited no longer than the timer delay. *)
Theorem operation_in_time_wins_race :
  forall (O : Type) (config : BaseAgent.AgentConfig) (run : nat -> BaseAgent.Behaviour O)
         (k : nat) (s : BaseAgent.Settles O),
    run k = Some s ->
    BaseAgent.after s <= BaseAgent.timerDelay (BaseAgent.effectiveTimeout config) ->
    BaseAgent.executeWithTimeout config run k = BaseAgent.result s /\
    BaseAgent.race (BaseAgent.effectiveTimeout config)
                   (BaseAgent.raceEvents (BaseAgent.effectiveTimeout config) (run k))
    = BaseAgent.race (BaseAgent.effectiveTimeout config)
                     [BaseAgent.RunSettles (BaseAgent.result s)] /\
    BaseAgent.raceDuration (BaseAgent.effectiveTimeout config) (run k)
    <= BaseAgent.timerDelay (BaseAgent.effectiveTimeout config).
Proof.
  intros O config run k s Hrun Hin.
  unfold BaseAgent.executeWithTimeout, BaseAgent.raceEvents, BaseAgent.raceDuration.
  rewrite Hrun.
  destruct (Z.leb_spec (BaseAgent.after s)
                       (BaseAgent.timerDelay (BaseAgent.effectiveTimeout config))); [|lia].
  cbn. repeat split. lia.
Qed.

Lemma operation_in_time_witness :
  BaseAgent.executeWithTimeout
    (BaseAgent.construct (BaseAgent.mkAgentConfig "action-classifier" (Some 60000) None None))
    (fun _ : nat => Some (BaseAgent.mkSettles 59999 (Ok true))) 0
  = Ok true.
Proof.
  apply (operation_in_time_wins_race bool
           (BaseAgent.construct
              (BaseAgent.mkAgentConfig "action-classifier" (Some 60000) None None))
           (fun _ : nat => Some (BaseAgent.mkSettles 59999 (Ok true))) 0%nat
           (BaseAgent.mkSettles 59999 (Ok true))).
  - reflexivity.
  - vm_compute. discriminate.
Defined.

(** X10. An operation that returns [v] in time on its first invocation
    gives, for any positive retry budget, the success Step Result wrapping
    [v], with [retryCount = 0] and an execution time equal to the
    operation's latency: nothing is retried and nothing is slept. *)
Theorem first_attempt_success_result :
  forall (O : Type) (config : BaseAgent.AgentConfig) (run : nat -> BaseAgent.Behaviour O)
         (s : BaseAgent.Settles O) (v : O),
    run 0%nat = Some s ->
    BaseAgent.after s <= BaseAgent.timerDelay (BaseAgent.effectiveTimeout config) ->
    BaseAgent.result s = Ok v ->
    1 <= Js.numOr (BaseAgent.retries config) 3 ->
    BaseAgent.execute config run
    = Ok {| BaseAgent.success := true;
            BaseAgent.data := Some v;
            BaseAgent.error := None;
            BaseAgent.metadata :=
              {| BaseAgent.executionTime := Z.max 0 (BaseAgent.after s);
                 BaseAgent.retryCount := 0;
                 BaseAgent.m_agentType := BaseAgent.agentType config |} |} /\
    Retry.invocations (BaseAgent.attempts config run) = 1%nat.
Proof.
  intros O config run s v Hrun Hin Hres Hbudget.
  assert (Hfirst : BaseAgent.executeWithTimeout config run 0 = Ok v).
  { unfold BaseAgent.executeWithTimeout, BaseAgent.raceEvents. rewrite Hrun.
    destruct (Z.leb_spec (BaseAgent.after s)
                         (BaseAgent.timerDelay (BaseAgent.effectiveTimeout config))); [|lia].
    cbn. exact Hres. }
  assert (Hattempts : BaseAgent.attempts config run = Retry.mkRun (Ok v) 1 [] []).
  { unfold BaseAgent.attempts, Retry.retry. cbv zeta.
    change (Retry.maxAttempts (Retry.merge (BaseAgent.retryOptions config)))
      with (Js.numOr (BaseAgent.retries config) 3).
    destruct (Z.to_nat (Js.numOr (BaseAgent.retries config) 3)) as [|n] eqn:Hn; [lia|].
    cbn [Retry.loop]. now rewrite Hfirst. }
  unfold BaseAgent.execute, BaseAgent.executeBody, BaseAgent.meta, BaseAgent.elapsed.
  rewrite Hattempts. cbn [Retry.outcome Retry.invocations Retry.sleeps Retry.onRetryCalls].
  split; [|reflexivity]. cbn. unfold BaseAgent.raceDuration. rewrite Hrun.
  pose proof (timerDelay_positive (BaseAgent.effectiveTimeout config)).
  do 3 f_equal. lia.
Qed.

Lemma first_attempt_success_witness :
  Retry.invocations
    (BaseAgent.attempts
       (BaseAgent.construct (BaseAgent.mkAgentConfig "qa-analyzer" None None None))
       (fun _ : nat => Some (BaseAgent.mkSettles 1200 (Ok true)))) = 1%nat.
Proof.
  apply (first_attempt_success_result bool
           (BaseAgent.construct (BaseAgent.mkAgentConfig "qa-analyzer" None None None))
           (fun _ : nat => Some (BaseAgent.mkSettles 1200 (Ok true)))
           (BaseAgent.mkSettles 1200 (Ok true)) true).
  - reflexivity.
  - vm_compute. discriminate.
  - reflexivity.
  - vm_compute. discriminate.
Defined.

Lemma lastRetry_numbered (calls : list (Js.Error * Z)) (n : nat) :
  map snd calls = map (fun i => 1 + Z.of_nat i) (seq 0 n) ->
  BaseAgent.lastRetry calls = Z.of_nat n.
Proof.
  unfold BaseAgent.lastRetry. intros Hcalls.
  assert (Hfold : forall (l : list (Js.Error * Z)) (a : Z),
             fold_left (fun (_ : Z) (c : Js.Error * Z) => snd c) l a
             = fold_left (fun (_ : Z) (x : Z) => x) (map snd l) a).
  { induction l as [|c l IH]; intros a; [reflexivity | apply IH]. }
  rewrite Hfold, Hcalls. clear.
  induction n as [|n IH]; [reflexivity|].
  rewrite seq_S, map_app, fold_left_app. cbn. lia.
Qed.

Lemma execute_metadata {O} (config : BaseAgent.AgentConfig)
      (run : nat -> BaseAgent.Behaviour O) (r : BaseAgent.AgentResult O) :
  BaseAgent.execute config run = Ok r ->
  BaseAgent.metadata r = BaseAgent.meta config run (BaseAgent.attempts config run).
Proof.
  unfold BaseAgent.execute, BaseAgent.executeBody.
  destruct (Retry.outcome (BaseAgent.attempts config run)) as [v|[e|]]; cbn;
    [intros [= <-]; reflexivity | intros [= <-]; reflexivity | discriminate].
Qed.

(** X11. The [retryCount] of a Step Result is the number of invocations of
    the operation minus one, whatever the operation did (retry budget at
    least 1). *)
Theorem retryCount_counts_extra_invocations :
  forall (O : Type) (config : BaseAgent.AgentConfig) (run : nat -> BaseAgent.Behaviour O)
         (r : BaseAgent.AgentResult O),
    1 <= Js.numOr (BaseAgent.retries config) 3 ->
    BaseAgent.execute config run = Ok r ->
    BaseAgent.retryCount (BaseAgent.metadata r)
    = Z.of_nat (Retry.invocations (BaseAgent.attempts config run)) - 1.
Proof.
  intros O config run r Hbudget Hexec.
  rewrite (execute_metadata config run r Hexec). cbn [BaseAgent.meta BaseAgent.retryCount].
  unfold BaseAgent.attempts, Retry.retry. cbv zeta.
  set (opts := Retry.merge (BaseAgent.retryOptions config)).
  change (Retry.maxAttempts opts) with (Js.numOr (BaseAgent.retries config) 3).
  destruct (Z.to_nat (Js.numOr (BaseAgent.retries config) 3)) as [|n] eqn:Hn; [lia|].
  destruct (loop_shape (BaseAgent.executeWithTimeout config run) opts (S n) 1 0%nat None)
    as (_ & Hc & Hi & _).
  { change (Retry.maxAttempts opts) with (Js.numOr (BaseAgent.retries config) 3). lia. }
  change (Retry.onRetry opts) with true in Hc.
  rewrite (lastRetry_numbered _ _ Hc), Hi. lia.
Qed.

(** Two timeouts, then an answer: the result says two retries. *)
Lemma retryCount_witness :
  exists r,
    BaseAgent.execute
      (BaseAgent.construct (BaseAgent.mkAgentConfig "qa-analyzer" (Some 1000) None None))
      (fun k : nat =>
         if (k <? 2)%nat then None else Some (BaseAgent.mkSettles 10 (Ok true))) = Ok r /\
    BaseAgent.retryCount (BaseAgent.metadata r) = 2.
Proof.
  set (config := BaseAgent.construct
                   (BaseAgent.mkAgentConfig "qa-analyzer" (Some 1000) None None)).
  set (run := fun k : nat =>
                if (k <? 2)%nat then None else Some (BaseAgent.mkSettles 10 (Ok true))).
  destruct (BaseAgent.execute config run) as [r|t] eqn:E; [|vm_compute in E; discriminate].
  exists r. split; [first [exact E | reflexivity]|].
  rewrite (retryCount_counts_extra_invocations bool config run r);
    [| vm_compute; discriminate | exact E].
  vm_compute. reflexivity.
Defined.

Section ExhaustionFacts.
Context {T : Type}.
Variable fn : nat -> Exc T.
Variable opts : Retry.RetryOptions.
Hypothesis undefined_not_retried :
  forall attempt, Retry.isRetryableError (Retry.undefinedRead opts attempt) opts = false.

(** A retryable error comes out of the loop only from its last
    iteration. *)
Lemma retryable_outcome_is_last (left : nat) :
  forall (attempt : Z) (called : nat) (last : option Js.Error) (e : Js.Error),
    (1 <= left)%nat ->
    attempt + Z.of_nat left = Retry.maxAttempts opts + 1 ->
    Retry.outcome (Retry.loop fn opts left attempt called last) = Throw (Js.Err e) ->
    Retry.isRetryableError e opts = true ->
    Retry.invocations (Retry.loop fn opts left attempt called last) = (called + left)%nat.
Proof.
  induction left as [|left IH]; intros attempt called last e Hpos Hsum Hout Hre; [lia|].
  cbn [Retry.loop] in *.
  destruct (fn called) as [v|[e0|]].
  - discriminate.
  - destruct (Z.geb_spec attempt (Retry.maxAttempts opts)).
    + cbn. lia.
    + destruct (Retry.isRetryableError e0 opts) eqn:Hre0; cbn [negb] in *.
      * cbn [Retry.outcome Retry.invocations] in *.
        rewrite (IH (attempt + 1) (S called) (Some e0) e); [lia | lia | lia | exact Hout | exact Hre].
      * cbn in Hout. injection Hout as ->. congruence.
  - cbn in Hout. injection Hout as <-. rewrite undefined_not_retried in Hre. discriminate.
Qed.
End ExhaustionFacts.

(** X12. A failure Step Result flagged [retryable: true] has used up the
    whole retry budget: the operation was invoked [config.retries || 3]
    times before [execute] gave up. *)
Theorem retryable_failure_exhausted_budget :
  forall (O : Type) (config : BaseAgent.AgentConfig) (run : nat -> BaseAgent.Behaviour O)
         (r : BaseAgent.AgentResult O) (d : BaseAgent.ResultError),
    1 <= Js.numOr (BaseAgent.retries config) 3 ->
    BaseAgent.execute config run = Ok r ->
    BaseAgent.error r = Some d ->
    BaseAgent.r_retryable d = true ->
    Retry.invocations (BaseAgent.attempts config run)
    = Z.to_nat (Js.numOr (BaseAgent.retries config) 3).
Proof.
  intros O config run r d Hbudget Hexec Herr Hflag.
  unfold BaseAgent.execute, BaseAgent.executeBody in Hexec.
  destruct (Retry.outcome (BaseAgent.attempts config run)) as [v|[e|]] eqn:Hout.
  - injection Hexec as <-. discriminate.
  - cbn in Hexec. injection Hexec as <-. cbn in Herr. injection Herr as <-.
    change (BaseAgent.isRetryableError e = true) in Hflag.
    unfold BaseAgent.attempts, Retry.retry in *. cbv zeta in *.
    set (opts := Retry.merge (BaseAgent.retryOptions config)) in *.
    change (Retry.maxAttempts opts) with (Js.numOr (BaseAgent.retries config) 3) in *.
    assert (Hund : forall attempt,
               Retry.isRetryableError (Retry.undefinedRead opts attempt) opts = false).
    { intros attempt. unfold Retry.undefinedRead.
      destruct (attempt >=? Retry.maxAttempts opts); reflexivity. }
    rewrite (retryable_outcome_is_last (BaseAgent.executeWithTimeout config run) opts
               Hund _ 1 0%nat None e); [reflexivity | lia | | exact Hout |].
    + change (Retry.maxAttempts opts) with (Js.numOr (BaseAgent.retries config) 3). lia.
    + rewrite (default_classification_is_agent_or_ENOTFOUND e opts eq_refl), Hflag.
      reflexivity.
  - discriminate.
Qed.

Lemma retryable_failure_witness :
  Retry.invocations
    (BaseAgent.attempts
       (BaseAgent.construct (BaseAgent.mkAgentConfig "qa-analyzer" None None None))
       (fun _ : nat =>
          Some (BaseAgent.mkSettles 50 (@Throw bool (Js.Err (Js.newError "network down"))))))
  = 3%nat.
Proof.
  set (config := BaseAgent.construct (BaseAgent.mkAgentConfig "qa-analyzer" None None None)).
  set (run := fun _ : nat =>
         Some (BaseAgent.mkSettles 50 (@Throw bool (Js.Err (Js.newError "network down"))))).
  destruct (BaseAgent.execute config run) as [r|t] eqn:E; [|vm_compute in E; discriminate].
  apply (retryable_failure_exhausted_budget bool config run r
           (BaseAgent.mkResultError "network down" "AGENT_ERROR" true)).
  - vm_compute. discriminate.
  - exact E.
  - vm_compute in E. injection E as <-. reflexivity.
  - reflexivity.
Defined.

Lemma sum_bounded (l : list Z) (B : Z) :
  Forall (fun x => 0 <= x <= B) l ->
  0 <= fold_right Z.add 0 l <= Z.of_nat (length l) * B.
Proof.
  induction 1 as [|x l Hx _ IH]; cbn [fold_right length]; lia.
Qed.

Lemma Forall_map_all {A B} (P : B -> Prop) (f : A -> B) (l : list A) :
  (forall a, P (f a)) -> Forall P (map f l).
Proof.
  intros Hall. induction l as [|a l IH]; cbn [map]; constructor; auto.
Qed.

Lemma raceDuration_bounds {O} (timeout : Z) (b : BaseAgent.Behaviour O) :
  0 <= BaseAgent.raceDuration timeout b <= BaseAgent.timerDelay timeout.
Proof.
  pose proof (timerDelay_positive timeout).
  unfold BaseAgent.raceDuration. destruct b; lia.
Qed.

(** X13. The execution time reported in a Step Result is never negative
    and at most [n] timer delays plus [n - 1] maximal back-off sleeps of
    30 seconds, where [n = config.retries || 3 >= 1]: [execute] cannot
    hang, however the operation behaves. *)
Theorem executionTime_bounded :
  forall (O : Type) (config : BaseAgent.AgentConfig) (run : nat -> BaseAgent.Behaviour O)
         (r : BaseAgent.AgentResult O),
    1 <= Js.numOr (BaseAgent.retries config) 3 ->
    BaseAgent.execute config run = Ok r ->
    0 <= BaseAgent.executionTime (BaseAgent.metadata r)
      <= Js.numOr (BaseAgent.retries config) 3
         * BaseAgent.timerDelay (BaseAgent.effectiveTimeout config)
         + (Js.numOr (BaseAgent.retries config) 3 - 1) * 30000.
Proof.
  intros O config run r Hbudget Hexec.
  rewrite (execute_metadata config run r Hexec).
  cbn [BaseAgent.meta BaseAgent.executionTime]. unfold BaseAgent.elapsed.
  unfold BaseAgent.attempts, Retry.retry. cbv zeta.
  set (opts := Retry.merge (BaseAgent.retryOptions config)).
  change (Retry.maxAttempts opts) with (Js.numOr (BaseAgent.retries config) 3).
  set (n := Js.numOr (BaseAgent.retries config) 3) in *.
  destruct (loop_shape (BaseAgent.executeWithTimeout config run) opts (Z.to_nat n) 1 0%nat None)
    as (Hs & _ & Hi & Hlen).
  { change (Retry.maxAttempts opts) with n. lia. }
  set (res := Retry.loop (BaseAgent.executeWithTimeout config run) opts (Z.to_nat n) 1 0 None)
    in *.
  destruct (Z.to_nat n) as [|m] eqn:Hn; [lia|].
  pose proof (timerDelay_positive (BaseAgent.effectiveTimeout config)) as Hpos.
  assert (Hwaits :
            0 <= fold_right Z.add 0
                   (map (fun k => BaseAgent.raceDuration (BaseAgent.effectiveTimeout config)
                                                          (run k))
                        (seq 0 (Retry.invocations res)))
              <= Z.of_nat (Retry.invocations res)
                 * BaseAgent.timerDelay (BaseAgent.effectiveTimeout config)).
  { pose proof (sum_bounded
                  (map (fun k => BaseAgent.raceDuration (BaseAgent.effectiveTimeout config)
                                                         (run k))
                       (seq 0 (Retry.invocations res)))
                  (BaseAgent.timerDelay (BaseAgent.effectiveTimeout config))) as Hsum.
    rewrite length_map, length_seq in Hsum. apply Hsum.
    apply Forall_map_all. intros k. apply raceDuration_bounds. }
  assert (Hsleeps : 0 <= fold_right Z.add 0 (Retry.sleeps res)
                      <= Z.of_nat (length (Retry.sleeps res)) * 30000).
  { apply sum_bounded. rewrite Hs.
    apply Forall_map_all. intros k.
    unfold Retry.calculateDelay.
    change (Retry.initialDelay opts) with 1000.
    change (Retry.backoffMultiplier opts) with 2.
    change (Retry.maxDelay opts) with 30000.
    pose proof (Z.pow_nonneg 2 (1 + Z.of_nat k - 1) ltac:(lia)). lia. }
  cbn [Nat.add] in Hi. cbn [Nat.sub] in Hlen.
  assert (Hinv : Z.of_nat (Retry.invocations res) <= n) by lia.
  assert (Hl : Z.of_nat (length (Retry.sleeps res)) <= n - 1) by lia.
  assert (Z.of_nat (Retry.invocations res)
          * BaseAgent.timerDelay (BaseAgent.effectiveTimeout config)
          <= n * BaseAgent.timerDelay (BaseAgent.effectiveTimeout config))
    by (apply Z.mul_le_mono_nonneg_r; lia).
  lia.
Qed.

Lemma executionTime_witness :
  exists r,
    BaseAgent.execute
      (BaseAgent.construct (BaseAgent.mkAgentConfig "code-agent" (Some 600000) (Some 2) None))
      (fun _ : nat => @None (BaseAgent.Settles bool)) = Ok r /\
    BaseAgent.executionTime (BaseAgent.metadata r) <= 2 * 600000 + 1 * 30000.
Proof.
  set (config := BaseAgent.construct
                   (BaseAgent.mkAgentConfig "code-agent" (Some 600000) (Some 2) None)).
  set (run := fun _ : nat => @None (BaseAgent.Settles bool)).
  destruct (BaseAgent.execute config run) as [r|t] eqn:E; [|vm_compute in E; discriminate].
  exists r. split; [first [exact E | reflexivity]|].
  apply (executionTime_bounded bool config run r).
  - vm_compute. discriminate.
  - exact E.
Defined.

(** ** Session Store: what the operations keep *)

Section StoreInvariants.
Import Types SessionManager SessionOps.
Implicit Types (sm : SessionManager.t) (s : AgentSession) (sid : string) (now : Z).

(** A keyed property of sessions that every rewrite preserves holds of the
    altered map. *)
Lemma keyed_alter (P : string -> AgentSession -> Prop) (f : AgentSession -> AgentSession)
      (m : gmap string AgentSession) sid :
  map_Forall P m ->
  (forall s, P sid s -> P sid (f s)) ->
  map_Forall P (alter f sid m).
Proof.
  intros Hm Hf k s'. rewrite lookup_alter_Some.
  intros [(-> & s & Hs & ->) | (_ & Hs)].
  - apply Hf. now apply (Hm k).
  - now apply (Hm k).
Qed.

(** An invariant of single sessions is an invariant of the store, once
    [create] establishes it and the four rewrites keep it. *)
Lemma step_keeps (P : string -> AgentSession -> Prop) :
  (forall now sid item extra, P sid (newSession now sid item extra)) ->
  (forall now st err k s, P k s -> P k (withStatus now st err s)) ->
  (forall now phase k s, P k s -> P k (withPhase now phase s)) ->
  (forall now u k s, P k s -> P k (withContext now u s)) ->
  forall now op sm,
    map_Forall P (sessions sm) -> map_Forall P (sessions (step now op sm)).
Proof.
  intros Hnew Hst Hph Hctx now op sm Hinv. destruct op; cbn [step].
  - rewrite create_sessions. apply map_Forall_insert_2; [apply Hnew | assumption].
  - rewrite updateStatus_sessions. apply keyed_alter; auto.
  - rewrite updatePhase_sessions. apply keyed_alter; auto.
  - rewrite updateContext_sessions. apply keyed_alter; auto.
  - rewrite close_sessions. apply keyed_alter; auto.
  - intros k s Hk. apply map_lookup_filter_Some in Hk as [Hk _]. now apply (Hinv k).
  - destruct (fireTimer_sessions now h sm) as [-> | (tm & s & _ & _ & _ & _ & ->)];
      [assumption|].
    apply keyed_alter; auto.
Qed.

Lemma run_keeps (P : string -> AgentSession -> Prop) :
  (forall now sid item extra, P sid (newSession now sid item extra)) ->
  (forall now st err k s, P k s -> P k (withStatus now st err s)) ->
  (forall now phase k s, P k s -> P k (withPhase now phase s)) ->
  (forall now u k s, P k s -> P k (withContext now u s)) ->
  forall history sm,
    map_Forall P (sessions sm) -> map_Forall P (sessions (run history sm)).
Proof.
  intros Hnew Hst Hph Hctx history.
  induction history as [|[now op] rest IH]; intros sm Hinv; [assumption|].
  cbn. apply IH. now apply step_keeps.
Qed.

Lemma withPhase_consistent now phase s :
  phasesConsistent s -> phasesConsistent (withPhase now phase s).
Proof.
  intros [Hnd Hcur]. unfold phasesConsistent. cbn.
  destruct (bool_decide_reflect (phase ∈ completedPhases s)) as [Hin|Hout].
  - split; [assumption|]. now intros p [= <-].
  - split.
    + apply NoDup_app. split; [assumption|]. split.
      * intros x Hx Hx'. apply list_elem_of_singleton in Hx'. now subst x.
      * apply NoDup_singleton.
    + intros p [= <-]. apply elem_of_app. right. now apply list_elem_of_singleton.
Qed.

Lemma target_sessions now op sm sid :
  target op = Some sid ->
  exists f, sessions (step now op sm) = alter f sid (sessions sm).
Proof.
  destruct op; cbn; intros [= <-]; eexists.
  - apply updateStatus_sessions.
  - apply updatePhase_sessions.
  - apply updateContext_sessions.
  - apply close_sessions.
Qed.

Lemma count_partition (l : list AgentSession) :
  length l
  = (length (filter (fun s => status s = RUNNING \/ status s = CREATED) l)
     + length (filter (fun s => status s = COMPLETED) l)
     + length (filter (fun s => status s = FAILED) l)
     + length (filter (fun s => status s = TIMEOUT) l))%nat.
Proof.
  induction l as [|s l IH]; [reflexivity|].
  rewrite !filter_cons.
  destruct (status s) eqn:Hst;
    repeat case_decide; cbn [length]; try lia;
    repeat match goal with
           | H : _ \/ _ |- _ => destruct H
           | H : ~ (_ \/ _) |- _ => exfalso; apply H; auto
           end; congruence.
Qed.
End StoreInvariants.

(** X14. An update addressed to session [sid] ([updateStatus],
    [updatePhase], [updateContext], [close]) leaves every other session as
    it was and neither adds nor removes a session; addressed to an id the
    store does not hold, it changes nothing at all: no event, no timer, no
    exception. *)
Theorem update_touches_only_its_session :
  forall (now : Z) (op : SessionManager.Op) (sm : SessionManager.t) (sid : string),
    SessionOps.target op = Some sid ->
    (forall k, k <> sid ->
       SessionManager.sessions (SessionManager.step now op sm) !! k
       = SessionManager.sessions sm !! k) /\
    (forall k, is_Some (SessionManager.sessions (SessionManager.step now op sm) !! k)
               <-> is_Some (SessionManager.sessions sm !! k)) /\
    (SessionManager.get sid sm = None -> SessionManager.step now op sm = sm).
Proof.
  intros now op sm sid Htarget.
  destruct (target_sessions now op sm sid Htarget) as [f Hf].
  split; [|split].
  - intros k Hk. rewrite Hf. now apply lookup_alter_ne.
  - intros k. rewrite Hf. destruct (decide (sid = k)) as [->|Hne].
    + rewrite lookup_alter_eq. rewrite fmap_is_Some. reflexivity.
    + now rewrite lookup_alter_ne.
  - unfold SessionManager.get. intros Hnone.
    destruct op; cbn in Htarget; try discriminate; injection Htarget as ->; cbn [SessionManager.step].
    + unfold SessionManager.updateStatus. now rewrite Hnone.
    + unfold SessionManager.updatePhase. now rewrite Hnone.
    + unfold SessionManager.updateContext. now rewrite Hnone.
    + unfold SessionManager.close. now rewrite Hnone.
Qed.

Lemma update_touches_witness :
  SessionManager.step 2000 (SessionManager.Close "session-9-zzzzzzz" None)
    (SessionManager.run
       [ (1000, SessionManager.Create "k3x9q2a" SessionManager.loginItem Types.noUpdates) ]
       (SessionManager.new None))
  = SessionManager.run
      [ (1000, SessionManager.Create "k3x9q2a" SessionManager.loginItem Types.noUpdates) ]
      (SessionManager.new None).
Proof.
  apply (update_touches_only_its_session 2000
           (SessionManager.Close "session-9-zzzzzzz" None) _ "session-9-zzzzzzz").
  - reflexivity.
  - vm_compute. reflexivity.
Defined.

(** X15. After any sequence of store operations from the empty store
    (creations, updates, closes, clean-ups, timer firings), [get(k)]
    returns a session whose [id] is [k]: no operation files a session
    under a key other than its own id or rewrites the id. *)
Theorem session_is_filed_under_its_id :
  forall (timeout : option Z) (history : list (Z * SessionManager.Op))
         (k : string) (s : Types.AgentSession),
    SessionManager.get k (SessionManager.run history (SessionManager.new timeout)) = Some s ->
    Types.id s = k.
Proof.
  intros timeout history k s Hk.
  apply (run_keeps (fun k s => Types.id s = k)) with (history := history)
                                                      (sm := SessionManager.new timeout)
                                                      (i := k) (x := s); auto.
  apply map_Forall_empty.
Qed.

Lemma session_is_filed_witness :
  Types.id <$>
    SessionManager.get "session-1000-k3x9q2a"
      (SessionManager.run
         [ (1000, SessionManager.Create "k3x9q2a" SessionManager.loginItem Types.noUpdates);
           (1500, SessionManager.UpdatePhase "session-1000-k3x9q2a" Types.ANALYSIS) ]
         (SessionManager.new None))
  = Some "session-1000-k3x9q2a".
Proof.
  destruct (SessionManager.get "session-1000-k3x9q2a"
      (SessionManager.run
         [ (1000, SessionManager.Create "k3x9q2a" SessionManager.loginItem Types.noUpdates);
           (1500, SessionManager.UpdatePhase "session-1000-k3x9q2a" Types.ANALYSIS) ]
         (SessionManager.new None))) as [s|] eqn:E; [|vm_compute in E; discriminate].
  cbn [fmap option_fmap option_map]. f_equal.
  apply (session_is_filed_under_its_id None
           [ (1000, SessionManager.Create "k3x9q2a" SessionManager.loginItem Types.noUpdates);
             (1500, SessionManager.UpdatePhase "session-1000-k3x9q2a" Types.ANALYSIS) ]
           "session-1000-k3x9q2a" s E).
Defined.

(** X16. After any sequence of store operations from the empty store, the
    [completedPhases] of a session lists no phase twice, and the session's
    [currentPhase], once set, is among them. *)
Theorem completedPhases_has_no_duplicates :
  forall (timeout : option Z) (history : list (Z * SessionManager.Op))
         (k : string) (s : Types.AgentSession),
    SessionManager.get k (SessionManager.run history (SessionManager.new timeout)) = Some s ->
    NoDup (Types.completedPhases s) /\
    forall p, Types.currentPhase s = Some p -> p ∈ Types.completedPhases s.
Proof.
  intros timeout history k s Hk.
  apply (run_keeps (fun _ s => SessionOps.phasesConsistent s))
    with (history := history) (sm := SessionManager.new timeout) (i := k) (x := s); auto.
  - intros now sid item extra. split; [apply NoDup_nil_2 | discriminate].
  - intros now phase k' s'. apply withPhase_consistent.
  - apply map_Forall_empty.
Qed.

(** Entering the analysis phase twice records it once. *)
Lemma completedPhases_witness :
  Types.completedPhases <$>
    SessionManager.get "session-1000-k3x9q2a"
      (SessionManager.run
         [ (1000, SessionManager.Create "k3x9q2a" SessionManager.loginItem Types.noUpdates);
           (1500, SessionManager.UpdatePhase "session-1000-k3x9q2a" Types.ANALYSIS);
           (1600, SessionManager.UpdatePhase "session-1000-k3x9q2a" Types.CLASSIFICATION);
           (1700, SessionManager.UpdatePhase "session-1000-k3x9q2a" Types.ANALYSIS) ]
         (SessionManager.new None))
  = Some [Types.ANALYSIS; Types.CLASSIFICATION] /\
  NoDup [Types.ANALYSIS; Types.CLASSIFICATION].
Proof.
  split; [vm_compute; reflexivity|].
  destruct (SessionManager.get "session-1000-k3x9q2a"
      (SessionManager.run
         [ (1000, SessionManager.Create "k3x9q2a" SessionManager.loginItem Types.noUpdates);
           (1500, SessionManager.UpdatePhase "session-1000-k3x9q2a" Types.ANALYSIS);
           (1600, SessionManager.UpdatePhase "session-1000-k3x9q2a" Types.CLASSIFICATION);
           (1700, SessionManager.UpdatePhase "session-1000-k3x9q2a" Types.ANALYSIS) ]
         (SessionManager.new None))) as [s|] eqn:E; [|vm_compute in E; discriminate].
  destruct (completedPhases_has_no_duplicates None
           [ (1000, SessionManager.Create "k3x9q2a" SessionManager.loginItem Types.noUpdates);
             (1500, SessionManager.UpdatePhase "session-1000-k3x9q2a" Types.ANALYSIS);
             (1600, SessionManager.UpdatePhase "session-1000-k3x9q2a" Types.CLASSIFICATION);
             (1700, SessionManager.UpdatePhase "session-1000-k3x9q2a" Types.ANALYSIS) ]
           "session-1000-k3x9q2a" s E) as [Hnd _].
  vm_compute in E. injection E as <-. exact Hnd.
Defined.

(** X17. [create] followed by [get]: the session returned is the one the
    store holds under its id; it is CREATED, without completion stamp or
    error, its context carries the work item, and its timer is armed
    with the delay the runtime gives [setTimeout(_, defaultTimeout)]:
    [defaultTimeout] ms when that lies between 1 and 2147483647, and 1 ms
    otherwise; when the id is fresh the session count grows by one. *)
Theorem create_then_get :
  forall (now : Z) (suffix : string) (item : Types.NotionQAItem)
         (extra : Types.PartialContext) (sm : SessionManager.t),
    Types.u_qaItem extra = None ->
    let session := (SessionManager.create now suffix item extra sm).1 in
    let sm' := (SessionManager.create now suffix item extra sm).2 in
    SessionManager.get (Types.id session) sm' = Some session /\
    Types.status session = Types.CREATED /\
    Types.completedAt session = None /\
    Types.error session = None /\
    Types.qaItem (Types.context session) = item /\
    (exists h due,
        SessionManager.timeoutHandlers sm' !! Types.id session = Some h /\
        SessionManager.timers sm' !! h
        = Some (SessionManager.mkTimer (Types.id session) due) /\
        (1 <= SessionManager.defaultTimeout sm <= 2147483647 ->
         due = now + SessionManager.defaultTimeout sm) /\
        (SessionManager.defaultTimeout sm < 1 \/
         2147483647 < SessionManager.defaultTimeout sm ->
         due = now + 1)) /\
    (SessionManager.get (Types.id session) sm = None ->
     SessionManager.getSessionCount sm' = S (SessionManager.getSessionCount sm)).
Proof.
  intros now suffix item extra sm Hitem session sm'. subst session sm'.
  unfold SessionManager.create, SessionManager.get, SessionManager.getSessionCount.
  cbn [fst snd SessionManager.newSession Types.id Types.status Types.completedAt Types.error
       Types.context SessionManager.sessions SessionManager.emit SessionManager.setupTimeout
       SessionManager.setSessions SessionManager.timeoutHandlers SessionManager.timers
       SessionManager.nextHandle SessionManager.defaultTimeout].
  split; [apply lookup_insert_eq|].
  do 3 (split; [reflexivity|]).
  split; [unfold Types.spread; cbn; now rewrite Hitem|].
  split.
  - exists (SessionManager.nextHandle sm),
           (now + BaseAgent.timerDelay (SessionManager.defaultTimeout sm)).
    split; [apply lookup_insert_eq|]. split; [apply lookup_insert_eq|].
    unfold BaseAgent.timerDelay.
    destruct (Z.leb_spec 1 (SessionManager.defaultTimeout sm)),
             (Z.leb_spec (SessionManager.defaultTimeout sm) 2147483647);
      cbn [andb]; split; intros; lia.
  - intros Hfresh. now apply map_size_insert_None.
Qed.

Lemma create_then_get_witness :
  SessionManager.getSessionCount
    (SessionManager.create 1000 "k3x9q2a" SessionManager.loginItem Types.noUpdates
                           (SessionManager.new None)).2 = 1%nat.
Proof.
  destruct (create_then_get 1000 "k3x9q2a" SessionManager.loginItem Types.noUpdates
                            (SessionManager.new None) eq_refl)
    as (_ & _ & _ & _ & _ & _ & Hcount).
  rewrite Hcount; reflexivity.
Defined.

(** X18. The statistics partition the store: [getStats().total] is
    [getSessionCount()], and every session is counted exactly once among
    the active sessions of [getActiveSessionCount()] and the [completed],
    [failed] and [timeout] counters of [getStats()]. *)
Theorem stats_partition_the_store :
  forall sm : SessionManager.t,
    SessionManager.total (SessionManager.getStats sm) = SessionManager.getSessionCount sm /\
    SessionManager.getSessionCount sm
    = (SessionManager.getActiveSessionCount sm
       + SessionManager.completed (SessionManager.getStats sm)
       + SessionManager.failed (SessionManager.getStats sm)
       + SessionManager.timeout (SessionManager.getStats sm))%nat.
Proof.
  intros sm.
  assert (Htotal : length (SessionManager.values sm) = SessionManager.getSessionCount sm).
  { unfold SessionManager.values, SessionManager.getSessionCount.
    now rewrite length_fmap, length_map_to_list. }
  split; [exact Htotal|].
  rewrite <- Htotal.
  unfold SessionManager.getActiveSessionCount, SessionManager.getActiveSessions,
    SessionManager.getStats.
  cbn [SessionManager.completed SessionManager.failed SessionManager.timeout].
  apply count_partition.
Qed.

(** X19. No store operation other than a [create] that reuses the id
    clears a session's error descriptor: a session that failed or timed
    out and is then closed as COMPLETED still carries the old error, and
    so it does after an [updateStatus] that is given no error. *)
Theorem error_is_never_cleared :
  forall (now : Z) (op : SessionManager.Op) (sm : SessionManager.t) (k : string)
         (s s' : Types.AgentSession),
    SessionOps.isCreate op = false ->
    SessionManager.get k sm = Some s ->
    SessionManager.get k (SessionManager.step now op sm) = Some s' ->
    is_Some (Types.error s) ->
    is_Some (Types.error s') /\
    (forall sid st, op = SessionManager.Close sid st -> Types.error s' = Types.error s) /\
    (forall sid st, op = SessionManager.UpdateStatus sid st None ->
                    Types.error s' = Types.error s).
Proof.
  intros now op sm k s s' Hop Hs Hs' Herr. unfold SessionManager.get in *.
  assert (Halter : forall f sid,
             SessionManager.sessions (SessionManager.step now op sm)
             = alter f sid (SessionManager.sessions sm) ->
             (forall x, is_Some (Types.error x) -> is_Some (Types.error (f x))) ->
             is_Some (Types.error s')).
  { intros f sid Hf Hkeep. rewrite Hf in Hs'.
    apply lookup_alter_Some in Hs' as [(-> & x & Hx & ->) | (_ & Hx)].
    - apply Hkeep. rewrite Hs in Hx. now injection Hx as <-.
    - rewrite Hs in Hx. now injection Hx as <-. }
  assert (HwithStatus : forall t st err x,
             is_Some (Types.error x) ->
             is_Some (Types.error (SessionManager.withStatus t st err x))).
  { intros t st err x Hx. cbn. destruct err; cbn; eauto. }
  destruct op; cbn [SessionManager.step] in *; try discriminate.
  - split; [|split; [discriminate|]].
    + eapply Halter; [apply updateStatus_sessions | apply HwithStatus].
    + intros sid' st' [= -> -> ->]. rewrite updateStatus_sessions in Hs'.
      apply lookup_alter_Some in Hs' as [(-> & x & Hx & ->) | (_ & Hx)];
        rewrite Hs in Hx; now injection Hx as <-.
  - split; [|split; discriminate].
    eapply Halter; [apply updatePhase_sessions | auto].
  - split; [|split; discriminate].
    eapply Halter; [apply updateContext_sessions | auto].
  - split; [|split; [|discriminate]].
    + eapply Halter; [apply close_sessions | apply HwithStatus].
    + intros sid' st' _. rewrite close_sessions in Hs'.
      apply lookup_alter_Some in Hs' as [(-> & x & Hx & ->) | (_ & Hx)];
        rewrite Hs in Hx; now injection Hx as <-.
  - split; [|split; discriminate].
    apply map_lookup_filter_Some in Hs' as [Hs' _]. rewrite Hs in Hs'.
    now injection Hs' as <-.
  - split; [|split; discriminate].
    destruct (fireTimer_sessions now h sm) as [Hsame | (tm & x & _ & _ & _ & _ & Hf)].
    + rewrite Hsame, Hs in Hs'. now injection Hs' as <-.
    + eapply Halter; [exact Hf | apply HwithStatus].
Qed.

(** A session that timed out and is then closed reads COMPLETED and still
    carries SESSION_TIMEOUT. *)
Lemma error_is_never_cleared_witness :
  (fun s => (Types.status s, Types.error s)) <$>
    SessionManager.get "session-1000-k3x9q2a"
      (SessionManager.step 3700000 (SessionManager.Close "session-1000-k3x9q2a" None)
         (SessionManager.run
            [ (1000, SessionManager.Create "k3x9q2a" SessionManager.loginItem Types.noUpdates);
              (1001, SessionManager.UpdateStatus "session-1000-k3x9q2a" Types.RUNNING None);
              (3601000, SessionManager.TimerFires 0) ]
            (SessionManager.new None)))
  = Some (Types.COMPLETED, Some SessionManager.SESSION_TIMEOUT).
Proof.
  set (sm := SessionManager.run
            [ (1000, SessionManager.Create "k3x9q2a" SessionManager.loginItem Types.noUpdates);
              (1001, SessionManager.UpdateStatus "session-1000-k3x9q2a" Types.RUNNING None);
              (3601000, SessionManager.TimerFires 0) ]
            (SessionManager.new None)).
  destruct (SessionManager.get "session-1000-k3x9q2a" sm) as [s|] eqn:E;
    [|vm_compute in E; discriminate].
  destruct (SessionManager.get "session-1000-k3x9q2a"
              (SessionManager.step 3700000
                 (SessionManager.Close "session-1000-k3x9q2a" None) sm)) as [s'|] eqn:E';
    [|vm_compute in E'; discriminate].
  destruct (error_is_never_cleared 3700000
              (SessionManager.Close "session-1000-k3x9q2a" None) sm
              "session-1000-k3x9q2a" s s' eq_refl E E') as [_ [Hkeep _]].
  - vm_compute in E. injection E as <-. eauto.
  - cbn [fmap option_fmap option_map]. f_equal.
    rewrite (Hkeep _ _ eq_refl).
    vm_compute in E. injection E as <-.
    vm_compute in E'. injection E' as <-. reflexivity.
Defined.

(** ** Workflow Driver: the remaining paths *)

Section PipelineFacts.
Import Types Orchestrator Pipeline.
Variable env : Env.

Local Arguments SessionManager.create : simpl never.
Local Arguments SessionManager.updateStatus : simpl never.
Local Arguments SessionManager.updatePhase : simpl never.
Local Arguments SessionManager.updateContext : simpl never.
Local Arguments SessionManager.close : simpl never.
Local Arguments SessionManager.generateSessionId : simpl never.
Local Arguments BaseAgent.execute : simpl never.
Local Arguments completedComment : simpl never.
Local Arguments String.append : simpl never.
Local Arguments delivered : simpl never.

Ltac world_simpl :=
  cbn [clock sessionManager projectConfigO isRunning notionConnected toolCalls
       slackEnabled posted executed draws Orchestrator.emitted
       setSessionManager setToolCalls setPosted setExecuted setClock setDraws setEmitted].

Ltac world_simpl_in H :=
  cbn [clock sessionManager projectConfigO isRunning notionConnected toolCalls
       slackEnabled posted executed draws Orchestrator.emitted
       setSessionManager setToolCalls setPosted setExecuted setClock setDraws setEmitted]
    in H.

Ltac find_session H :=
  world_simpl;
  repeat first [ rewrite close_sessions | rewrite updateStatus_sessions
               | rewrite updatePhase_sessions | rewrite updateContext_sessions ];
  rewrite ?lookup_alter_eq;
  rewrite H; cbn [fmap option_fmap option_map].

Ltac call_tracker Htool :=
  erewrite bind_ok by (apply run_guarded; [reflexivity | apply Htool; reflexivity]);
  world_simpl.
Ltac call_slack := erewrite bind_ok by apply run_post; world_simpl.
Ltac call_store := erewrite bind_ok by reflexivity; world_simpl.
Ltac read_context Hs0 :=
  erewrite bind_ok by (apply run_contextOf; find_session Hs0; reflexivity); world_simpl.
Ltac read_payload Hd :=
  erewrite bind_ok by (unfold payload; rewrite Hd; reflexivity).
Ltac run_agent Hr Hs :=
  erewrite bind_ok by (apply run_executeAgent; exact Hr); world_simpl;
  rewrite Hs; cbn [negb].

Lemma run_guarded_refused c e w :
  notionConnected w = true -> toolError env c = Some e ->
  guarded env c w = (Throw (Js.Err e), w).
Proof.
  intros Hconn Htool. unfold guarded, bind, reads, tryCatch, callTool.
  rewrite Hconn. cbn. now rewrite Htool.
Qed.

Lemma run_guarded_disconnected c w :
  notionConnected w = false ->
  guarded env c w = (Throw (Js.Err (Js.newError "Not connected to Notion MCP")), w).
Proof.
  intros Hconn. unfold guarded, bind, reads. now rewrite Hconn.
Qed.

(** The "PR URL" update inside its own [try]/[catch]. *)
Lemma run_prUrl item pr w :
  notionConnected w = true ->
  tryCatch (updatePageProperties env (qa_id item) (pr_url pr)) (fun _ => ret tt) w
  = (Ok tt, setToolCalls (toolCalls w ++ prUrlUpdate env item pr)%list w).
Proof.
  intros Hconn. unfold tryCatch, updatePageProperties, prUrlUpdate.
  destruct (toolError env (UpdateProperties (qa_id item) (pr_url pr))) as [e|] eqn:He.
  - rewrite (run_guarded_refused _ e w Hconn He). unfold ret.
    destruct w; cbn. now rewrite app_nil_r.
  - now rewrite (run_guarded _ _ w Hconn He).
Qed.

(** The [try] block when every phase succeeds. *)
Lemma phases_success item sid w s0 :
  notionConnected w = true ->
  (forall c, isUpdateProperties c = false -> toolError env c = None) ->
  SessionManager.sessions (sessionManager w) !! sid = Some s0 ->
  completedPhases s0 = [] ->
  analysisOk env -> classificationOk env true -> implementationOk env -> reportingOk env ->
  exists pr w1 s1,
    phases env item sid w = (Ok tt, w1) /\
    toolCalls w1
    = (toolCalls w ++ [UpdatePage (qa_id item) IN_PROGRESS;
                       UpdatePage (qa_id item) DONE;
                       AppendBlock (qa_id item) (completedComment pr)]
                   ++ prUrlUpdate env item pr)%list /\
    posted w1
    = (posted w ++ delivered env (slackEnabled w)
                     [MsgStart item; MsgSuccess item pr])%list /\
    executed w1 = (executed w ++ agentsUpTo env COMPLETION)%list /\
    Orchestrator.emitted w1 = (Orchestrator.emitted w ++ [QaCompleted item pr])%list /\
    SessionManager.sessions (sessionManager w1) !! sid = Some s1 /\
    status s1 = COMPLETED /\
    is_Some (completedAt s1) /\
    pullRequest (context s1) = Some pr /\
    is_Some (analysis (context s1)) /\
    is_Some (decision (context s1)) /\
    is_Some (codeChanges (context s1)) /\
    completedPhases s1 = [ANALYSIS; CLASSIFICATION; IMPLEMENTATION; PR_CREATION; COMPLETION] /\
    currentPhase s1 = Some COMPLETION /\
    error s1 = error s0 /\
    SessionManager.timeoutHandlers (sessionManager w1) !! sid = None.
Proof.
  intros Hconn Htool Hs0 Hph0 Hana Hcls Himp Hrep.
  destruct w as [clk sm pc running conn calls en posted0 exec dr em].
  world_simpl_in Hconn. world_simpl_in Hs0. world_simpl. subst conn.
  unfold phases, updatePageStatus, notifyStart.
  call_tracker Htool. call_slack. call_store. read_context Hs0.
  match goal with
  | |- context [analyzerRun env ?ctx] => destruct (Hana ctx) as (a & ra & Hra & Hsa & Hda)
  end.
  run_agent Hra Hsa. call_store. call_store. read_context Hs0. read_payload Hda.
  match goal with
  | |- context [classifierRun env ?a ?ctx] =>
      destruct (Hcls a ctx) as (d & (rc & Hrc & Hsc & Hdc) & Hact)
  end.
  run_agent Hrc Hsc. call_store. read_payload Hdc. rewrite Hact. cbn [negb].
  call_store. read_context Hs0.
  match goal with
  | |- context [coderRun env ?a ?d ?ctx] =>
      destruct (Himp a d ctx) as (c & ri & Hri & Hsi & Hdi)
  end.
  run_agent Hri Hsi. call_store. call_store. read_context Hs0. read_payload Hdi.
  match goal with
  | |- context [prManagerRun env ?c ?ctx] =>
      destruct (Hrep c ctx) as (pr & rp & Hrp & Hsp & Hdp)
  end.
  run_agent Hrp Hsp. call_store. call_store. read_payload Hdp.
  unfold completeQA, updatePageStatus, addComment, notifySuccess.
  erewrite bind_ok.
  2:{ call_tracker Htool. call_tracker Htool.
      erewrite bind_ok by (apply run_prUrl; reflexivity). world_simpl.
      apply run_post. }
  call_store. unfold modify.
  eexists pr, _, _. split; [reflexivity|].
  world_simpl. rewrite <- ?app_assoc.
  split; [reflexivity|].
  split.
  { unfold delivered. destruct en; [|now rewrite !app_nil_r].
    cbn [List.filter].
    destruct (postError env (MsgStart item)), (postError env (MsgSuccess item pr));
      reflexivity. }
  split; [reflexivity|]. split; [reflexivity|].
  split; [find_session Hs0; reflexivity|].
  rewrite ?Hda, ?Hdc, ?Hdi, ?Hdp.
  cbn [status completedAt context error currentPhase completedPhases
       SessionManager.withStatus SessionManager.withPhase SessionManager.withContext
       SessionManager.isCompletedOrFailed default from_option].
  rewrite Hph0.
  split; [reflexivity|]. split; [eauto|].
  split; [reflexivity|]. split; [cbn; eauto|]. split; [cbn; eauto|]. split; [cbn; eauto|].
  split; [vm_compute; reflexivity|]. split; [reflexivity|]. split; [reflexivity|].
  apply close_disarms. find_session Hs0. eauto.
Qed.

Lemma started_session item w :
  exists s0,
    SessionManager.sessions (sessionManager (started env item w)) !! nextSessionId env w
    = Some s0 /\
    completedPhases s0 = [] /\ error s0 = None /\ status s0 = RUNNING.
Proof.
  unfold started. rewrite createSession_world. world_simpl.
  rewrite updateStatus_sessions, lookup_alter_eq, create_sessions.
  unfold nextSessionId. rewrite lookup_insert_eq. cbn. eauto.
Qed.
End PipelineFacts.

(** X20. For a work item in "not started" status whose four phases all
    succeed (classification saying "act"), with the tracker accepting the
    driver's calls except perhaps the "PR URL" property update, and with
    no session timer coming due before the handler returns (a session
    timer that fires during a phase leaves its SESSION_TIMEOUT error on
    the session, which [close] does not clear): the
    handler returns normally; the four agents ran in order; the session is
    COMPLETED with [completedAt] set, no error, the pull request in its
    context, the five phases recorded in order and its timer disarmed; the
    tracker shows "done" after "in progress", with the completion comment,
    and the "PR URL" update is recorded only if the tracker took it (its
    refusal is swallowed); the start and success notifications were handed
    to the notifier; and [qa:completed] was emitted once. *)
Theorem actionable_item_is_completed :
  forall (env : Orchestrator.Env) (w : Orchestrator.World) (item : Types.NotionQAItem),
    Types.qa_status item = Types.NOT_STARTED ->
    Pipeline.trackerUpButProperties env w ->
    Orchestrator.analysisOk env ->
    Orchestrator.classificationOk env true ->
    Orchestrator.implementationOk env ->
    Pipeline.reportingOk env ->
    Pipeline.noTimerComesDue env item w ->
    exists (pr : Types.PullRequest) (w' : Orchestrator.World) (s : Types.AgentSession),
      Orchestrator.handleNewQA env item w = (Ok tt, w') /\
      Orchestrator.executed w'
      = (Orchestrator.executed w
           ++ [ "qa-analyzer"; "action-classifier"; "code-agent";
                BaseAgent.agentType (Orchestrator.prManagerAgentConfig env) ])%list /\
      SessionManager.get (Orchestrator.nextSessionId env w) (Orchestrator.sessionManager w')
      = Some s /\
      Types.status s = Types.COMPLETED /\
      is_Some (Types.completedAt s) /\
      Types.error s = None /\
      Types.pullRequest (Types.context s) = Some pr /\
      Types.completedPhases s
      = [ Types.ANALYSIS; Types.CLASSIFICATION; Types.IMPLEMENTATION; Types.PR_CREATION;
          Types.COMPLETION ] /\
      SessionManager.timeoutHandlers (Orchestrator.sessionManager w')
        !! Orchestrator.nextSessionId env w = None /\
      Orchestrator.toolCalls w'
      = (Orchestrator.toolCalls w
           ++ [ Orchestrator.UpdatePage (Types.qa_id item) Types.IN_PROGRESS;
                Orchestrator.UpdatePage (Types.qa_id item) Types.DONE;
                Orchestrator.AppendBlock (Types.qa_id item)
                  (Orchestrator.completedComment pr) ]
           ++ Pipeline.prUrlUpdate env item pr)%list /\
      Orchestrator.trackerStatus (Types.qa_id item) (Orchestrator.toolCalls w')
      = Some Types.DONE /\
      Orchestrator.posted w'
      = (Orchestrator.posted w
           ++ Orchestrator.delivered env (Orchestrator.slackEnabled w)
                [ Orchestrator.MsgStart item; Orchestrator.MsgSuccess item pr ])%list /\
      Orchestrator.emitted w'
      = (Orchestrator.emitted w ++ [Orchestrator.QaCompleted item pr])%list.
Proof.
  intros env w item Hst [Hconn Htool] Hana Hcls Himp Hrep _.
  destruct (started_facts env item w) as (Hc & Hen & Htc & Hpo & Hex & _).
  destruct (started_session env item w) as (s0 & Hs0 & Hph0 & Herr0 & _).
  destruct (phases_success env item (Orchestrator.nextSessionId env w)
              (Orchestrator.started env item w) s0)
    as (pr & w1 & s1 & Hph & Htc1 & Hpo1 & Hex1 & Hem1 & Hs1 & Hst1 & Hca1 & Hpr1 & _ & _ & _
        & Hphases1 & _ & Herr1 & Harm1);
    [congruence | assumption.. |].
  exists pr, w1, s1.
  split.
  { unfold Orchestrator.handleNewQA. rewrite Hst.
    rewrite bool_decide_eq_true_2 by reflexivity. cbn [negb].
    unfold Orchestrator.tryCatch at 1. rewrite processQA_started.
    unfold Orchestrator.tryCatch at 1. now rewrite Hph. }
  split; [now rewrite Hex1, Hex|].
  split; [exact Hs1|]. split; [exact Hst1|]. split; [exact Hca1|].
  split; [now rewrite Herr1|]. split; [exact Hpr1|]. split; [exact Hphases1|].
  split; [exact Harm1|].
  assert (Hcalls :
            Orchestrator.toolCalls w1
            = (Orchestrator.toolCalls w
                 ++ [ Orchestrator.UpdatePage (Types.qa_id item) Types.IN_PROGRESS;
                      Orchestrator.UpdatePage (Types.qa_id item) Types.DONE;
                      Orchestrator.AppendBlock (Types.qa_id item)
                        (Orchestrator.completedComment pr) ]
                 ++ Pipeline.prUrlUpdate env item pr)%list).
  { now rewrite Htc1, Htc. }
  split; [exact Hcalls|]. split.
  { rewrite Hcalls.
    replace (Orchestrator.toolCalls w
               ++ [ Orchestrator.UpdatePage (Types.qa_id item) Types.IN_PROGRESS;
                    Orchestrator.UpdatePage (Types.qa_id item) Types.DONE;
                    Orchestrator.AppendBlock (Types.qa_id item)
                      (Orchestrator.completedComment pr) ]
               ++ Pipeline.prUrlUpdate env item pr)%list
      with ((Orchestrator.toolCalls w
               ++ [Orchestrator.UpdatePage (Types.qa_id item) Types.IN_PROGRESS])
              ++ Orchestrator.UpdatePage (Types.qa_id item) Types.DONE
              :: (Orchestrator.AppendBlock (Types.qa_id item)
                    (Orchestrator.completedComment pr)
                  :: Pipeline.prUrlUpdate env item pr))%list
      by (rewrite <- app_assoc; reflexivity).
    apply trackerStatus_last. unfold Pipeline.prUrlUpdate.
    destruct (Orchestrator.toolError env _); intros c Hin; cbn in Hin;
      intuition (subst; exact I). }
  split; [now rewrite Hpo1, Hpo, Hen|].
  now rewrite Hem1.
Qed.

(** Scenario A on a fresh orchestrator: the tracker refuses the "PR URL"
    property, and the item is completed all the same. *)
Lemma actionable_item_witness :
  exists w',
    Orchestrator.handleNewQA Pipeline.scenarioA SessionManager.loginItem
                             Orchestrator.freshWorld = (Ok tt, w') /\
    Orchestrator.executed w'
    = ["qa-analyzer"; "action-classifier"; "code-agent"; "pr-manager"] /\
    Orchestrator.trackerStatus "page-1" (Orchestrator.toolCalls w') = Some Types.DONE.
Proof.
  destruct (actionable_item_is_completed
              Pipeline.scenarioA Orchestrator.freshWorld SessionManager.loginItem)
    as (pr & w' & s & Hrun & Hex & _ & _ & _ & _ & _ & _ & _ & _ & Htr & _ & _).
  - reflexivity.
  - split; [reflexivity|]. intros c Hc. cbn. now rewrite Hc.
  - intros ctx. exists Orchestrator.sampleAnalysis. eexists.
    split; [vm_compute; reflexivity|]. split; reflexivity.
  - intros a ctx. exists Pipeline.fixIt. split; [|reflexivity].
    eexists. split; [vm_compute; reflexivity|]. split; reflexivity.
  - intros a d ctx. exists Pipeline.sampleChanges. eexists.
    split; [vm_compute; reflexivity|]. split; reflexivity.
  - intros c ctx. exists Pipeline.samplePullRequest. eexists.
    split; [vm_compute; reflexivity|]. split; reflexivity.
  - split; [vm_compute; reflexivity|].
    intros h tm Hpending. cbn in Hpending. now rewrite lookup_empty in Hpending.
  - exists w'. split; [exact Hrun|]. split; [exact Hex | exact Htr].
Defined.

(** X21. The intake loop handles exactly the "not started" items, in
    order: running it over a batch is running it over the batch with the
    other items filtered out, and a batch without "not started" items
    changes nothing. *)
Theorem intake_handles_not_started_items_only :
  forall (env : Orchestrator.Env) (items : list Types.NotionQAItem) (w : Orchestrator.World),
    Orchestrator.handleAll env items w
    = Orchestrator.handleAll env (List.filter Pipeline.notStarted items) w /\
    (List.filter Pipeline.notStarted items = [] ->
     Orchestrator.handleAll env items w = (Ok tt, w)).
Proof.
  intros env items.
  assert (Hfilter : forall w,
             Orchestrator.handleAll env items w
             = Orchestrator.handleAll env (List.filter Pipeline.notStarted items) w).
  { induction items as [|item rest IH]; intros w; [reflexivity|].
    cbn [List.filter]. unfold Pipeline.notStarted at 1.
    destruct (bool_decide_reflect (Types.qa_status item = Types.NOT_STARTED)) as [Hst|Hst].
    - cbn [Orchestrator.handleAll]. unfold Orchestrator.bind.
      destruct (Orchestrator.handleNewQA env item w) as [[[]|t] w']; [apply IH | reflexivity].
    - cbn [Orchestrator.handleAll]. unfold Orchestrator.bind, Orchestrator.handleNewQA.
      rewrite bool_decide_eq_false_2 by assumption. cbn. apply IH. }
  intros w. split; [apply Hfilter|].
  intros Hnone. now rewrite Hfilter, Hnone.
Qed.

Section RefusalFacts.
Import Types Orchestrator Pipeline.
Variable env : Env.

Lemma run_guarded_refusal c e w :
  refusal env w c = Some e -> guarded env c w = (Throw (Js.Err e), w).
Proof.
  unfold refusal, guarded, bind, reads, tryCatch, callTool.
  destruct (notionConnected w); cbn.
  - now intros ->.
  - now intros [= <-].
Qed.

Lemma refusal_started item w c :
  refusal env (started env item w) c = refusal env w c.
Proof. reflexivity. Qed.
End RefusalFacts.

(** X22. When the tracker refuses the status updates of a "not started"
    item (it is disconnected, or the tool call fails), the handler itself
    rejects, with the error of the refused "in review" update: the error
    handler's own tracker call is not guarded.  No agent was executed,
    nothing reached the tracker or the notifier, the session is left
    FAILED with the message of the refused "in progress" update, and the
    intake loop stops there: the rest of the batch is not handled. *)
Theorem refused_status_update_rejects_handler :
  forall (env : Orchestrator.Env) (w : Orchestrator.World) (item : Types.NotionQAItem)
         (e1 e2 : Js.Error),
    Types.qa_status item = Types.NOT_STARTED ->
    Pipeline.refusal env w (Orchestrator.UpdatePage (Types.qa_id item) Types.IN_PROGRESS)
    = Some e1 ->
    Pipeline.refusal env w (Orchestrator.UpdatePage (Types.qa_id item) Types.IN_REVIEW)
    = Some e2 ->
    exists (w' : Orchestrator.World) (s : Types.AgentSession),
      Orchestrator.handleNewQA env item w = (Throw (Js.Err e2), w') /\
      Orchestrator.executed w' = Orchestrator.executed w /\
      Orchestrator.toolCalls w' = Orchestrator.toolCalls w /\
      Orchestrator.posted w' = Orchestrator.posted w /\
      SessionManager.get (Orchestrator.nextSessionId env w) (Orchestrator.sessionManager w')
      = Some s /\
      Types.status s = Types.FAILED /\
      Types.error s = Some (Orchestrator.PROCESSING_ERROR e1) /\
      (forall rest,
          Orchestrator.handleAll env (item :: rest) w = (Throw (Js.Err e2), w')).
Proof.
  intros env w item e1 e2 Hst Hr1 Hr2.
  destruct (started_session env item w) as (s0 & Hs0 & _ & _ & _).
  assert (Hph : Orchestrator.phases env item (Orchestrator.nextSessionId env w)
                  (Orchestrator.started env item w)
                = (Throw (Js.Err e1), Orchestrator.started env item w)).
  { unfold Orchestrator.phases, Orchestrator.updatePageStatus.
    unfold Orchestrator.bind at 1.
    now rewrite (run_guarded_refusal env _ e1 _ (eq_trans (refusal_started env item w _) Hr1)). }
  assert (Hrun : exists w' s,
             Orchestrator.handleNewQA env item w = (Throw (Js.Err e2), w') /\
             Orchestrator.executed w' = Orchestrator.executed w /\
             Orchestrator.toolCalls w' = Orchestrator.toolCalls w /\
             Orchestrator.posted w' = Orchestrator.posted w /\
             SessionManager.get (Orchestrator.nextSessionId env w)
                                (Orchestrator.sessionManager w') = Some s /\
             Types.status s = Types.FAILED /\
             Types.error s = Some (Orchestrator.PROCESSING_ERROR e1)).
  { unfold Orchestrator.handleNewQA. rewrite Hst.
    rewrite bool_decide_eq_true_2 by reflexivity. cbn [negb].
    unfold Orchestrator.tryCatch at 1. rewrite processQA_started.
    unfold Orchestrator.tryCatch at 1. rewrite Hph.
    erewrite bind_ok by reflexivity. unfold Orchestrator.throw.
    unfold Orchestrator.handleError, Orchestrator.updatePageStatus.
    unfold Orchestrator.bind at 1.
    rewrite (run_guarded_refusal env _ e2); [|exact Hr2].
    eexists _, _. split; [reflexivity|].
    cbn [Orchestrator.executed Orchestrator.sessionManager Orchestrator.toolCalls
         Orchestrator.posted Orchestrator.setSessionManager].
    do 3 (split; [reflexivity|]).
    unfold SessionManager.get.
    rewrite updateStatus_sessions, lookup_alter_eq, Hs0. cbn [fmap option_fmap option_map].
    split; [reflexivity|]. split; reflexivity. }
  destruct Hrun as (w' & s & Hrun & Hex & Htc & Hpo & Hs & Hstat & Herr).
  exists w', s. do 7 (split; [assumption|]).
  intros rest. cbn [Orchestrator.handleAll]. unfold Orchestrator.bind. now rewrite Hrun.
Qed.

(** The driver was started before the tracker client was connected. *)
Lemma refused_status_update_witness :
  exists w',
    Orchestrator.handleAll Orchestrator.scenarioB
      [SessionManager.loginItem; SessionManager.loginItem]
      (Orchestrator.mkWorld 1000 (SessionManager.new None) None true false [] true [] [] 0 [])
    = (Throw (Js.Err (Js.newError "Not connected to Notion MCP")), w') /\
    Orchestrator.executed w' = [].
Proof.
  destruct (refused_status_update_rejects_handler Orchestrator.scenarioB
              (Orchestrator.mkWorld 1000 (SessionManager.new None) None true false
                                    [] true [] [] 0 [])
              SessionManager.loginItem
              (Js.newError "Not connected to Notion MCP")
              (Js.newError "Not connected to Notion MCP"))
    as (w' & s & _ & Hex & _ & _ & _ & _ & _ & Hall).
  - reflexivity.
  - reflexivity.
  - reflexivity.
  - exists w'. split; [apply Hall | exact Hex].
Defined.

Section NoUndefined.
Import Types Orchestrator Pipeline.
Variable env : Env.

Lemma errors_bind {A B} (c : M A) (k : A -> M B) :
  throwsErrorsOnly c -> (forall a, throwsErrorsOnly (k a)) -> throwsErrorsOnly (bind c k).
Proof.
  intros Hc Hk w. unfold bind. specialize (Hc w).
  destruct (c w) as [[a|t] w1]; [apply Hk|].
  cbn in *. intros [= ->]. now apply Hc.
Qed.

(** A [catch] whose handler throws errors only does so itself, whatever
    the [try] block throws. *)
Lemma errors_tryCatch {A} (c : M A) (handler : Js.Error -> M A) :
  (forall e, throwsErrorsOnly (handler e)) -> throwsErrorsOnly (tryCatch c handler).
Proof.
  intros Hh w. unfold tryCatch.
  destruct (c w) as [[a|[e|]] w1]; cbn; [discriminate | apply Hh | discriminate].
Qed.

Lemma errors_guarded c : throwsErrorsOnly (guarded env c).
Proof.
  apply errors_bind; [intros w; discriminate|].
  intros connected. destruct (negb connected); [intros w; discriminate|].
  apply errors_tryCatch. intros e w. discriminate.
Qed.

Lemma errors_post m : throwsErrorsOnly (post env m).
Proof.
  intros w. unfold post.
  destruct (negb (slackEnabled w)); [discriminate|].
  destruct (postError env m); discriminate.
Qed.

Lemma errors_handleNewQA item : throwsErrorsOnly (handleNewQA env item).
Proof.
  unfold handleNewQA.
  destruct (negb (bool_decide (qa_status item = NOT_STARTED))); [intros w; discriminate|].
  apply errors_tryCatch. intros e. unfold handleError.
  apply errors_bind; [apply errors_guarded | intros _].
  apply errors_bind; [apply errors_guarded | intros _].
  apply errors_post.
Qed.

Lemma errors_handleAll items : throwsErrorsOnly (handleAll env items).
Proof.
  induction items as [|item rest IH]; [intros w; discriminate|].
  cbn [handleAll]. apply errors_bind; [apply errors_handleNewQA | intros _; exact IH].
Qed.

Lemma errors_poll pages :
  throwsErrorsOnly (bind (queryDatabase env (Some NOT_STARTED) pages) (handleAll env)).
Proof.
  apply errors_bind; [|intros items; apply errors_handleAll].
  unfold queryDatabase. apply errors_bind; [apply errors_guarded | intros _ w; discriminate].
Qed.
End NoUndefined.

(** X23. A tick of the polling timer never rejects, whatever the tracker,
    the notifier and the agents do: every failure ends in the callback's
    own [catch].  When the orchestrator is stopped the tick does nothing;
    when the query for new items is refused, no item is handled. *)
Theorem polling_tick_never_rejects :
  forall (env : Orchestrator.Env) (pages : list Types.NotionQAItem) (w : Orchestrator.World),
    (exists w', Orchestrator.pollTick env pages w = (Ok tt, w')) /\
    (Orchestrator.isRunning w = false -> Orchestrator.pollTick env pages w = (Ok tt, w)) /\
    (forall e,
        Pipeline.refusal env w (Orchestrator.QueryDatabase (Some Types.NOT_STARTED)) = Some e ->
        Orchestrator.pollTick env pages w = (Ok tt, w)).
Proof.
  intros env pages w.
  assert (Hunfold :
            Orchestrator.pollTick env pages w
            = if negb (Orchestrator.isRunning w) then (Ok tt, w)
              else Orchestrator.tryCatch
                     (Orchestrator.bind
                        (Orchestrator.queryDatabase env (Some Types.NOT_STARTED) pages)
                        (Orchestrator.handleAll env))
                     (fun _ => Orchestrator.ret tt) w).
  { unfold Orchestrator.pollTick, Orchestrator.bind at 1, Orchestrator.reads.
    destruct (Orchestrator.isRunning w); reflexivity. }
  rewrite Hunfold. clear Hunfold.
  destruct (Orchestrator.isRunning w) eqn:Hrun; cbn [negb].
  - split; [|split; [discriminate|]].
    + unfold Orchestrator.tryCatch.
      pose proof (errors_poll env pages w) as Hdef.
      destruct (Orchestrator.bind
                  (Orchestrator.queryDatabase env (Some Types.NOT_STARTED) pages)
                  (Orchestrator.handleAll env) w) as [[[]|[e|]] w1]; cbn in *;
        [eauto | eauto | congruence].
    + intros e He.
      unfold Orchestrator.tryCatch, Orchestrator.bind at 1, Orchestrator.queryDatabase,
        Orchestrator.bind at 1.
      now rewrite (run_guarded_refusal env _ e w He).
  - split; [eauto|]. split; reflexivity.
Qed.

(** The intake found one page that is already in progress. *)
Lemma polling_tick_witness :
  Orchestrator.pollTick Orchestrator.scenarioB [SessionManager.loginItem]
    (Orchestrator.mkWorld 1000 (SessionManager.new None) None false true [] true [] [] 0 [])
  = (Ok tt,
     Orchestrator.mkWorld 1000 (SessionManager.new None) None false true [] true [] [] 0 []).
Proof.
  destruct (polling_tick_never_rejects Orchestrator.scenarioB [SessionManager.loginItem]
              (Orchestrator.mkWorld 1000 (SessionManager.new None) None false true
                                    [] true [] [] 0 []))
    as (_ & Hstopped & _).
  apply Hstopped. reflexivity.
Defined.

Lemma intake_witness :
  Orchestrator.handleAll Orchestrator.scenarioB
    [ Types.mkQAItem "page-7" "https://www.notion.so/page-7" "typo" "typo" Types.DONE
                     None None "Unknown" "db-1" ]
    Orchestrator.freshWorld
  = (Ok tt, Orchestrator.freshWorld).
Proof.
  destruct (intake_handles_not_started_items_only Orchestrator.scenarioB
              [ Types.mkQAItem "page-7" "https://www.notion.so/page-7" "typo" "typo" Types.DONE
                               None None "Unknown" "db-1" ]
              Orchestrator.freshWorld) as [_ Hnone].
  apply Hnone. reflexivity.
Defined.

Section SlackIndependence.
Import Types Orchestrator Pipeline.
Variable env : Env.
Variable f : SlackMessage -> option Js.Error.

Lemma sameButSlack_refl w : sameButSlack w w.
Proof. repeat split. Qed.


















End SlackIndependence.



(** ** Orchestrator life cycle *)

(** X25. [start] on an orchestrator whose tracker client is not connected
    rejects with "Not connected to Notion MCP", arms no polling and emits
    no [started]; but it has already set [isRunning], and nothing resets
    it: after a later successful [initialize], [start] returns at once as
    "already running", still without polling and without [started], while
    [getStats()] reports the orchestrator as running. *)
Theorem failed_start_blocks_later_starts :
  forall (a : Lifecycle.Agent),
    Orchestrator.isRunning (Lifecycle.world a) = false ->
    Orchestrator.notionConnected (Lifecycle.world a) = false ->
    let a1 := (Lifecycle.start a).2 in
    let a2 := (Lifecycle.initialize None a1).2 in
    (Lifecycle.start a).1 = Throw (Js.Err (Js.newError "Not connected to Notion MCP")) /\
    Lifecycle.intervals a1 = Lifecycle.intervals a /\
    Lifecycle.lifecycle a1 = Lifecycle.lifecycle a /\
    Orchestrator.notionConnected (Lifecycle.world a2) = true /\
    Lifecycle.start a2 = (Ok tt, a2) /\
    Lifecycle.intervals a2 = Lifecycle.intervals a /\
    Lifecycle.lifecycle a2 = Lifecycle.lifecycle a /\
    Lifecycle.st_isRunning (Lifecycle.getStats a2) = true.
Proof.
  intros [w p i n l] Hrun Hconn. cbn in Hrun, Hconn.
  unfold Lifecycle.start, Lifecycle.subscribeToDatabase, Lifecycle.initialize,
    Lifecycle.connect, Lifecycle.getStats.
  cbn. rewrite Hrun. cbn. rewrite Hconn. cbn. repeat split.
Qed.

Lemma failed_start_witness :
  Lifecycle.start
    (Lifecycle.initialize None (Lifecycle.start Lifecycle.constructed).2).2
  = (Ok tt, (Lifecycle.initialize None (Lifecycle.start Lifecycle.constructed).2).2) /\
  Lifecycle.intervals
    (Lifecycle.initialize None (Lifecycle.start Lifecycle.constructed).2).2 = [].
Proof.
  destruct (failed_start_blocks_later_starts Lifecycle.constructed)
    as (_ & _ & _ & _ & Hstart & Hint & _).
  - reflexivity.
  - reflexivity.
  - split; [exact Hstart | exact Hint].
Defined.

(** X26. [start] on a connected, stopped orchestrator arms exactly one
    polling interval and emits [started]; a second [start] changes
    nothing.  [stop] never rejects, even when closing the tracker
    connection fails: it clears [isRunning], cancels the interval [start]
    armed and emits [stopped]; a polling tick that still runs afterwards
    does nothing. *)
Theorem start_arms_polling_once_and_stop_cancels_it :
  forall (env : Orchestrator.Env) (pages : list Types.NotionQAItem)
         (closeError : option Js.Error) (a : Lifecycle.Agent),
    Orchestrator.isRunning (Lifecycle.world a) = false ->
    Orchestrator.notionConnected (Lifecycle.world a) = true ->
    ~ In (Lifecycle.nextInterval a) (Lifecycle.intervals a) ->
    let a1 := (Lifecycle.start a).2 in
    let a2 := (Lifecycle.stop closeError a1).2 in
    (Lifecycle.start a).1 = Ok tt /\
    Lifecycle.intervals a1 = (Lifecycle.intervals a ++ [Lifecycle.nextInterval a])%list /\
    Lifecycle.lifecycle a1 = (Lifecycle.lifecycle a ++ [Lifecycle.Started])%list /\
    Lifecycle.start a1 = (Ok tt, a1) /\
    (Lifecycle.stop closeError a1).1 = Ok tt /\
    Orchestrator.isRunning (Lifecycle.world a2) = false /\
    Lifecycle.intervals a2 = Lifecycle.intervals a /\
    Lifecycle.lifecycle a2
    = (Lifecycle.lifecycle a ++ [Lifecycle.Started; Lifecycle.Stopped])%list /\
    Orchestrator.notionConnected (Lifecycle.world a2)
    = (if closeError is None then false else true) /\
    (forall h, Lifecycle.tick env pages h a2 = (Ok tt, a2)) /\
    Orchestrator.pollTick env pages (Lifecycle.world a2) = (Ok tt, Lifecycle.world a2).
Proof.
  intros env pages closeError [[clk sm pc running conn calls en po ex dr em] p i n l]
         Hrun Hconn Hfresh.
  cbn in Hrun, Hconn, Hfresh. subst running conn.
  assert (Hfilter : List.filter (fun h' => negb (Nat.eqb h' n)) (i ++ [n])%list = i).
  { rewrite List.filter_app. cbn. rewrite Nat.eqb_refl. cbn. rewrite app_nil_r.
    clear -Hfresh. induction i as [|x i IH]; [reflexivity|].
    cbn. destruct (Nat.eqb_spec x n) as [->|Hne].
    - exfalso. apply Hfresh. now left.
    - cbn. f_equal. apply IH. intros Hin. apply Hfresh. now right. }
  unfold Lifecycle.start, Lifecycle.subscribeToDatabase, Lifecycle.stop,
    Lifecycle.disconnect, Lifecycle.clearPolling, Lifecycle.setupPolling, Lifecycle.tick.
  cbn. rewrite Hfilter.
  split; [reflexivity|]. split; [reflexivity|]. split; [reflexivity|].
  split; [reflexivity|].
  destruct closeError as [e|]; cbn; rewrite <- ?app_assoc;
    (do 5 (split; [reflexivity|]));
    (split; [|reflexivity]);
    intros h; destruct (existsb (Nat.eqb h) i); reflexivity.
Qed.

Lemma start_stop_witness :
  Lifecycle.lifecycle
    (Lifecycle.stop (Some (Js.newError "transport closed"))
       (Lifecycle.start (Lifecycle.initialize None Lifecycle.constructed).2).2).2
  = [Lifecycle.Started; Lifecycle.Stopped] /\
  Lifecycle.intervals
    (Lifecycle.stop (Some (Js.newError "transport closed"))
       (Lifecycle.start (Lifecycle.initialize None Lifecycle.constructed).2).2).2
  = [].
Proof.
  destruct (start_arms_polling_once_and_stop_cancels_it Orchestrator.scenarioB []
              (Some (Js.newError "transport closed"))
              (Lifecycle.initialize None Lifecycle.constructed).2)
    as (_ & _ & _ & _ & _ & _ & Hint & Hlife & _).
  - reflexivity.
  - reflexivity.
  - cbn. tauto.
  - split; [exact Hlife | exact Hint].
Defined.

(** ** Step Runner: errors that are not retried *)

Lemma final_error_result {O} (config : BaseAgent.AgentConfig)
      (run : nat -> BaseAgent.Behaviour O) (s : BaseAgent.Settles O) (e : Js.Error) :
  run 0%nat = Some s ->
  BaseAgent.after s <= BaseAgent.timerDelay (BaseAgent.effectiveTimeout config) ->
  BaseAgent.result s = Throw (Js.Err e) ->
  Retry.isRetryableError e (Retry.merge (BaseAgent.retryOptions config)) = false ->
  1 <= Js.numOr (BaseAgent.retries config) 3 ->
  BaseAgent.execute config run
  = Ok {| BaseAgent.success := false;
          BaseAgent.data := None;
          BaseAgent.error :=
            Some {| BaseAgent.r_message := Js.message e;
                    BaseAgent.r_code := Js.optOr (Js.code e) "AGENT_ERROR";
                    BaseAgent.r_retryable := false |};
          BaseAgent.metadata :=
            {| BaseAgent.executionTime := Z.max 0 (BaseAgent.after s);
               BaseAgent.retryCount := 0;
               BaseAgent.m_agentType := BaseAgent.agentType config |} |} /\
  Retry.invocations (BaseAgent.attempts config run) = 1%nat.
Proof.
  intros Hrun Hin Hres Hfinal Hbudget.
  assert (Hfirst : BaseAgent.executeWithTimeout config run 0 = Throw (Js.Err e)).
  { unfold BaseAgent.executeWithTimeout, BaseAgent.raceEvents. rewrite Hrun.
    destruct (Z.leb_spec (BaseAgent.after s)
                         (BaseAgent.timerDelay (BaseAgent.effectiveTimeout config))); [|lia].
    cbn. exact Hres. }
  assert (Hattempts :
            BaseAgent.attempts config run = Retry.mkRun (Throw (Js.Err e)) 1 [] []).
  { unfold BaseAgent.attempts, Retry.retry. cbv zeta.
    change (Retry.maxAttempts (Retry.merge (BaseAgent.retryOptions config)))
      with (Js.numOr (BaseAgent.retries config) 3).
    destruct (Z.to_nat (Js.numOr (BaseAgent.retries config) 3)) as [|n] eqn:Hn; [lia|].
    cbn [Retry.loop]. rewrite Hfirst.
    rewrite Hfinal. cbn [negb].
    now destruct (1 >=? Retry.maxAttempts (Retry.merge (BaseAgent.retryOptions config))). }
  assert (Hflag : BaseAgent.isRetryableError e = false).
  { rewrite (default_classification_is_agent_or_ENOTFOUND e
               (Retry.merge (BaseAgent.retryOptions config)) eq_refl) in Hfinal.
    now apply orb_false_elim in Hfinal as [-> _]. }
  pose proof (timerDelay_positive (BaseAgent.effectiveTimeout config)).
  unfold BaseAgent.execute, BaseAgent.executeBody, BaseAgent.executeCatch, BaseAgent.meta,
    BaseAgent.elapsed.
  rewrite Hattempts. cbn [Retry.outcome Retry.invocations Retry.sleeps Retry.onRetryCalls].
  split; [|reflexivity]. rewrite Hflag. cbn. unfold BaseAgent.raceDuration. rewrite Hrun.
  do 3 f_equal. lia.
Qed.

(** X27. An operation whose first invocation rejects in time with an error
    that the retry policy does not classify as retryable is not invoked
    again, whatever the retry budget (at least 1): [execute] resolves to
    the failure Step Result with the error's message, its code (or
    AGENT_ERROR), [retryable = false], [retryCount = 0] and the
    operation's latency as execution time. *)
Theorem non_retryable_error_fails_at_once :
  forall (O : Type) (config : BaseAgent.AgentConfig) (run : nat -> BaseAgent.Behaviour O)
         (s : BaseAgent.Settles O) (e : Js.Error),
    run 0%nat = Some s ->
    BaseAgent.after s <= BaseAgent.timerDelay (BaseAgent.effectiveTimeout config) ->
    BaseAgent.result s = Throw (Js.Err e) ->
    Retry.isRetryableError e (Retry.merge (BaseAgent.retryOptions config)) = false ->
    1 <= Js.numOr (BaseAgent.retries config) 3 ->
    BaseAgent.execute config run
    = Ok {| BaseAgent.success := false;
            BaseAgent.data := None;
            BaseAgent.error :=
              Some {| BaseAgent.r_message := Js.message e;
                      BaseAgent.r_code := Js.optOr (Js.code e) "AGENT_ERROR";
                      BaseAgent.r_retryable := false |};
            BaseAgent.metadata :=
              {| BaseAgent.executionTime := Z.max 0 (BaseAgent.after s);
                 BaseAgent.retryCount := 0;
                 BaseAgent.m_agentType := BaseAgent.agentType config |} |} /\
    Retry.invocations (BaseAgent.attempts config run) = 1%nat.
Proof. intros O config run s e. apply final_error_result. Qed.

(** The model answered with something that is not JSON. *)
Lemma non_retryable_error_witness :
  Retry.invocations
    (BaseAgent.attempts
       (BaseAgent.construct (BaseAgent.mkAgentConfig "qa-analyzer" None (Some 5) None))
       (fun _ : nat =>
          Some (BaseAgent.mkSettles 800
                  (@Throw bool
                     (Js.Err (Js.newError "Failed to parse JSON response from Claude"))))))
  = 1%nat.
Proof.
  apply (non_retryable_error_fails_at_once bool
           (BaseAgent.construct (BaseAgent.mkAgentConfig "qa-analyzer" None (Some 5) None))
           (fun _ : nat =>
              Some (BaseAgent.mkSettles 800
                      (@Throw bool
                         (Js.Err (Js.newError "Failed to parse JSON response from Claude")))))
           (BaseAgent.mkSettles 800
              (@Throw bool (Js.Err (Js.newError "Failed to parse JSON response from Claude"))))
           (Js.newError "Failed to parse JSON response from Claude")).
  - reflexivity.
  - vm_compute. discriminate.
  - reflexivity.
  - vm_compute. reflexivity.
  - vm_compute. discriminate.
Defined.

(** X28. The code agent never implements a decision that says "do not
    act", and never works without an analysis and a decision: [execute]
    then resolves, after a single invocation and without consulting the
    model, to a failure Step Result that is not retryable, with
    [retryCount = 0], and whose message names the guard that fired. *)
Theorem code_agent_refuses_without_actionable_decision :
  forall (config : BaseAgent.AgentConfig) (input : option CodeAgent.CodeAgentInput)
         (context : Types.AgentContext)
         (implement : Types.QAAnalysis -> Types.ClassificationDecision -> nat ->
                      BaseAgent.Behaviour Types.CodeChanges),
    1 <= Js.numOr (BaseAgent.retries config) 3 ->
    (forall a d, CodeAgent.analysisOf input context = Some a ->
                 CodeAgent.decisionOf input context = Some d ->
                 Types.shouldAct d = false) ->
    exists msg,
      BaseAgent.execute (CodeAgent.construct config) (CodeAgent.run input context implement)
      = Ok {| BaseAgent.success := false;
              BaseAgent.data := None;
              BaseAgent.error :=
                Some {| BaseAgent.r_message := msg;
                        BaseAgent.r_code := "AGENT_ERROR";
                        BaseAgent.r_retryable := false |};
              BaseAgent.metadata :=
                {| BaseAgent.executionTime := 0;
                   BaseAgent.retryCount := 0;
                   BaseAgent.m_agentType := "code-agent" |} |} /\
      Retry.invocations
        (BaseAgent.attempts (CodeAgent.construct config)
                            (CodeAgent.run input context implement)) = 1%nat /\
      msg = (if CodeAgent.analysisOf input context is Some _
             then if CodeAgent.decisionOf input context is Some _
                  then "Code agent called for non-actionable QA item"
                  else "Missing analysis or decision for code implementation"
             else "Missing analysis or decision for code implementation").
Proof.
  intros config input context implement Hbudget Hguard.
  pose proof (timerDelay_positive (BaseAgent.effectiveTimeout (CodeAgent.construct config)))
    as Hpos.
  assert (Hsettles : exists msg,
             CodeAgent.run input context implement 0%nat
             = Some (BaseAgent.mkSettles 0 (Throw (Js.Err (Js.newError msg)))) /\
             Retry.isRetryableError (Js.newError msg)
               (Retry.merge (BaseAgent.retryOptions (CodeAgent.construct config))) = false /\
             msg = (if CodeAgent.analysisOf input context is Some _
                    then if CodeAgent.decisionOf input context is Some _
                         then "Code agent called for non-actionable QA item"
                         else "Missing analysis or decision for code implementation"
                    else "Missing analysis or decision for code implementation")).
  { unfold CodeAgent.run, CodeAgent.analysisOf, CodeAgent.decisionOf in *.
    destruct input as [i|].
    - rewrite (Hguard _ _ eq_refl eq_refl). cbn [negb].
      eexists. split; [reflexivity|]. split; [vm_compute|]; reflexivity.
    - destruct (Types.analysis context) as [a|], (Types.decision context) as [d|].
      + rewrite (Hguard _ _ eq_refl eq_refl). cbn [negb].
        eexists. split; [reflexivity|]. split; [vm_compute|]; reflexivity.
      + eexists. split; [reflexivity|]. split; [vm_compute|]; reflexivity.
      + eexists. split; [reflexivity|]. split; [vm_compute|]; reflexivity.
      + eexists. split; [reflexivity|]. split; [vm_compute|]; reflexivity. }
  destruct Hsettles as (msg & Hrun & Hfinal & Hmsg).
  exists msg.
  destruct (final_error_result (CodeAgent.construct config)
              (CodeAgent.run input context implement) _ (Js.newError msg) Hrun)
    as [Hexec Hinv]; [cbn [BaseAgent.after]; lia | reflexivity | exact Hfinal | |].
  { cbn. destruct (BaseAgent.retries config) as [n|]; cbn in *; [|lia].
    destruct (Z.eqb_spec n 0); cbn; [lia|].
    destruct (Z.eqb_spec n 0); [contradiction | lia]. }
  split; [exact Hexec|]. split; [exact Hinv | exact Hmsg].
Qed.

(** The classifier said "needs product decision"; the model would have
    produced a change. *)
Lemma code_agent_refuses_witness :
  exists msg,
    BaseAgent.error <$>
      (match BaseAgent.execute
               (CodeAgent.construct (Orchestrator.onlyType "code-agent"))
               (CodeAgent.run
                  (Some (CodeAgent.mkInput Orchestrator.sampleAnalysis
                                           Orchestrator.needsProductDecision))
                  (Types.context
                     (SessionManager.newSession 1000 "session-1000-k3x9q2a"
                                                SessionManager.loginItem Types.noUpdates))
                  (fun _ _ _ => Some (BaseAgent.mkSettles 90000 (Ok Pipeline.sampleChanges))))
       with Ok r => Some r | Throw _ => None end)
    = Some (Some (BaseAgent.mkResultError msg "AGENT_ERROR" false)).
Proof.
  destruct (code_agent_refuses_without_actionable_decision
              (Orchestrator.onlyType "code-agent")
              (Some (CodeAgent.mkInput Orchestrator.sampleAnalysis
                                       Orchestrator.needsProductDecision))
              (Types.context
                 (SessionManager.newSession 1000 "session-1000-k3x9q2a"
                                            SessionManager.loginItem Types.noUpdates))
              (fun _ _ _ => Some (BaseAgent.mkSettles 90000 (Ok Pipeline.sampleChanges))))
    as (msg & Hexec & _ & _).
  - vm_compute. discriminate.
  - intros a d [= <-] [= <-]. reflexivity.
  - exists msg. rewrite Hexec. reflexivity.
Defined.

(** ** Token checks *)

Section TokenFacts.
Import Validation.

Lemma stripPrefix_spec (prefix s rest : string) :
  stripPrefix prefix s = Some rest -> s = (prefix ++ rest)%string.
Proof.
  revert s. induction prefix as [|a p IH]; intros s; cbn.
  - now intros [= ->].
  - destruct s as [|b r]; [discriminate|].
    destruct (Ascii.eqb_spec a b) as [->|]; [|discriminate].
    intros H. now rewrite (IH r H).
Qed.

Lemma length_append (a b : string) :
  String.length (a ++ b) = (String.length a + String.length b)%nat.
Proof.
  induction a as [|c a IH]; [reflexivity|].
  change (S (String.length (a ++ b)) = S (String.length a + String.length b)).
  now f_equal.
Qed.
End TokenFacts.

(** X29. The token checks fix the shape of what they accept: a Notion
    token is "secret_" followed by exactly 43 characters, 50 in all; an
    Anthropic key is "sk-ant-api", two digits, a hyphen and exactly 95
    characters, 108 in all; a GitHub token is "gh", one kind letter and an
    underscore followed by at least 36 characters, so at least 40 in
    all. *)
Theorem accepted_tokens_have_fixed_shape :
  forall token : string,
    (Validation.isValidNotionToken token = true ->
     String.length token = 50%nat /\ Validation.stripPrefix "secret_" token <> None) /\
    (Validation.isValidAnthropicKey token = true ->
     String.length token = 108%nat /\ Validation.stripPrefix "sk-ant-api" token <> None /\
     exists d1 d2 rest,
       token = ("sk-ant-api" ++ String d1 (String d2 (String "-" rest)))%string /\
       Validation.isDigit d1 = true /\ Validation.isDigit d2 = true /\
       String.length rest = 95%nat) /\
    (Validation.isValidGitHubToken token = true ->
     (40 <= String.length token)%nat /\ Validation.stripPrefix "gh" token <> None).
Proof.
  intros token. split; [|split].
  - unfold Validation.isValidNotionToken.
    destruct (Validation.stripPrefix "secret_" token) as [rest|] eqn:Hp; [|discriminate].
    intros H. apply andb_prop in H as [Hlen _]. apply Nat.eqb_eq in Hlen.
    split; [|discriminate].
    rewrite (stripPrefix_spec _ _ _ Hp), length_append, Hlen. reflexivity.
  - unfold Validation.isValidAnthropicKey.
    destruct (Validation.stripPrefix "sk-ant-api" token) as [rest|] eqn:Hp; [|discriminate].
    destruct rest as [|d1 [|d2 [|h rest]]]; try discriminate.
    destruct (Ascii.eqb_spec h "-"%char) as [->|Hne].
    + intros H. apply andb_prop in H as [H _]. apply andb_prop in H as [Hdigits Hlen].
      apply andb_prop in Hdigits as [Hd1 Hd2].
      apply Nat.eqb_eq in Hlen. split; [|split; [discriminate|]].
      * rewrite (stripPrefix_spec _ _ _ Hp), length_append. cbn. rewrite Hlen. reflexivity.
      * exists d1, d2, rest. split; [exact (stripPrefix_spec _ _ _ Hp)|]. auto.
    + intros H. exfalso. apply Hne.
      destruct h as [[] [] [] [] [] [] [] []]; try discriminate H; reflexivity.
  - unfold Validation.isValidGitHubToken.
    destruct (Validation.stripPrefix "gh" token) as [rest|] eqn:Hp; [|discriminate].
    destruct rest as [|kind [|u rest]]; try discriminate.
    destruct (Ascii.eqb_spec u "_"%char) as [->|Hne].
    + intros H. apply andb_prop in H as [H _]. apply andb_prop in H as [_ Hlen].
      apply Nat.leb_le in Hlen. split; [|discriminate].
      rewrite (stripPrefix_spec _ _ _ Hp), length_append. cbn. lia.
    + intros H. exfalso. apply Hne.
      destruct u as [[] [] [] [] [] [] [] []]; try discriminate H; reflexivity.
Qed.

Lemma accepted_tokens_witness :
  String.length "secret_abcdefghijklmnopqrstuvwxyzABCDEFGHIJKLMNOPQ" = 50%nat.
Proof.
  destruct (accepted_tokens_have_fixed_shape
              "secret_abcdefghijklmnopqrstuvwxyzABCDEFGHIJKLMNOPQ") as [Hnotion _].
  apply Hnotion. vm_compute. reflexivity.
Defined.

(** ** Analysis defaults and classifier heuristics *)

Section HeuristicFacts.
Import Strategies.

Lemma optOr_is (o : option string) (d v : string) :
  v <> d ->
  (Js.optOr o d = v <-> o = Some v /\ v <> "").
Proof.
  intros Hvd. unfold Js.optOr, Js.strOr. destruct o as [s|].
  - destruct (String.eqb_spec s "") as [->|Hs].
    + split; [congruence|]. intros [[= <-] Hne]. congruence.
    + split; [intros <-; auto | intros [[= ->] _]; reflexivity].
  - split; [congruence | intros [[=] _]].
Qed.

Lemma isEmpty_listOr {A} (o : option (list A)) :
  isEmpty (listOr o []) = false <-> exists x l, o = Some (x :: l).
Proof.
  destruct o as [[|x l]|]; cbn; split; try discriminate; eauto;
    intros (? & ? & [=]).
Qed.

Lemma ltScore_default (o : option Score) :
  ltScore (scoreOr o (score 1 2)) (score 2 5) = false <->
  (forall q, o = Some q ->
     QArith_base.Qeq q (score 0 1) \/ QArith_base.Qle (score 2 5) q).
Proof.
  unfold ltScore, scoreOr. rewrite negb_false_iff.
  destruct o as [q|].
  - destruct (QArith_base.Qeq_bool q (score 0 1)) eqn:Hz.
    + split; [|reflexivity]. intros _ q' [= <-]. left.
      now apply QArith_base.Qeq_bool_iff.
    + rewrite QArith_base.Qle_bool_iff. split.
      * intros Hle q' [= <-]. now right.
      * intros H. destruct (H q eq_refl) as [Hq|Hq]; [|exact Hq].
        apply QArith_base.Qeq_bool_iff in Hq. congruence.
  - split; [intros _ q [=] | reflexivity].
Qed.
End HeuristicFacts.

(** X30. What the analyzer's defaults mean for the classifier.  An
    analysis built by [synthesizeAnalysis] passes the classifier's
    heuristics exactly when the model's answer named an issue type other
    than "question", at least one step to reproduce and at least one
    affected component, gave no confidence, confidence 0 (which the
    default turns into 0.5) or a confidence of at least 0.4, and is not a
    "documentation" issue of "low" severity.  Otherwise
    [ActionClassifierAgent.run] settles at once, without calling the
    model, with [shouldAct = false], confidence 0.9 and the reason of the
    first rule that fired. *)
Theorem synthesized_analysis_passes_heuristics_iff :
  forall (parsed : Strategies.Synthesized) (evidence : list Strategies.VisualEvidence),
    let analysis := Strategies.synthesizeAnalysis parsed evidence in
    ((Strategies.evaluateWithHeuristics analysis).1 = true <->
     (exists t, Strategies.p_issueType parsed = Some t /\ t <> "" /\ t <> "question") /\
     (exists x l, Strategies.p_stepsToReproduce parsed = Some (x :: l)) /\
     (exists x l, Strategies.p_affectedComponents parsed = Some (x :: l)) /\
     (forall q, Strategies.p_confidence parsed = Some q ->
        QArith_base.Qeq q (Strategies.score 0 1) \/
        QArith_base.Qle (Strategies.score 2 5) q) /\
     ~ (Strategies.p_issueType parsed = Some "documentation" /\
        Strategies.p_severity parsed = Some "low")) /\
    ((Strategies.evaluateWithHeuristics analysis).1 = false ->
     forall now classifyWithAI k,
       Strategies.run now (Some analysis) classifyWithAI k
       = Some (BaseAgent.mkSettles 0
                 (Ok {| Strategies.d_shouldAct := false;
                        Strategies.d_confidence := Strategies.score 9 10;
                        Strategies.d_reason := (Strategies.evaluateWithHeuristics analysis).2;
                        Strategies.d_workType := None;
                        Strategies.d_estimatedComplexity := None;
                        Strategies.d_requiredSkills := None;
                        Strategies.d_blockers := None;
                        Strategies.d_prerequisites := None;
                        Strategies.d_classifiedAt := now |}))).
Proof.
  intros parsed evidence analysis. split.
  - subst analysis. unfold Strategies.evaluateWithHeuristics, Strategies.synthesizeAnalysis.
    cbn [Strategies.issueType Strategies.severity Strategies.stepsToReproduce
         Strategies.affectedComponents Strategies.confidence].
    pose proof (isEmpty_listOr (Strategies.p_stepsToReproduce parsed)) as Hsteps.
    pose proof (isEmpty_listOr (Strategies.p_affectedComponents parsed)) as Hcomps.
    pose proof (ltScore_default (Strategies.p_confidence parsed)) as Hconf.
    pose proof (optOr_is (Strategies.p_issueType parsed) "question" "documentation"
                         ltac:(discriminate)) as Hdoc.
    pose proof (optOr_is (Strategies.p_severity parsed) "medium" "low"
                         ltac:(discriminate)) as Hlow.
    assert (Hq : Js.optOr (Strategies.p_issueType parsed) "question" <> "question" <->
                 exists t, Strategies.p_issueType parsed = Some t /\ t <> "" /\
                           t <> "question").
    { unfold Js.optOr, Js.strOr. destruct (Strategies.p_issueType parsed) as [s|].
      - destruct (String.eqb_spec s "") as [->|Hs].
        + split; [congruence|]. intros (t & [= <-] & Hne & _). congruence.
        + split; [eauto|]. intros (t & [= <-] & _ & Hne). exact Hne.
      - split; [congruence|]. intros (t & [=] & _). }
    destruct (String.eqb_spec (Js.optOr (Strategies.p_issueType parsed) "question")
                              "question") as [Hquestion|Hquestion].
    { cbn. split; [discriminate|]. intros (Ht & _). apply Hq in Ht. contradiction. }
    apply Hq in Hquestion.
    destruct (Strategies.isEmpty
                (Strategies.listOr (Strategies.p_stepsToReproduce parsed) [])) eqn:Es.
    { cbn. split; [discriminate|]. intros (_ & Hs & _). apply Hsteps in Hs. discriminate. }
    destruct (Strategies.isEmpty
                (Strategies.listOr (Strategies.p_affectedComponents parsed) [])) eqn:Ec.
    { cbn. split; [discriminate|]. intros (_ & _ & Hc & _). apply Hcomps in Hc.
      discriminate. }
    cbn [orb].
    destruct (Strategies.ltScore
                (Strategies.scoreOr (Strategies.p_confidence parsed) (Strategies.score 1 2))
                (Strategies.score 2 5)) eqn:El.
    { cbn. split; [discriminate|]. intros (_ & _ & _ & Hc & _). apply Hconf in Hc.
      discriminate. }
    destruct (String.eqb_spec (Js.optOr (Strategies.p_issueType parsed) "question")
                              "documentation") as [Hd|Hd];
      destruct (String.eqb_spec (Js.optOr (Strategies.p_severity parsed) "medium")
                                "low") as [Hl|Hl]; cbn.
    + split; [discriminate|]. intros (_ & _ & _ & _ & Hnot). exfalso. apply Hnot.
      apply Hdoc in Hd as [Hd _]. apply Hlow in Hl as [Hl _]. auto.
    + split; [intros _|reflexivity].
      split; [exact Hquestion|]. split; [now apply Hsteps|]. split; [now apply Hcomps|].
      split; [now apply Hconf|]. intros [_ Hsev]. apply Hl. apply Hlow. split; [exact Hsev|].
      discriminate.
    + split; [intros _|reflexivity].
      split; [exact Hquestion|]. split; [now apply Hsteps|]. split; [now apply Hcomps|].
      split; [now apply Hconf|]. intros [Hty _]. apply Hd. apply Hdoc. split; [exact Hty|].
      discriminate.
    + split; [intros _|reflexivity].
      split; [exact Hquestion|]. split; [now apply Hsteps|]. split; [now apply Hcomps|].
      split; [now apply Hconf|]. intros [Hty _]. apply Hd. apply Hdoc. split; [exact Hty|].
      discriminate.
  - intros Hrej now classifyWithAI k. unfold Strategies.run. now rewrite Hrej.
Qed.

(** The model's synthesis left out the issue type: the analysis counts as
    a question, and the classifier answers without the model. *)
Lemma synthesized_analysis_witness :
  Strategies.run 1000
    (Some (Strategies.synthesizeAnalysis
             (Strategies.mkSynthesized (Some "login button unresponsive") None (Some "high")
                (Some ["open the login page"]) None None (Some ["LoginForm"]) None None None
                (Some (Strategies.score 9 10)))
             []))
    (fun _ _ => None) 0%nat
  = Some (BaseAgent.mkSettles 0
            (Ok (Strategies.mkDecision false (Strategies.score 9 10)
                   "This is a question, not an actionable issue"
                   None None None None None 1000))).
Proof.
  destruct (synthesized_analysis_passes_heuristics_iff
              (Strategies.mkSynthesized (Some "login button unresponsive") None (Some "high")
                 (Some ["open the login page"]) None None (Some ["LoginForm"]) None None None
                 (Some (Strategies.score 9 10)))
              []) as [_ Hrej].
  rewrite (Hrej eq_refl 1000 (fun _ _ => None) 0%nat). reflexivity.
Defined.
